(** * SQL to MongoDB translator front end: a shallow embedding

    The development follows the JavaScript modules under
    [Frontend/src/translatorJS]: [read.js] ([readParser]), [select.js]
    ([selectParser]), [update.js] ([updateParser] and, in the same file,
    the shell generator [mongoShell]), [delete.js] ([deleteParser]) and
    [api.js] ([translatorAPI] and [createParser]).  Every object of the
    source is a module here and keeps the names of its methods.

    How the source is read:
    - Query text is a [string].  The model maps a-z to A-Z, leaves every
      other character alone, and reads white space as the six ASCII blanks:
      on text of ASCII characters ([asciiText]) this is what the keywords,
      the regular expressions and the case mapping of the source do.  A
      statement that would not hold of the source on other text carries
      [asciiText] as a hypothesis.
    - A thrown [Error] is a value of [result]; a method that posts to the
      backend threads the list of requests posted so far.  [async] and
      [await] leave no trace, the calls being sequential.
    - Writes to the console are left out, and so is the summary a parser
      builds from the backend's answer once the request has been made.
    - Numbers are naturals; the source's doubles agree with them below
      2^53, and a statement about the value of a number carries that bound
      as a hypothesis. *)

From Stdlib Require Import String Ascii List Bool Arith NArith Lia.
From Stdlib Require Import DecimalString.
From Stdlib Require Import ZArith Permutation.
Import ListNotations.
Open Scope bool_scope.
Open Scope string_scope.
Open Scope nat_scope.

Set Implicit Arguments.

(** ** Characters *)

Module Char.

Definition code (c : ascii) : nat := nat_of_ascii c.

Definition between (lo hi : nat) (c : ascii) : bool :=
  (lo <=? code c) && (code c <=? hi).

Definition is_lower : ascii -> bool := between 97 122.
Definition is_upper : ascii -> bool := between 65 90.
Definition is_digit : ascii -> bool := between 48 57.

(** [\w] *)
Definition is_word (c : ascii) : bool :=
  is_lower c || is_upper c || is_digit c || (code c =? 95).

(** [\s] on ASCII text: tab, line feed, vertical tab, form feed, carriage
    return, space. *)
Definition is_space (c : ascii) : bool :=
  between 9 13 c || (code c =? 32).

(** [.] stops at line terminators. *)
Definition is_line_terminator (c : ascii) : bool :=
  (code c =? 10) || (code c =? 13).

Definition toUpper (c : ascii) : ascii :=
  if is_lower c then ascii_of_nat (code c - 32) else c.

Definition toLower (c : ascii) : ascii :=
  if is_upper c then ascii_of_nat (code c + 32) else c.

Definition eqb_ci (a b : ascii) : bool := Ascii.eqb (toUpper a) (toUpper b).

End Char.

(** ** The string methods the source calls *)

Module Str.

Fixpoint map (f : ascii -> ascii) (s : string) : string :=
  match s with
  | EmptyString => EmptyString
  | String c t => String (f c) (map f t)
  end.

(** [toUpperCase] and [toLowerCase], as they are on ASCII text. *)
Definition toUpperCase : string -> string := map Char.toUpper.
Definition toLowerCase : string -> string := map Char.toLower.

Fixpoint startsWith (s p : string) {struct p} : bool :=
  match p, s with
  | EmptyString, _ => true
  | String a p', String b s' => Ascii.eqb a b && startsWith s' p'
  | String _ _, EmptyString => false
  end.

Fixpoint includes (s p : string) : bool :=
  startsWith s p ||
  match s with
  | EmptyString => false
  | String _ t => includes t p
  end.

Fixpoint trimStart (s : string) : string :=
  match s with
  | String c t => if Char.is_space c then trimStart t else s
  | EmptyString => EmptyString
  end.

(** [trimEnd] keeps a character when it is not a blank or when something
    survives to its right. *)
Fixpoint trimEnd (s : string) : string :=
  match s with
  | EmptyString => EmptyString
  | String c t =>
      match trimEnd t with
      | EmptyString => if Char.is_space c then EmptyString else String c EmptyString
      | t' => String c t'
      end
  end.

(** [trim], as it is on ASCII text: the blanks of [Char.is_space] go. *)
Definition trim (s : string) : string := trimEnd (trimStart s).

Fixpoint take (n : nat) (s : string) : string :=
  match n, s with
  | S k, String c t => String c (take k t)
  | _, _ => EmptyString
  end.

Fixpoint drop (n : nat) (s : string) : string :=
  match n, s with
  | S k, String _ t => drop k t
  | _, _ => s
  end.

Definition head (s : string) : option ascii :=
  match s with
  | String c _ => Some c
  | EmptyString => None
  end.

(** [Array.prototype.join] *)
Fixpoint join (sep : string) (l : list string) : string :=
  match l with
  | [] => ""
  | [x] => x
  | x :: t => x ++ sep ++ join sep t
  end.

(** [split] on a one-character separator: always at least one piece. *)
Fixpoint splitChar (sep : ascii) (s : string) : list string :=
  match s with
  | EmptyString => [""]
  | String c t =>
      if Ascii.eqb c sep then "" :: splitChar sep t
      else match splitChar sep t with
           | p :: ps => String c p :: ps
           | [] => [String c ""]
           end
  end.

Definition nonEmpty (s : string) : bool :=
  match s with
  | EmptyString => false
  | String _ _ => true
  end.

(** [Array.prototype.includes] on an array of strings. *)
Definition member (x : string) (l : list string) : bool :=
  existsb (String.eqb x) l.

End Str.

(** ** Regular expressions

    The patterns of the source use literals, the classes [.], [\s], [\w],
    [\d] and [[^)]], the quantifiers [*], [+], [*?], [+?] on a class, [?] on
    a group, alternation, capture groups, [\b] and [$].  A pattern is run as
    a backtracking matcher does: [run] lists the states a pattern can end
    in, most preferred first, so the head of the list is the match the
    engine reports. *)

Module Re.

Inductive cset : Type :=
| Any            (* .     *)
| Space          (* \s    *)
| Word           (* \w    *)
| Digit          (* \d    *)
| Except (c : ascii).   (* [^c]  *)

Definition mem (cs : cset) (c : ascii) : bool :=
  match cs with
  | Any => negb (Char.is_line_terminator c)
  | Space => Char.is_space c
  | Word => Char.is_word c
  | Digit => Char.is_digit c
  | Except x => negb (Ascii.eqb c x)
  end.

Inductive regex : Type :=
| Lit (s : string)
| Many (cs : cset) (min : nat) (greedy : bool)
| Seq (a b : regex)
| Alt (a b : regex)
| Opt (a : regex)
| Grp (n : nat) (a : regex)
| WordB
| Eoi.

Declare Scope re_scope.
Delimit Scope re_scope with re.
Bind Scope re_scope with regex.
Infix "+>" := Seq (at level 61, right associativity) : re_scope.
Infix "</>" := Alt (at level 62, right associativity) : re_scope.

(** Where the matcher stands: the character just behind it (for [\b]), the
    text ahead, and the capture groups set so far (latest first). *)
Record state : Type := State {
  prev : option ascii;
  rest : string;
  caps : list (nat * string)
}.

Definition is_word_opt (o : option ascii) : bool :=
  match o with
  | Some c => Char.is_word c
  | None => false
  end.

(** Consume the literal [p], comparing under the [i] flag when [ci]. *)
Fixpoint eat (ci : bool) (p : string) (pv : option ascii) (s : string)
  : option (option ascii * string) :=
  match p with
  | EmptyString => Some (pv, s)
  | String a p' =>
      match s with
      | String b s' =>
          if (if ci then Char.eqb_ci a b else Ascii.eqb a b)
          then eat ci p' (Some b) s'
          else None
      | EmptyString => None
      end
  end.

(** The positions reachable by consuming 0, 1, 2, ... characters of [cs]. *)
Fixpoint spans (cs : cset) (pv : option ascii) (s : string)
  : list (option ascii * string) :=
  (pv, s) ::
  match s with
  | String c t => if mem cs c then spans cs (Some c) t else []
  | EmptyString => []
  end.

Definition many (cs : cset) (min : nat) (greedy : bool) (st : state)
  : list state :=
  let ends := skipn min (spans cs (prev st) (rest st)) in
  List.map (fun e => State (fst e) (snd e) (caps st))
           (if greedy then rev ends else ends).

(** The text consumed between two states of one run. *)
Definition consumed (st st' : state) : string :=
  Str.take (String.length (rest st) - String.length (rest st')) (rest st).

Fixpoint run (ci : bool) (r : regex) (st : state) : list state :=
  match r with
  | Lit p =>
      match eat ci p (prev st) (rest st) with
      | Some (pv, s) => [State pv s (caps st)]
      | None => []
      end
  | Many cs min greedy => many cs min greedy st
  | Seq a b => flat_map (run ci b) (run ci a st)
  | Alt a b => (run ci a st ++ run ci b st)%list
  | Opt a => (run ci a st ++ [st])%list
  | Grp n a =>
      List.map (fun st' => State (prev st') (rest st')
                                 ((n, consumed st st') :: caps st'))
               (run ci a st)
  | WordB =>
      if xorb (is_word_opt (prev st)) (is_word_opt (Str.head (rest st)))
      then [st] else []
  | Eoi =>
      match rest st with
      | EmptyString => [st]
      | String _ _ => []
      end
  end.

(** What [exec] and [match] hand back: [m[0]] and the groups. *)
Record found : Type := Found {
  whole : string;
  groups : list (nat * string)
}.

Fixpoint lookup (n : nat) (l : list (nat * string)) : option string :=
  match l with
  | [] => None
  | (k, v) :: t => if k =? n then Some v else lookup n t
  end.

(** [m[n]], [None] for [undefined]. *)
Definition group (n : nat) (m : found) : option string := lookup n (groups m).

Definition at_ (ci : bool) (r : regex) (pv : option ascii) (s : string)
  : option state :=
  List.hd_error (run ci r (State pv s [])).

Definition report (s : string) (st' : state) : found :=
  Found (consumed (State None s []) st') (caps st').

(** First match scanning left to right; the end of the text is tried too. *)
Fixpoint search (ci : bool) (r : regex) (pv : option ascii) (s : string)
  : option found :=
  match at_ ci r pv s with
  | Some st' => Some (report s st')
  | None =>
      match s with
      | String c t => search ci r (Some c) t
      | EmptyString => None
      end
  end.

(** [str.match(re)] without the [g] flag. *)
Definition match_ (ci : bool) (r : regex) (s : string) : option found :=
  search ci r None s.

(** [re.test(str)] *)
Definition test (ci : bool) (r : regex) (s : string) : bool :=
  match match_ ci r s with
  | Some _ => true
  | None => false
  end.

(** The successive results of [re.exec(str)] on a [g] pattern, until it
    answers [null].  [skip] counts the characters of the last match still to
    be stepped over.  (None of the source's [g] patterns matches the empty
    string; an empty match is reported once and the scan moves on.) *)
Fixpoint execAll (ci : bool) (r : regex) (pv : option ascii) (s : string)
  (skip : nat) : list found :=
  match skip with
  | S k =>
      match s with
      | String c t => execAll ci r (Some c) t k
      | EmptyString => []
      end
  | 0 =>
      match at_ ci r pv s with
      | Some st' =>
          report s st' ::
          match s with
          | String c t =>
              execAll ci r (Some c) t
                      (pred (String.length s - String.length (rest st')))
          | EmptyString => []
          end
      | None =>
          match s with
          | String c t => execAll ci r (Some c) t 0
          | EmptyString => []
          end
      end
  end.

(** [str.replace(re, by)] with the [g] flag. *)
Fixpoint replaceAll (ci : bool) (r : regex) (by_ : string)
  (pv : option ascii) (s : string) (skip : nat) : string :=
  match skip with
  | S k =>
      match s with
      | String c t => replaceAll ci r by_ (Some c) t k
      | EmptyString => ""
      end
  | 0 =>
      match at_ ci r pv s with
      | Some st' =>
          match String.length s - String.length (rest st'), s with
          | S k, String c t => by_ ++ replaceAll ci r by_ (Some c) t k
          | _, String c t => by_ ++ String c (replaceAll ci r by_ (Some c) t 0)
          | _, EmptyString => by_
          end
      | None =>
          match s with
          | String c t => String c (replaceAll ci r by_ (Some c) t 0)
          | EmptyString => ""
          end
      end
  end.

Definition replace (ci : bool) (r : regex) (by_ s : string) : string :=
  replaceAll ci r by_ None s 0.

(** [str.split(re)]: [cur] is the piece being collected. *)
Fixpoint splitGo (ci : bool) (r : regex) (pv : option ascii) (s : string)
  (cur : string) (skip : nat) : list string :=
  match skip with
  | S k =>
      match s with
      | String c t => splitGo ci r (Some c) t cur k
      | EmptyString => [cur]
      end
  | 0 =>
      match s with
      | EmptyString => [cur]
      | String c t =>
          match at_ ci r pv s with
          | Some st' =>
              match String.length s - String.length (rest st') with
              | S k => cur :: splitGo ci r (Some c) t "" k
              | 0 =>
                  match cur with
                  | EmptyString => splitGo ci r (Some c) t (String c "") 0
                  | _ => cur :: splitGo ci r (Some c) t (String c "") 0
                  end
              end
          | None => splitGo ci r (Some c) t (cur ++ String c "") 0
          end
      end
  end.

Definition split (ci : bool) (r : regex) (s : string) : list string :=
  match s with
  | EmptyString => if test ci r "" then [] else [""]
  | _ => splitGo ci r None s "" 0
  end.

(** [str.replace(re, by)] without the [g] flag: the first match only;
    [None] when the pattern matches nowhere. *)
Fixpoint replaceFirstGo (ci : bool) (r : regex) (by_ : string)
  (pv : option ascii) (s : string) : option string :=
  match at_ ci r pv s with
  | Some st' => Some (by_ ++ rest st')
  | None =>
      match s with
      | String c t => option_map (String c) (replaceFirstGo ci r by_ (Some c) t)
      | EmptyString => None
      end
  end.

Definition replaceFirst (ci : bool) (r : regex) (by_ s : string) : string :=
  match replaceFirstGo ci r by_ None s with
  | Some s' => s'
  | None => s
  end.

(** [str.match(re)] with the [g] flag: the matched texts, [None] for
    [null]. *)
Definition matchTexts (ci : bool) (r : regex) (s : string)
  : option (list string) :=
  match execAll ci r None s 0 with
  | [] => None
  | l => Some (List.map whole l)
  end.

End Re.

(** ** Plain objects and numbers, as the shell generator uses them *)

Module Obj.

(** An object literal as its own properties in creation order. *)
Definition t : Type := list (string * string).

(** Assigning an own property: an existing key keeps its place. *)
Fixpoint assign (k v : string) (o : t) : t :=
  match o with
  | [] => [(k, v)]
  | (k', v') :: r =>
      if String.eqb k' k then (k, v) :: r else (k', v') :: assign k v r
  end.

(** [o[k] = v] on an object literal, [v] being a string or a number.  The
    key [__proto__] is the accessor every object inherits: its setter
    drops a value that is not an object, and no property is made.  Every
    other key is assigned. *)
Definition set (k v : string) (o : t) : t :=
  if String.eqb k "__proto__" then o else assign k v o.

Fixpoint digitsValue (acc : N) (s : string) : N :=
  match s with
  | EmptyString => acc
  | String c t =>
      digitsValue (acc * 10 + N.of_nat (Char.code c - 48))%N t
  end.

Fixpoint allDigits (s : string) : bool :=
  match s with
  | EmptyString => true
  | String c t => Char.is_digit c && allDigits t
  end.

(** A key that is an array index: a canonical decimal below 2^32 - 1. *)
Definition arrayIndex (k : string) : option N :=
  match k with
  | EmptyString => None
  | String c t =>
      if allDigits k
         && (negb (Ascii.eqb c "0") || String.eqb t "")
         && (String.length k <=? 10)
         && (digitsValue 0 k <=? 4294967294)%N
      then Some (digitsValue 0 k)
      else None
  end.

Fixpoint insertIndex (e : N * (string * string))
  (l : list (N * (string * string))) : list (N * (string * string)) :=
  match l with
  | [] => [e]
  | x :: r => if (fst e <=? fst x)%N then e :: l else x :: insertIndex e r
  end.

Definition indexed (o : t) : list (N * (string * string)) :=
  fold_right (fun kv acc =>
                match arrayIndex (fst kv) with
                | Some i => insertIndex (i, kv) acc
                | None => acc
                end) [] o.

Definition named (o : t) : t :=
  filter (fun kv => match arrayIndex (fst kv) with
                    | Some _ => false
                    | None => true
                    end) o.

(** [Object.entries]: array indices in ascending order, then the other
    keys in creation order. *)
Definition entries (o : t) : list (string * string) :=
  (List.map snd (indexed o) ++ named o)%list.

End Obj.

Module Num.

(** [parseInt] on a run of decimal digits, and the decimal text of a
    number in a template literal.  The source's numbers are doubles: the
    two agree with this below 2^53, and from there on the source rounds. *)
Definition parseInt (digits : string) : N := Obj.digitsValue 0 digits.

Definition toString (n : N) : string := NilEmpty.string_of_uint (N.to_uint n).

End Num.

Definition LF : string := String (ascii_of_nat 10) "".
Definition DQ : string := String (ascii_of_nat 34) "".

(** ** Errors, capabilities and the backend

    Every failure of the source is [throw new Error(message)].  The kind
    records which of the three gates threw: a missing capability, an
    UPDATE or DELETE without WHERE, or a syntax check. *)

Inductive errorKind : Type :=
| PermissionError
| DangerousOperationError
| SyntaxError.

Record error : Type := Error {
  kind : errorKind;
  message : string
}.

Inductive result (A : Type) : Type :=
| Ok (a : A)
| Throw (e : error).

Arguments Ok {A} a.
Arguments Throw {A} e.

(** The [permissions] object handed to every [validatePermissions]. *)
Record permissions : Type := Permissions {
  select : bool;
  insert : bool;
  update : bool;
  delete : bool;
  create_table : bool;
  drop_table : bool
}.

(** A parameter with a default value: [currentTable = 'projects']. *)
Definition defaulted (arg : option string) (default : string) : string :=
  match arg with
  | Some v => v
  | None => default
  end.

(** [translatorAPI]: every [executeX] posts the SQL text to [/translate].
    A computation threads the list of SQL texts posted so far and ends in a
    value or in a thrown error. *)
Module translatorAPI.

Definition M (A : Type) : Type := list string -> result A * list string.

Definition ret {A} (a : A) : M A := fun log => (Ok a, log).

Definition throw {A} (e : error) : M A := fun log => (Throw e, log).

Definition bind {A B} (m : M A) (k : A -> M B) : M B :=
  fun log =>
    match m log with
    | (Ok a, log') => k a log'
    | (Throw e, log') => (Throw e, log')
    end.

Definition lift {A} (r : result A) : M A := fun log => (r, log).

Section Server.
Variable response : Type.
(** What [makeRequest] answers: the decoded body, or the error it throws
    when the response is not [ok]. *)
Variable server : string -> result response.

Definition translateAndExecute (sqlQuery : string) : M response :=
  fun log => (server sqlQuery, (log ++ [sqlQuery])%list).

Definition executeSelect := translateAndExecute.
Definition executeInsert := translateAndExecute.
Definition executeUpdate := translateAndExecute.
Definition executeDelete := translateAndExecute.
End Server.

(** What a property of a decoded body holds, as far as [||] and the string
    methods can tell: nothing or a falsy value that is not a string; a
    string; a truthy value that is not a string. *)
Inductive field : Type :=
| Falsy
| Text (s : string)
| Other.

Definition truthy (v : field) : bool :=
  match v with
  | Falsy => false
  | Text s => Str.nonEmpty s
  | Other => true
  end.

(** [a || b] *)
Definition orField (a b : field) : field := if truthy a then a else b.

(** The body [/generate-shell-query] answers with. *)
Record shellBody : Type := ShellBody {
  shell_query : field;
  query : field
}.

Section ShellServer.
(** What [makeRequest] answers on [/generate-shell-query]: the decoded
    body, or the error thrown inside the [try]. *)
Variable shellServer : string -> result shellBody.

Definition generateShellQuery (sqlQuery : string) : field :=
  match shellServer sqlQuery with
  | Ok response =>
      orField (orField (shell_query response) (query response))
              (Text "Shell query no disponible")
  | Throw error => Text ("// Error generando shell query: " ++ message error)
  end.
End ShellServer.

End translatorAPI.

Declare Scope api_scope.
Delimit Scope api_scope with api.
Notation "x <- m ;; k" := (translatorAPI.bind m (fun x => k))
  (at level 100, m at next level, right associativity) : api_scope.
Notation "m ;;; k" := (translatorAPI.bind m (fun _ => k))
  (at level 100, right associativity) : api_scope.

(** ** select.js *)

Module selectParser.

Import Re.
Local Open Scope re_scope.

Definition validatePermissions (p : permissions) (query : string)
  : result unit :=
  if negb (select p)
  then Throw (Error PermissionError
                    "❌ No tienes permisos para realizar consultas SELECT")
  else Ok tt.

(** [\bF\s*\(\s*\w+\s*\)] *)
Definition callOf (f : string) : regex :=
  WordB +> Lit f +> Many Space 0 true +> Lit "(" +> Many Space 0 true +>
  Many Word 1 true +> Many Space 0 true +> Lit ")".

Definition aggregationPatterns : list regex :=
  [ WordB +> Lit "COUNT" +> Many Space 0 true +> Lit "(" +>
      Many Space 0 true +> Lit "*" +> Many Space 0 true +> Lit ")";
    callOf "COUNT";
    callOf "SUM";
    callOf "AVG";
    callOf "MAX";
    callOf "MIN";
    WordB +> Lit "GROUP_CONCAT" +> Many Space 0 true +> Lit "(" ].

Definition detectAggregationFunctions (query : string) : bool :=
  existsb (fun pattern => test true pattern query) aggregationPatterns.

Record aggregation : Type := Aggregation {
  function_ : string;
  field : string;
  alias : string;
  expression : string;
  isCountAll : bool
}.

(** [\b(F)\s*\(\s*(ARG)\s*\)(?:\s+AS\s+(\w+))?] *)
Definition detailOf (f : string) (arg : regex) : regex :=
  WordB +> Grp 1 (Lit f) +> Many Space 0 true +> Lit "(" +>
  Many Space 0 true +> Grp 2 arg +> Many Space 0 true +> Lit ")" +>
  Opt (Many Space 1 true +> Lit "AS" +> Many Space 1 true +>
       Grp 3 (Many Word 1 true)).

Definition patterns : list (string * regex) :=
  [ ("COUNT", detailOf "COUNT" (Lit "*" </> Many Word 1 true));
    ("SUM", detailOf "SUM" (Many Word 1 true));
    ("AVG", detailOf "AVG" (Many Word 1 true));
    ("MAX", detailOf "MAX" (Many Word 1 true));
    ("MIN", detailOf "MIN" (Many Word 1 true));
    ("GROUP_CONCAT", detailOf "GROUP_CONCAT" (Many Word 1 true)) ].

(** [a || b] on strings: the empty string and [undefined] are falsy. *)
Definition orElse (o : option string) (d : string) : string :=
  match o with
  | Some (String c t) => String c t
  | _ => d
  end.

Definition aggregationOf (funcName : string) (m : found) : aggregation :=
  let field := match group 2 m with Some f => f | None => "" end in
  let alias :=
    orElse (group 3 m)
           (Str.toLowerCase funcName ++ "_" ++
            (if String.eqb field "*" then "all" else field)) in
  Aggregation funcName field alias (whole m)
              (String.eqb funcName "COUNT" && String.eqb field "*").

Definition extractDetailedAggregations (query : string) : list aggregation :=
  flat_map (fun fp => List.map (aggregationOf (fst fp))
                               (execAll true (snd fp) None query 0))
           patterns.

Record features : Type := Features {
  hasJoin : bool;
  hasSubquery : bool;
  hasAggregation : bool;
  hasGroupBy : bool;
  hasHaving : bool;
  hasOrderBy : bool;
  hasWindow : bool;
  hasUnion : bool;
  hasDistinct : bool
}.

(** The score [calculateComplexity] adds up before it picks a tier. *)
Definition score (f : features) : nat :=
  (if hasJoin f then 2 else 0) +
  (if hasSubquery f then 3 else 0) +
  (if hasAggregation f then 1 else 0) +
  (if hasGroupBy f then 2 else 0) +
  (if hasHaving f then 2 else 0) +
  (if hasOrderBy f then 1 else 0) +
  (if hasDistinct f then 1 else 0) +
  (if hasWindow f then 4 else 0) +
  (if hasUnion f then 2 else 0).

Definition calculateComplexity (f : features) : string :=
  let score := score f in
  if score =? 0 then "simple"
  else if score <=? 3 then "moderate"
  else if score <=? 6 then "complex"
  else "very_complex".

(** The part of the analysis object that [execute] reads.  ([tables],
    [orderBy], [performance] and [mongodb] only feed the summary that is
    shown with the backend's answer.) *)
Record analysis : Type := Analysis {
  complexity : string;
  features_ : features;
  aggregations : list aggregation
}.

Definition deepAnalyze (query : string) : analysis :=
  let features :=
    {| hasAggregation := detectAggregationFunctions query;
       hasJoin :=
         test true (Many Space 1 true +> Lit "JOIN" +> Many Space 1 true) query;
       hasSubquery :=
         test true (Lit "(" +> Many Space 0 true +> Lit "SELECT" +>
                    Many Space 1 true) query;
       hasGroupBy :=
         test true (WordB +> Lit "GROUP" +> Many Space 1 true +> Lit "BY" +>
                    WordB) query;
       hasHaving := test true (WordB +> Lit "HAVING" +> WordB) query;
       hasOrderBy :=
         test true (WordB +> Lit "ORDER" +> Many Space 1 true +> Lit "BY" +>
                    WordB) query;
       hasWindow :=
         test true (WordB +> Lit "OVER" +> Many Space 0 true +> Lit "(") query;
       hasUnion := test true (WordB +> Lit "UNION" +> WordB) query;
       hasDistinct :=
         test true (WordB +> Lit "SELECT" +> Many Space 1 true +>
                    Lit "DISTINCT" +> WordB) query |} in
  {| features_ := features;
     aggregations := extractDetailedAggregations query;
     complexity := calculateComplexity features |}.

Definition optimizeAdvancedQuery (query : string) (a : analysis) : string :=
  if String.eqb (complexity a) "very_complex"
     && negb (test true (WordB +> Lit "LIMIT" +> WordB) query)
  then query ++ " LIMIT 500"
  else query.

Section Execute.
Variable response : Type.
Variable server : string -> result response.
Local Open Scope api_scope.

Definition executeAggregationQuery (query : string) (a : analysis)
  : translatorAPI.M response :=
  translatorAPI.executeSelect server query.

Definition execute (query : string) : translatorAPI.M response :=
  let analysis := deepAnalyze query in
  if hasAggregation (features_ analysis)
  then executeAggregationQuery query analysis
  else
    let optimizedQuery := optimizeAdvancedQuery query analysis in
    translatorAPI.executeSelect server optimizedQuery.
End Execute.

(** [/ORDER\s+BY\s+(.+?)(?:\s+LIMIT|\s+OFFSET|\s*;|\s*$)/i] *)
Definition orderByPattern : regex :=
  Lit "ORDER" +> Many Space 1 true +> Lit "BY" +> Many Space 1 true +>
  Grp 1 (Many Any 1 false) +>
  ((Many Space 1 true +> Lit "LIMIT")
   </> (Many Space 1 true +> Lit "OFFSET")
   </> (Many Space 0 true +> Lit ";")
   </> (Many Space 0 true +> Eoi)).

Definition extractOrderByClause (query : string) : option string :=
  match match_ true orderByPattern query with
  | Some orderByMatch => option_map Str.trim (group 1 orderByMatch)
  | None => None
  end.

(** One entry of [analysis.orderBy]; [field_] is its [field]. *)
Record orderKey : Type := OrderKey {
  field_ : string;
  direction : string;
  mongoDirection : Z;
  isFunction : bool
}.

Definition orderKeyOf (field : string) : orderKey :=
  let parts := split false (Many Space 1 true) field in
  let fieldName := List.hd "" parts in
  let direction :=
    match parts with
    | _ :: d :: _ =>
        if String.eqb (Str.toUpperCase d) "DESC" then "DESC" else "ASC"
    | _ => "ASC"
    end in
  {| field_ := fieldName;
     direction := direction;
     mongoDirection := if String.eqb direction "DESC" then (-1)%Z else 1%Z;
     isFunction :=
       test false (Many Word 1 true +> Many Space 0 true +> Lit "(")
            fieldName |}.

(** [null] and the empty string are both falsy. *)
Definition parseOrderByClause (orderByClause : option string)
  : list orderKey :=
  match orderByClause with
  | None => []
  | Some EmptyString => []
  | Some clause =>
      let fields := List.map Str.trim (Str.splitChar "," clause) in
      List.map orderKeyOf fields
  end.

(** [Set.prototype.add]: a value already in the set keeps its place. *)
Definition add (x : string) (tables : list string) : list string :=
  if Str.member x tables then tables else (tables ++ [x])%list.

Definition extractAllTables (query : string) : list string :=
  let tables :=
    match match_ true (Lit "FROM" +> Many Space 1 true +>
                       Grp 1 (Many Word 1 true)) query with
    | Some fromMatch =>
        match group 1 fromMatch with
        | Some t => add t []
        | None => []
        end
    | None => []
    end in
  fold_left (fun tables m =>
               match group 1 m with
               | Some t => add t tables
               | None => tables
               end)
            (execAll true (Lit "JOIN" +> Many Space 1 true +>
                           Grp 1 (Many Word 1 true)) None query 0)
            tables.

(** The strategy object; [complexity_] is its [complexity]. *)
Record strategy : Type := Strategy {
  requiresPipeline : bool;
  estimatedStages : nat;
  complexity_ : string
}.

Definition planMongoDBStrategy (a : analysis) : strategy :=
  let f := features_ a in
  let stages :=
    1 + (if hasAggregation f then 1 else 0)
      + (if hasGroupBy f then 1 else 0)
      + (if hasOrderBy f then 1 else 0)
      + (if hasDistinct f then 1 else 0) in
  {| requiresPipeline :=
       if hasAggregation f || hasGroupBy f || hasOrderBy f || hasDistinct f
       then true else false;
     estimatedStages := stages;
     complexity_ :=
       if stages <=? 2 then "simple"
       else if stages <=? 4 then "moderate"
       else "complex" |}.

End selectParser.

(** ** update.js, first half: the UPDATE parser *)

Module updateParser.

Import Re.
Local Open Scope re_scope.

Definition validatePermissions (p : permissions) (query : string)
  : result unit :=
  if negb (update p)
  then Throw (Error PermissionError
                    "❌ No tienes permisos para realizar operaciones UPDATE")
  else
    let upperQuery := Str.toUpperCase (Str.trim query) in
    if negb (Str.includes upperQuery "WHERE")
    then Throw (Error DangerousOperationError
                      "⚠️ UPDATE sin WHERE modificará TODOS los registros. Use WHERE para especificar condiciones.")
    else Ok tt.

(** [/UPDATE\s+\w+\s+SET\s+.+/i] *)
Definition basicPattern : regex :=
  Lit "UPDATE" +> Many Space 1 true +> Many Word 1 true +>
  Many Space 1 true +> Lit "SET" +> Many Space 1 true +> Many Any 1 true.

Definition validateSyntax (query : string) : result unit :=
  let upperQuery := Str.toUpperCase (Str.trim query) in
  if negb (Str.startsWith upperQuery "UPDATE")
  then Throw (Error SyntaxError "La consulta debe comenzar con UPDATE")
  else if negb (Str.includes upperQuery "SET")
  then Throw (Error SyntaxError "Sintaxis incorrecta: UPDATE debe incluir SET")
  else if negb (test true basicPattern query)
  then Throw (Error SyntaxError
                    "Sintaxis incorrecta: Estructura UPDATE inválida")
  else Ok tt.

Record analysis : Type := Analysis {
  type : string;
  table : option string;
  fields : list string;
  hasWhere : bool;
  conditions : list string;
  estimatedImpact : string;
  isDangerous : bool;
  warning : option string;
  setClause : option string;
  whereClause : option string
}.

(** [/\s+AND\s+|\s+OR\s+/i] *)
Definition connective : regex :=
  (Many Space 1 true +> Lit "AND" +> Many Space 1 true)
  </> (Many Space 1 true +> Lit "OR" +> Many Space 1 true).

Definition parseWhereConditions (whereClause : string) : list string :=
  filter Str.nonEmpty (List.map Str.trim (split true connective whereClause)).

(** The field a [SET] item assigns: [/(\w+)\s*=/], else ['unknown']. *)
Definition fieldOf (update : string) : string :=
  match match_ false (Grp 1 (Many Word 1 true) +> Many Space 0 true +> Lit "=")
               (Str.trim update) with
  | Some m => match group 1 m with Some f => f | None => "unknown" end
  | None => "unknown"
  end.

Definition analyzeQuery (query : string) : analysis :=
  let upperQuery := Str.toUpperCase (Str.trim query) in
  let tableMatch :=
    match_ true (Lit "UPDATE" +> Many Space 1 true +> Grp 1 (Many Word 1 true))
           query in
  let table := match tableMatch with Some m => group 1 m | None => None end in
  let setMatch :=
    match_ true (Lit "SET" +> Many Space 1 true +> Grp 1 (Many Any 0 false) +>
                 ((Many Space 1 true +> Lit "WHERE") </> Eoi)) query in
  let setClause :=
    match setMatch with
    | Some m => option_map Str.trim (group 1 m)
    | None => None
    end in
  let fields :=
    match setClause with
    | Some c => List.map fieldOf (Str.splitChar "," c)
    | None => []
    end in
  let hasWhere := Str.includes upperQuery "WHERE" in
  let whereMatch :=
    match_ true (Lit "WHERE" +> Many Space 1 true +> Grp 1 (Many Any 1 false) +>
                 ((Many Space 1 true +> Lit "ORDER")
                  </> (Many Space 1 true +> Lit "LIMIT") </> Eoi)) query in
  let whereClause :=
    if hasWhere
    then match whereMatch with
         | Some m => option_map Str.trim (group 1 m)
         | None => None
         end
    else None in
  let conditions :=
    match whereClause with
    | Some w => parseWhereConditions w
    | None => []
    end in
  let tooWide := (List.length conditions =? 0) && hasWhere in
  {| type := "UPDATE";
     table := table;
     fields := fields;
     hasWhere := hasWhere;
     conditions := conditions;
     estimatedImpact := if hasWhere then "filtered_records" else "all_records";
     isDangerous := negb hasWhere || tooWide;
     warning :=
       if tooWide then Some "Condiciones WHERE muy amplias"
       else if hasWhere then None
       else Some "UPDATE sin WHERE modificará TODOS los registros";
     setClause := setClause;
     whereClause := whereClause |}.

(** Only the first check throws; the other two write warnings to the
    console. *)
Definition performSecurityChecks (a : analysis) : result unit :=
  if isDangerous a && String.eqb (estimatedImpact a) "all_records"
  then Throw (Error DangerousOperationError
                    "🚨 Operación peligrosa: UPDATE sin WHERE modificará TODOS los registros")
  else Ok tt.

Section Execute.
Variable response : Type.
Variable server : string -> result response.
Local Open Scope api_scope.

Definition execute (query : string) : translatorAPI.M response :=
  translatorAPI.lift (validateSyntax query) ;;;
  let analysis := analyzeQuery query in
  translatorAPI.lift (performSecurityChecks analysis) ;;;
  translatorAPI.executeUpdate server query.
End Execute.

Definition generatePreviewQuery (updateQuery : string) : string :=
  let tableMatch :=
    match_ true (Lit "UPDATE" +> Many Space 1 true +> Grp 1 (Many Word 1 true))
           updateQuery in
  let whereMatch :=
    match_ true (Lit "WHERE" +> Many Space 1 true +> Grp 1 (Many Any 1 false) +>
                 ((Many Space 1 true +> Lit "ORDER")
                  </> (Many Space 1 true +> Lit "LIMIT") </> Eoi))
           updateQuery in
  match tableMatch with
  | Some tableMatch =>
      let table :=
        match group 1 tableMatch with Some t => t | None => "undefined" end in
      let whereClause :=
        match whereMatch with
        | Some whereMatch =>
            " WHERE " ++
            match group 1 whereMatch with Some w => w | None => "undefined" end
        | None => ""
        end in
      "SELECT * FROM " ++ table ++ whereClause ++ " LIMIT 100;"
  | None => "No se puede generar previsualización"
  end.

Definition convertToPreview (updateQuery : string) : string :=
  generatePreviewQuery updateQuery.

(** What [validateFields] answers; [warning_] is its [warning]. *)
Record validation : Type := Validation {
  safe : list string;
  warning_ : list string;
  dangerous : list string
}.

Definition criticalFields : list string :=
  ["id"; "_id"; "email"; "password"; "role"; "permissions"].

Definition warningFields : list string :=
  ["created_at"; "updated_at"; "created_date"; "modified_date"].

Definition validateFields (fields : list string) : validation :=
  fold_left
    (fun validation field =>
       let fieldLower := Str.toLowerCase field in
       if Str.member fieldLower criticalFields
       then {| safe := safe validation;
               warning_ := warning_ validation;
               dangerous := (dangerous validation ++ [field])%list |}
       else if Str.member fieldLower warningFields
       then {| safe := safe validation;
               warning_ := (warning_ validation ++ [field])%list;
               dangerous := dangerous validation |}
       else {| safe := (safe validation ++ [field])%list;
               warning_ := warning_ validation;
               dangerous := dangerous validation |})
    fields (Validation [] [] []).

Definition getExamples (p : permissions) (currentTable : option string)
  : list string :=
  let currentTable := defaulted currentTable "projects" in
  if negb (update p)
  then ["-- No tienes permisos UPDATE"]
  else
    [ "UPDATE " ++ currentTable ++
        " SET status = 'Completed' WHERE id = 'PRJ001';";
      "UPDATE " ++ currentTable ++
        " SET status = 'In Progress', priority = 'High' WHERE status = 'Planning';";
      "UPDATE restaurants SET rating = 4.5 WHERE name = 'Nuevo Restaurante';";
      "UPDATE " ++ currentTable ++
        " SET end_date = '2025-06-30' WHERE status = 'Planning' AND start_date > '2025-01-01';";
      "UPDATE restaurants SET cuisine_type = 'Mediterranean' WHERE cuisine_type = 'Italian' AND rating > 4;";
      "UPDATE " ++ currentTable ++
        " SET description = 'Proyecto actualizado' WHERE id = 'PRJ002';" ].

End updateParser.

(** ** delete.js *)

Module deleteParser.

Import Re.
Local Open Scope re_scope.

Definition validatePermissions (p : permissions) (query : string)
  : result unit :=
  let upperQuery := Str.toUpperCase (Str.trim query) in
  let capability : result unit :=
    if Str.startsWith upperQuery "DELETE"
    then if negb (delete p)
         then Throw (Error PermissionError
                "❌ No tienes permisos para realizar operaciones DELETE")
         else Ok tt
    else if Str.includes upperQuery "DROP TABLE"
            || Str.includes upperQuery "DROP COLLECTION"
    then if negb (drop_table p)
         then Throw (Error PermissionError
                "❌ No tienes permisos para eliminar tablas/colecciones")
         else Ok tt
    else Ok tt in
  match capability with
  | Throw e => Throw e
  | Ok _ =>
      if Str.startsWith upperQuery "DELETE"
         && negb (Str.includes upperQuery "WHERE")
      then Throw (Error DangerousOperationError
                        "⚠️ DELETE sin WHERE eliminará TODOS los registros. Use WHERE para especificar condiciones.")
      else Ok tt
  end.

Definition validateSyntax (query : string) : result unit :=
  let upperQuery := Str.toUpperCase (Str.trim query) in
  if Str.startsWith upperQuery "DELETE"
  then if negb (Str.includes upperQuery "FROM")
       then Throw (Error SyntaxError
                         "Sintaxis incorrecta: DELETE debe incluir FROM")
       else Ok tt
  else if Str.startsWith upperQuery "DROP"
  then if negb (Str.includes upperQuery "TABLE")
          && negb (Str.includes upperQuery "COLLECTION")
       then Throw (Error SyntaxError
                   "Sintaxis incorrecta: DROP debe especificar TABLE o COLLECTION")
       else Ok tt
  else Ok tt.

Record analysis : Type := Analysis {
  type : option string;
  table : option string;
  hasWhere : bool;
  conditions : list string;
  isDangerous : bool;
  warning : option string;
  estimatedImpact : string
}.

Definition tableOf (r : regex) (query : string) : option string :=
  match match_ true r query with
  | Some m => group 1 m
  | None => None
  end.

Definition analyzeQuery (query : string) : analysis :=
  let upperQuery := Str.toUpperCase (Str.trim query) in
  if Str.startsWith upperQuery "DELETE" then
    let table :=
      tableOf (Lit "DELETE" +> Many Space 1 true +> Lit "FROM" +>
               Many Space 1 true +> Grp 1 (Many Word 1 true)) query in
    let hasWhere := Str.includes upperQuery "WHERE" in
    if negb hasWhere then
      {| type := Some "DELETE"; table := table; hasWhere := false;
         conditions := []; isDangerous := true;
         warning := Some "DELETE sin WHERE eliminará TODOS los registros";
         estimatedImpact := "all_records" |}
    else
      let whereMatch :=
        match_ true (Lit "WHERE" +> Many Space 1 true +>
                     Grp 1 (Many Any 1 false) +>
                     (Lit "ORDER" </> Lit "LIMIT" </> Eoi)) query in
      {| type := Some "DELETE"; table := table; hasWhere := true;
         conditions :=
           match whereMatch with
           | Some m =>
               match group 1 m with
               | Some w => split true updateParser.connective (Str.trim w)
               | None => []
               end
           | None => []
           end;
         isDangerous := false; warning := None;
         estimatedImpact := "filtered_records" |}
  else if Str.startsWith upperQuery "DROP" then
    {| type := Some "DROP";
       table :=
         tableOf (Lit "DROP" +> Many Space 1 true +>
                  (Lit "TABLE" </> Lit "COLLECTION") +> Many Space 1 true +>
                  Grp 1 (Many Word 1 true)) query;
       hasWhere := false; conditions := []; isDangerous := true;
       warning := Some "DROP eliminará completamente la tabla/colección";
       estimatedImpact := "entire_table" |}
  else
    {| type := None; table := None; hasWhere := false; conditions := [];
       isDangerous := false; warning := None; estimatedImpact := "unknown" |}.

Section Execute.
Variable response : Type.
Variable server : string -> result response.
Local Open Scope api_scope.

(** A dangerous analysis only writes a console warning here. *)
Definition execute (query : string) : translatorAPI.M response :=
  translatorAPI.lift (validateSyntax query) ;;;
  let analysis := analyzeQuery query in
  translatorAPI.executeDelete server query.
End Execute.

Definition getExamples (p : permissions) (currentTable : option string)
  : list string :=
  let currentTable := defaulted currentTable "projects" in
  List.app
    (if delete p
     then [ "DELETE FROM " ++ currentTable ++ " WHERE status = 'Cancelled';";
            "DELETE FROM " ++ currentTable ++ " WHERE id = 'PRJ999';";
            "DELETE FROM restaurants WHERE rating < 2;";
            "DELETE FROM " ++ currentTable ++
              " WHERE created_date < '2020-01-01';" ]
     else [])
    (if drop_table p
     then [ "DROP TABLE tabla_temporal;";
            "DROP COLLECTION coleccion_test;" ]
     else []).

Definition convertToPreview (deleteQuery : string) : string :=
  let upperQuery := Str.toUpperCase (Str.trim deleteQuery) in
  if Str.startsWith upperQuery "DELETE FROM"
  then replaceFirst true (Lit "DELETE" +> Many Space 1 true +> Lit "FROM")
                    "SELECT * FROM" deleteQuery
  else deleteQuery.

End deleteParser.

(** ** api.js, second half: the INSERT and CREATE parser *)

Module createParser.

Definition validatePermissions (p : permissions) (query : string)
  : result unit :=
  let upperQuery := Str.toUpperCase (Str.trim query) in
  if Str.startsWith upperQuery "INSERT"
  then if negb (insert p)
       then Throw (Error PermissionError
              "❌ No tienes permisos para realizar operaciones INSERT")
       else Ok tt
  else if Str.includes upperQuery "CREATE TABLE"
          || Str.includes upperQuery "CREATE COLLECTION"
  then if negb (create_table p)
       then Throw (Error PermissionError
              "❌ No tienes permisos para crear tablas/colecciones")
       else Ok tt
  else Ok tt.

Definition validateSyntax (query : string) : result unit :=
  let upperQuery := Str.toUpperCase (Str.trim query) in
  if Str.startsWith upperQuery "INSERT"
  then if negb (Str.includes upperQuery "INTO")
       then Throw (Error SyntaxError
                         "Sintaxis incorrecta: INSERT debe incluir INTO")
       else if negb (Str.includes upperQuery "VALUES")
               && negb (Str.includes upperQuery "SELECT")
       then Throw (Error SyntaxError
                   "Sintaxis incorrecta: INSERT debe incluir VALUES o SELECT")
       else Ok tt
  else if Str.startsWith upperQuery "CREATE"
  then if negb (Str.includes upperQuery "TABLE")
          && negb (Str.includes upperQuery "COLLECTION")
       then Throw (Error SyntaxError
                   "Sintaxis incorrecta: CREATE debe especificar TABLE o COLLECTION")
       else Ok tt
  else Ok tt.

Section Execute.
Variable response : Type.
Variable server : string -> result response.
Local Open Scope api_scope.

(** [analyzeQuery] sits between the two steps; it cannot throw and only
    feeds the summary. *)
Definition execute (query : string) : translatorAPI.M response :=
  translatorAPI.lift (validateSyntax query) ;;;
  translatorAPI.executeInsert server query.
End Execute.

Import Re.
Local Open Scope re_scope.

(** The analysis object; [hasColumns] and [estimatedColumns] are only set
    on a CREATE TABLE with a column list. *)
Record analysis : Type := Analysis {
  type : option string;
  table : option string;
  fields : list string;
  values : list string;
  estimatedDocs : nat;
  hasColumns : option bool;
  estimatedColumns : option nat
}.

Definition analyzeQuery (query : string) : analysis :=
  let upperQuery := Str.toUpperCase (Str.trim query) in
  if Str.startsWith upperQuery "INSERT" then
    let tableMatch :=
      match_ true (Lit "INSERT" +> Many Space 1 true +> Lit "INTO" +>
                   Many Space 1 true +> Grp 1 (Many Word 1 true)) query in
    let fieldsMatch :=
      match_ true (Lit "(" +> Grp 1 (Many (Except ")") 1 true) +> Lit ")" +>
                   Many Space 1 true +> Lit "VALUES") query in
    let valuesMatches :=
      matchTexts true (Lit "VALUES" +> Many Space 0 true +> Lit "(" +>
                       Many (Except ")") 1 true +> Lit ")") query in
    {| type := Some "INSERT";
       table :=
         match tableMatch with
         | Some m => group 1 m
         | None => None
         end;
       fields :=
         match fieldsMatch with
         | Some m =>
             match group 1 m with
             | Some f => List.map Str.trim (Str.splitChar "," f)
             | None => []
             end
         | None => []
         end;
       values := [];
       estimatedDocs :=
         match valuesMatches with
         | Some l => List.length l
         | None => 1
         end;
       hasColumns := None;
       estimatedColumns := None |}
  else if Str.startsWith upperQuery "CREATE" then
    if Str.includes upperQuery "CREATE TABLE" && Str.includes upperQuery "("
    then
      let columnsMatch :=
        match_ true (Lit "CREATE" +> Many Space 1 true +> Lit "TABLE" +>
                     Many Space 1 true +> Many Word 1 true +>
                     Many Space 0 true +> Lit "(" +>
                     Grp 1 (Many Any 0 true) +> Lit ")") query in
      {| type := Some "CREATE_TABLE"; table := None; fields := [];
         values := []; estimatedDocs := 0; hasColumns := Some true;
         estimatedColumns :=
           match columnsMatch with
           | Some m =>
               match group 1 m with
               | Some columnsStr =>
                   Some (List.length (Str.splitChar "," columnsStr))
               | None => None
               end
           | None => None
           end |}
    else
      {| type := Some "CREATE"; table := None; fields := []; values := [];
         estimatedDocs := 0; hasColumns := None; estimatedColumns := None |}
  else
    {| type := None; table := None; fields := []; values := [];
       estimatedDocs := 0; hasColumns := None; estimatedColumns := None |}.

Definition getExamples (p : permissions) (currentTable : option string)
  : list string :=
  let currentTable := defaulted currentTable "projects" in
  List.app
    (if insert p
     then [ "INSERT INTO " ++ currentTable ++
              " (name, status) VALUES ('Nuevo Proyecto', 'Planning');";
            "INSERT INTO " ++ currentTable ++
              " (name, description, status) VALUES ('API Development', 'Nueva API REST', 'In Progress');";
            "INSERT INTO restaurants (name, cuisine_type, rating) VALUES ('Nuevo Restaurante', 'Italiana', 4.5);" ]
     else [])
    (if create_table p
     then [ "CREATE TABLE nueva_tabla (id INT, name VARCHAR(50), created_at TIMESTAMP);";
            "CREATE COLLECTION nueva_coleccion;" ]
     else []).

End createParser.

(** ** read.js *)

Module readParser.

Import Re.
Local Open Scope re_scope.

Definition validatePermissions (p : permissions) (query : string)
  : result unit :=
  if negb (select p)
  then Throw (Error PermissionError
                    "❌ No tienes permisos para realizar consultas SELECT")
  else Ok tt.

(** The seven tests of [shouldUseAdvancedParser], under the names of its
    local constants. *)
Definition hasAggregation (query : string) : bool :=
  test true (WordB +>
             Grp 1 (Lit "COUNT" </> Lit "SUM" </> Lit "AVG" </> Lit "MAX"
                    </> Lit "MIN" </> Lit "GROUP_CONCAT") +>
             Many Space 0 true +> Lit "(") query.

Definition hasGroupBy (query : string) : bool :=
  Str.includes (Str.toUpperCase query) "GROUP BY".
Definition hasHaving (query : string) : bool :=
  Str.includes (Str.toUpperCase query) "HAVING".
Definition hasJoin (query : string) : bool :=
  Str.includes (Str.toUpperCase query) "JOIN".
Definition hasUnion (query : string) : bool :=
  Str.includes (Str.toUpperCase query) "UNION".
Definition hasDistinct (query : string) : bool :=
  Str.includes (Str.toUpperCase query) "SELECT DISTINCT".
Definition hasSubquery (query : string) : bool :=
  test true (Lit "(" +> Many Space 0 true +> Lit "SELECT" +> Many Space 1 true)
       query.

Definition shouldUseAdvancedParser (query : string) : bool :=
  if hasAggregation query || hasGroupBy query || hasHaving query
     || hasJoin query || hasUnion query || hasDistinct query
     || hasSubquery query
  then true
  else false.

Definition validateSyntax (query : string) : result unit :=
  let upperQuery := Str.toUpperCase (Str.trim query) in
  if negb (Str.startsWith upperQuery "SELECT")
  then Throw (Error SyntaxError "La consulta debe comenzar con SELECT")
  else if negb (Str.includes upperQuery "FROM")
  then Throw (Error SyntaxError "Sintaxis incorrecta: SELECT debe incluir FROM")
  else Ok tt.

Section Execute.
Variable response : Type.
Variable server : string -> result response.
Local Open Scope api_scope.

(** [analyzeSimpleQuery] sits between validation and the request; it
    cannot throw and only feeds the summary. *)
Definition execute (query : string) : translatorAPI.M response :=
  if shouldUseAdvancedParser query
  then selectParser.execute server query
  else
    translatorAPI.lift (validateSyntax query) ;;;
    translatorAPI.executeSelect server query.
End Execute.

(** One entry of [analysis.orderBy]. *)
Record orderKey : Type := OrderKey {
  field : string;
  direction : string;
  mongoDirection : Z
}.

(** [/ORDER\s+BY\s+(.+?)(?:\s+LIMIT|\s*;|\s*$)/i] *)
Definition orderByPattern : regex :=
  Lit "ORDER" +> Many Space 1 true +> Lit "BY" +> Many Space 1 true +>
  Grp 1 (Many Any 1 false) +>
  ((Many Space 1 true +> Lit "LIMIT")
   </> (Many Space 0 true +> Lit ";")
   </> (Many Space 0 true +> Eoi)).

Definition orderKeyOf (field : string) : orderKey :=
  let parts := split false (Many Space 1 true) (Str.trim field) in
  let fieldName := List.hd "" parts in
  let direction :=
    match parts with
    | _ :: d :: _ =>
        if String.eqb (Str.toUpperCase d) "DESC" then "DESC" else "ASC"
    | _ => "ASC"
    end in
  {| field := fieldName;
     direction := direction;
     mongoDirection := if String.eqb direction "DESC" then (-1)%Z else 1%Z |}.

Definition parseOrderBy (query : string) : list orderKey :=
  match match_ true orderByPattern query with
  | Some orderByMatch =>
      match group 1 orderByMatch with
      | Some clause =>
          let orderClause := Str.trim clause in
          let fields := List.map Str.trim (Str.splitChar "," orderClause) in
          List.map orderKeyOf fields
      | None => []
      end
  | None => []
  end.

Definition parseWhereConditions (whereClause : string) : list string :=
  filter Str.nonEmpty
         (List.map Str.trim (split true updateParser.connective whereClause)).

Record analysis : Type := Analysis {
  type : string;
  table : option string;
  fields : list string;
  hasWhere : bool;
  hasOrderBy : bool;
  hasLimit : bool;
  complexity : string;
  conditions : list string;
  limit : option N;
  orderBy : list orderKey;
  estimatedResultSize : string
}.

(** [if (analysis.limit)]: [null] and 0 are both falsy. *)
Definition estimateResultSize (analysis : analysis) : string :=
  match limit analysis with
  | Some n =>
      if negb (n =? 0)%N
      then if (n <=? 10)%N then "small"
           else if (n <=? 100)%N then "medium"
           else "large"
      else if hasWhere analysis then "medium" else "large"
  | None => if hasWhere analysis then "medium" else "large"
  end.

Definition analyzeSimpleQuery (query : string) : analysis :=
  let upperQuery := Str.toUpperCase (Str.trim query) in
  let tableMatch :=
    match_ true (Lit "FROM" +> Many Space 1 true +> Grp 1 (Many Word 1 true))
           query in
  let selectMatch :=
    match_ true (Lit "SELECT" +> Many Space 1 true +> Grp 1 (Many Any 0 false) +>
                 Many Space 1 true +> Lit "FROM") query in
  let hasWhere := Str.includes upperQuery "WHERE" in
  let hasOrderBy := Str.includes upperQuery "ORDER BY" in
  let hasLimit := Str.includes upperQuery "LIMIT" in
  let limitMatch :=
    match_ true (Lit "LIMIT" +> Many Space 1 true +> Grp 1 (Many Digit 1 true))
           query in
  let whereMatch :=
    match_ true (Lit "WHERE" +> Many Space 1 true +> Grp 1 (Many Any 1 false) +>
                 ((Many Space 1 true +> Lit "ORDER")
                  </> (Many Space 1 true +> Lit "LIMIT") </> Eoi)) query in
  let analysis :=
    {| type := "SELECT_SIMPLE";
       table :=
         match tableMatch with
         | Some m => group 1 m
         | None => None
         end;
       fields :=
         match selectMatch with
         | Some m =>
             match group 1 m with
             | Some g =>
                 let fieldsStr := Str.trim g in
                 if String.eqb fieldsStr "*" then ["*"]
                 else List.map Str.trim (Str.splitChar "," fieldsStr)
             | None => []
             end
         | None => []
         end;
       hasWhere := hasWhere;
       hasOrderBy := hasOrderBy;
       hasLimit := hasLimit;
       complexity := "simple";
       conditions :=
         if hasWhere
         then match whereMatch with
              | Some m =>
                  match group 1 m with
                  | Some w => parseWhereConditions w
                  | None => []
                  end
              | None => []
              end
         else [];
       limit :=
         if hasLimit
         then match limitMatch with
              | Some m => option_map Num.parseInt (group 1 m)
              | None => None
              end
         else None;
       orderBy := if hasOrderBy then parseOrderBy query else [];
       estimatedResultSize := "unknown" |} in
  {| type := type analysis;
     table := table analysis;
     fields := fields analysis;
     hasWhere := hasWhere;
     hasOrderBy := hasOrderBy;
     hasLimit := hasLimit;
     complexity := complexity analysis;
     conditions := conditions analysis;
     limit := limit analysis;
     orderBy := orderBy analysis;
     estimatedResultSize := estimateResultSize analysis |}.

Definition getExamples (p : permissions) (currentTable : option string)
  : list string :=
  let currentTable := defaulted currentTable "projects" in
  if negb (select p)
  then ["-- No tienes permisos SELECT"]
  else
    [ "SELECT * FROM " ++ currentTable ++ " LIMIT 5;";
      "SELECT * FROM " ++ currentTable ++ " ORDER BY name ASC LIMIT 10;";
      "SELECT * FROM " ++ currentTable ++ " ORDER BY created_date DESC;";
      "SELECT name, status FROM " ++ currentTable ++ " ORDER BY status, name;";
      "SELECT * FROM " ++ currentTable ++
        " WHERE status = 'In Progress' ORDER BY priority DESC;";
      "SELECT name, status FROM " ++ currentTable ++ ";";
      "SELECT * FROM " ++ currentTable ++ " WHERE status = 'In Progress';";
      "SELECT name FROM " ++ currentTable ++ " WHERE status = 'Completed';";
      "SELECT * FROM restaurants WHERE rating > 4 ORDER BY rating DESC LIMIT 5;";
      "SELECT name, cuisine_type FROM restaurants WHERE rating >= 4.5;" ].

Definition getQuerySpecificTips (query : string) : list string :=
  let upperQuery := Str.toUpperCase query in
  List.app
    (if negb (Str.includes upperQuery "LIMIT")
     then ["💡 Considera agregar LIMIT para evitar muchos resultados"]
     else [])
    (List.app
       (if Str.includes upperQuery "SELECT *"
        then ["💡 Considera especificar campos específicos en lugar de *"]
        else [])
       (List.app
          (if Str.includes upperQuery "WHERE"
              && negb (Str.includes upperQuery "ORDER BY")
           then ["💡 Considera agregar ORDER BY para ordenar los resultados filtrados"]
           else [])
          (if negb (Str.includes upperQuery "WHERE")
              && negb (Str.includes upperQuery "LIMIT")
           then ["⚠️ Sin WHERE ni LIMIT puede devolver muchos resultados"]
           else []))).

Record validation : Type := Validation {
  isValid : bool;
  issues : list string;
  warnings : list string;
  tips : list string
}.

Definition validateSimpleQuery (query : string) : validation :=
  let issues :=
    List.app
      (if shouldUseAdvancedParser query
       then ["Esta consulta tiene características avanzadas y debe usar el parser especializado"]
       else [])
      (match validateSyntax query with
       | Throw error => [message error]
       | Ok _ => []
       end) in
  let upperQuery := Str.toUpperCase query in
  let warnings :=
    List.app
      (if negb (Str.includes upperQuery "LIMIT")
          && negb (Str.includes upperQuery "WHERE")
       then ["Consulta sin WHERE ni LIMIT puede devolver muchos resultados"]
       else [])
      (if Str.includes upperQuery "SELECT *"
       then ["SELECT * puede ser ineficiente - considera especificar campos"]
       else []) in
  {| isValid := List.length issues =? 0;
     issues := issues;
     warnings := warnings;
     tips := getQuerySpecificTips query |}.

Record optimization : Type := Optimization {
  optimized : string;
  suggestions : list string
}.

Definition optimizeSimpleQuery (query : string) (analysis : analysis)
  : optimization :=
  {| optimized :=
       if negb (hasLimit analysis) && negb (hasWhere analysis)
       then query ++ " LIMIT 1000"
       else query;
     suggestions :=
       List.app
         (if Str.member "*" (fields analysis)
          then ["Considera especificar campos específicos en lugar de *"]
          else [])
         (if hasWhere analysis && negb (hasOrderBy analysis)
          then ["Considera agregar ORDER BY para resultados consistentes"]
          else []) |}.

End readParser.

(** ** update.js, second half: the shell generator (mongoshell.js) *)

Module mongoShell.

Import Re.
Local Open Scope re_scope.

Definition detectQueryType (query : string) : string :=
  let upperQuery := Str.toUpperCase (Str.trim query) in
  if Str.startsWith upperQuery "SELECT" then "SELECT"
  else if Str.startsWith upperQuery "INSERT" then "INSERT"
  else if Str.startsWith upperQuery "UPDATE" then "UPDATE"
  else if Str.startsWith upperQuery "DELETE" then "DELETE"
  else if Str.startsWith upperQuery "CREATE" then "CREATE"
  else if Str.startsWith upperQuery "DROP" then "DROP"
  else "UNKNOWN".

(** [/KEYWORD\s+(\w+)/i] *)
Definition nameAfter (keyword : string) : regex :=
  Lit keyword +> Many Space 1 true +> Grp 1 (Many Word 1 true).

Definition firstName (keyword query : string) : option string :=
  match match_ true (nameAfter keyword) query with
  | Some m => group 1 m
  | None => None
  end.

Definition extractTableName (query : string) : string :=
  match firstName "FROM" query with
  | Some t => t
  | None =>
      match firstName "INTO" query with
      | Some t => t
      | None =>
          match firstName "UPDATE" query with
          | Some t => t
          | None =>
              match firstName "TABLE" query with
              | Some t => t
              | None => "collection"
              end
          end
      end
  end.

Definition detectAggregationFunctions (query : string) : bool :=
  existsb (fun pattern => test true pattern query)
          [ WordB +> Lit "COUNT" +> Many Space 0 true +> Lit "(" +>
              Many Space 0 true +> Lit "*" +> Many Space 0 true +> Lit ")";
            selectParser.callOf "COUNT";
            selectParser.callOf "SUM";
            selectParser.callOf "AVG";
            selectParser.callOf "MAX";
            selectParser.callOf "MIN" ].

Record aggregation : Type := Aggregation {
  function_ : string;
  field : string;
  alias : string;
  isCountAll : bool
}.

Definition patterns : list (string * regex) :=
  [ ("COUNT", selectParser.detailOf "COUNT" (Lit "*" </> Many Word 1 true));
    ("SUM", selectParser.detailOf "SUM" (Many Word 1 true));
    ("AVG", selectParser.detailOf "AVG" (Many Word 1 true));
    ("MAX", selectParser.detailOf "MAX" (Many Word 1 true));
    ("MIN", selectParser.detailOf "MIN" (Many Word 1 true)) ].

Definition aggregationOf (funcName : string) (m : found) : aggregation :=
  let field := match group 2 m with Some f => f | None => "" end in
  Aggregation funcName field
    (selectParser.orElse (group 3 m)
       (Str.toLowerCase funcName ++ "_" ++
        (if String.eqb field "*" then "all" else field)))
    (String.eqb funcName "COUNT" && String.eqb field "*").

Definition extractAggregations (query : string) : list aggregation :=
  flat_map (fun fp => List.map (aggregationOf (fst fp))
                               (execAll true (snd fp) None query 0))
           patterns.

(** One entry of the ORDER BY array: [{field, direction}]. *)
Record sortKey : Type := SortKey {
  key : string;
  direction : string
}.

Definition sortKeyOf (item : string) : sortKey :=
  let parts := split false (Many Space 1 true) (Str.trim item) in
  SortKey (List.hd "" parts)
          (match parts with
           | _ :: d :: _ =>
               if String.eqb (Str.toUpperCase d) "DESC" then "DESC" else "ASC"
           | _ => "ASC"
           end).

Definition extractOrderBy (query : string) : option (list sortKey) :=
  match match_ true (Lit "ORDER" +> Many Space 1 true +> Lit "BY" +>
                     Many Space 1 true +> Grp 1 (Many Any 1 false) +>
                     ((Many Space 1 true +> Lit "LIMIT")
                      </> (Many Space 0 true +> Lit ";")
                      </> (Many Space 0 true +> Eoi))) query with
  | Some m =>
      match group 1 m with
      | Some c => Some (List.map sortKeyOf (Str.splitChar "," (Str.trim c)))
      | None => None
      end
  | None => None
  end.

Definition extractLimit (query : string) : option N :=
  match match_ true (Lit "LIMIT" +> Many Space 1 true +>
                     Grp 1 (Many Digit 1 true)) query with
  | Some m => option_map Num.parseInt (group 1 m)
  | None => None
  end.

(** [/WHERE\s+(.+?)(?:\s+GROUP|\s+ORDER|\s+LIMIT|\s*;|\s*$)/i] *)
Definition wherePattern : regex :=
  Lit "WHERE" +> Many Space 1 true +> Grp 1 (Many Any 1 false) +>
  ((Many Space 1 true +> Lit "GROUP")
   </> (Many Space 1 true +> Lit "ORDER")
   </> (Many Space 1 true +> Lit "LIMIT")
   </> (Many Space 0 true +> Lit ";")
   </> (Many Space 0 true +> Eoi)).

(** The chain of [replace] calls ("Conversiones básicas SQL a MongoDB"). *)
Definition basicConversions (conditions : string) : string :=
  replace false (Lit "'") DQ
    (replace true (Lit "AND") ","
       (replace false (Lit "=") ":" conditions)).

(** From the captured clause to the filter text: trim, convert, add the
    braces when the text does not open with one. *)
Definition toFilter (clause : string) : string :=
  let conditions := basicConversions (Str.trim clause) in
  if negb (Str.startsWith conditions "{")
  then "{ " ++ conditions ++ " }"
  else conditions.

Definition extractWhereConditions (query : string) : string :=
  match match_ true wherePattern query with
  | Some whereMatch =>
      match group 1 whereMatch with
      | Some clause => toFilter clause
      | None => "{}"
      end
  | None => "{}"
  end.

Record analysis : Type := Analysis {
  type : string;
  table : string;
  hasAggregation : bool;
  hasGroupBy : bool;
  hasOrderBy : bool;
  hasWhere : bool;
  hasLimit : bool;
  aggregations : list aggregation;
  orderBy : option (list sortKey);
  limit : option N
}.

Definition analyzeSQL (sqlQuery : string) : analysis :=
  let upperQuery := Str.toUpperCase sqlQuery in
  let hasAggregation := detectAggregationFunctions sqlQuery in
  let hasOrderBy := Str.includes upperQuery "ORDER BY" in
  let hasLimit := Str.includes upperQuery "LIMIT" in
  {| type := detectQueryType sqlQuery;
     table := extractTableName sqlQuery;
     hasAggregation := hasAggregation;
     hasGroupBy := Str.includes upperQuery "GROUP BY";
     hasOrderBy := hasOrderBy;
     hasWhere := Str.includes upperQuery "WHERE";
     hasLimit := hasLimit;
     aggregations := if hasAggregation then extractAggregations sqlQuery else [];
     orderBy := if hasOrderBy then extractOrderBy sqlQuery else None;
     limit := if hasLimit then extractLimit sqlQuery else None |}.

Definition accumulator (agg : aggregation) : option string :=
  if String.eqb (function_ agg) "COUNT" then
    if isCountAll agg then Some "{ $sum: 1 }"
    else Some ("{ $sum: { $cond: [{ $ne: [" ++ DQ ++ "$" ++ field agg
               ++ DQ ++ ", null] }, 1, 0] } }")
  else if String.eqb (function_ agg) "SUM"
  then Some ("{ $sum: " ++ DQ ++ "$" ++ field agg ++ DQ ++ " }")
  else if String.eqb (function_ agg) "AVG"
  then Some ("{ $avg: " ++ DQ ++ "$" ++ field agg ++ DQ ++ " }")
  else if String.eqb (function_ agg) "MAX"
  then Some ("{ $max: " ++ DQ ++ "$" ++ field agg ++ DQ ++ " }")
  else if String.eqb (function_ agg) "MIN"
  then Some ("{ $min: " ++ DQ ++ "$" ++ field agg ++ DQ ++ " }")
  else None.

Definition renderFields (o : Obj.t) : string :=
  Str.join ("," ++ LF)
           (List.map (fun kv => "    " ++ fst kv ++ ": " ++ snd kv)
                     (Obj.entries o)).

Definition buildGroupStage (a : analysis) : string :=
  let groupFields : Obj.t :=
    [("_id", if hasGroupBy a then DQ ++ "$group_field" ++ DQ else "null")] in
  let groupFields :=
    fold_left (fun o agg =>
                 match accumulator agg with
                 | Some v => Obj.set (alias agg) v o
                 | None => o
                 end) (aggregations a) groupFields in
  "{ $group: {" ++ LF ++ renderFields groupFields ++ LF ++ "  } }".

Definition buildProjectStage (a : analysis) : string :=
  let projectFields : Obj.t :=
    fold_left (fun o agg => Obj.set (alias agg) "1" o) (aggregations a)
              [("_id", "0")] in
  "{ $project: {" ++ LF ++ renderFields projectFields ++ LF ++ "  } }".

Definition sortFields (orderBy : list sortKey) : string :=
  Str.join ", "
    (List.map (fun f => DQ ++ key f ++ DQ ++ ": " ++
                        (if String.eqb (direction f) "DESC" then "-1" else "1"))
              orderBy).

(** [orderBy] is always the array [extractOrderBy] built. *)
Definition buildSortStage (orderBy : list sortKey) : string :=
  "{ $sort: { " ++ sortFields orderBy ++ " } }".

Definition convertOrderByToSort (orderBy : list sortKey) : string :=
  "{ " ++ sortFields orderBy ++ " }".

Definition truthy (n : option N) : bool :=
  match n with
  | Some n => negb (n =? 0)%N
  | None => false
  end.

Definition limitText (n : option N) : string :=
  match n with
  | Some n => Num.toString n
  | None => "null"
  end.

(** The [pipeline] array of [generateAggregationPipeline] before it is
    joined. *)
Definition pipeline (query : string) (a : analysis) : list string :=
  let whereConditions := extractWhereConditions query in
  let matchStage := "  { $match: " ++ whereConditions ++ " }" in
  let groupStage := "  " ++ buildGroupStage a in
  let projectStage := "  " ++ buildProjectStage a in
  let limitStage := "  { $limit: " ++ limitText (limit a) ++ " }" in
  List.app
    (if Str.nonEmpty whereConditions && negb (String.eqb whereConditions "{}")
     then [matchStage] else [])
    (List.app
       (if hasAggregation a then [groupStage] else [])
       (List.app
          (if hasAggregation a then [projectStage] else [])
          (List.app
             (match orderBy a with
              | Some o =>
                  if hasOrderBy a then ["  " ++ buildSortStage o] else []
              | None => []
              end)
             (if hasLimit a && truthy (limit a) then [limitStage] else [])))).

Definition aggregationHeader (query : string) : string :=
  "// MongoDB Shell equivalente para agregación" ++ LF ++
  "// SQL: " ++ query ++ LF ++
  "// Usando pipeline de agregación" ++ LF ++ LF.

Definition generateAggregationPipeline (query : string) (a : analysis)
  : string :=
  let pipelineStr := Str.join ("," ++ LF) (pipeline query a) in
  aggregationHeader query ++
  "db." ++ table a ++ ".aggregate([" ++ LF ++ pipelineStr ++ LF ++ "]);".

Definition commentHeader (type originalQuery : string) : string :=
  "// MongoDB Shell equivalente para " ++ type ++ LF ++
  "// SQL: " ++ originalQuery ++ LF ++
  "// Generado automáticamente" ++ LF ++ LF.

Definition addComments (shell type originalQuery : string) : string :=
  commentHeader type originalQuery ++ shell.

Definition simpleSelect (query : string) (a : analysis) : string :=
  let conditions := extractWhereConditions query in
  "db." ++ table a ++ ".find(" ++
  (if Str.nonEmpty conditions && negb (String.eqb conditions "{}")
   then conditions else "{}") ++
  ")" ++
  (match orderBy a with
   | Some o => if hasOrderBy a
               then ".sort(" ++ convertOrderByToSort o ++ ")" else ""
   | None => ""
   end) ++
  (if truthy (limit a) then ".limit(" ++ limitText (limit a) ++ ")" else "") ++
  ";".

Definition generateSimpleSelectShell (query : string) (a : analysis)
  : string :=
  addComments (simpleSelect query a) "SELECT" query.

Definition generateSelectShellAdvanced (query : string) (a : analysis)
  : string :=
  if hasAggregation a || hasGroupBy a
  then generateAggregationPipeline query a
  else generateSimpleSelectShell query a.

Definition generateInsertShell (query : string) : string :=
  let table := extractTableName query in
  addComments
    ("db." ++ table ++ ".insertOne({" ++ LF ++
     "  // Documento basado en: " ++ query ++ LF ++
     "  // Ajustar campos según estructura real" ++ LF ++
     "});")
    "INSERT" query.

Definition generateUpdateShell (query : string) : string :=
  let table := extractTableName query in
  let conditions := extractWhereConditions query in
  addComments
    ("db." ++ table ++ ".updateMany(" ++ LF ++
     "  " ++ conditions ++ "," ++ LF ++
     "  {" ++ LF ++
     "    $set: {" ++ LF ++
     "      // Campos a actualizar según SET clause" ++ LF ++
     "    }" ++ LF ++
     "  }" ++ LF ++
     ");")
    "UPDATE" query.

Definition generateDeleteShell (query : string) : string :=
  let table := extractTableName query in
  let conditions := extractWhereConditions query in
  let shell := "db." ++ table ++ ".deleteMany(" ++ conditions ++ ");" in
  addComments
    (if String.eqb conditions "{}"
     then "// ⚠️ PELIGRO: Elimina TODOS los documentos" ++ LF ++ shell
     else shell)
    "DELETE" query.

Definition generateCreateShell (query : string) : string :=
  let table := extractTableName query in
  addComments
    ("// En MongoDB, las colecciones se crean automáticamente" ++ LF ++
     "db." ++ table ++ ".insertOne({" ++ LF ++
     "  // Primer documento de ejemplo" ++ LF ++
     "});")
    "CREATE" query.

Definition generateDropShell (query : string) : string :=
  let table := extractTableName query in
  addComments
    ("// ⚠️ PELIGRO: Elimina toda la colección" ++ LF ++
     "db." ++ table ++ ".drop();")
    "DROP" query.

Definition generateLocalAdvanced (sqlQuery : string) : string :=
  let analysis := analyzeSQL sqlQuery in
  if String.eqb (type analysis) "SELECT"
  then generateSelectShellAdvanced sqlQuery analysis
  else if String.eqb (type analysis) "INSERT"
  then generateInsertShell sqlQuery
  else if String.eqb (type analysis) "UPDATE"
  then generateUpdateShell sqlQuery
  else if String.eqb (type analysis) "DELETE"
  then generateDeleteShell sqlQuery
  else if String.eqb (type analysis) "CREATE"
  then generateCreateShell sqlQuery
  else if String.eqb (type analysis) "DROP"
  then generateDropShell sqlQuery
  else "// Consulta SQL no reconocida:" ++ LF ++ "// " ++ sqlQuery.

(** Which stage a pipeline entry is, read off the text that was pushed. *)
Inductive stage : Type := Match_ | Group | Project | Sort | Limit.

Definition stageOf (entry : string) : option stage :=
  if Str.startsWith entry "  { $match: " then Some Match_
  else if Str.startsWith entry "  { $group: " then Some Group
  else if Str.startsWith entry "  { $project: " then Some Project
  else if Str.startsWith entry "  { $sort: " then Some Sort
  else if Str.startsWith entry "  { $limit: " then Some Limit
  else None.

(** [shellQuery && ... ] as a condition: the empty string is falsy. *)
Definition isValidShellQuery (shellQuery : string) : bool :=
  Str.nonEmpty shellQuery
  && negb (Str.includes shellQuery "Error")
  && negb (Str.includes shellQuery "error")
  && negb (String.eqb (Str.trim shellQuery) "")
  && Str.includes shellQuery "db.".

Definition formatShellQuery (shellQuery : string) : string :=
  if negb (Str.includes shellQuery "//") && negb (Str.includes shellQuery "/*")
  then "// MongoDB Shell Query" ++ LF ++
       "// Generado por el backend" ++ LF ++ LF ++ shellQuery
  else shellQuery.

Section Generate.
Variable shellServer : string -> result translatorAPI.shellBody.

(** [translatorAPI.generateShellQuery] catches what its request throws, so
    the [catch] here is never entered. *)
Definition getFromBackend (sqlQuery : string) : translatorAPI.field :=
  translatorAPI.generateShellQuery shellServer sqlQuery.

(** A truthy answer that is not a string has no [includes] or no [trim]:
    the call throws inside [isValidShellQuery] (or, for an array holding
    ['Error'], answers false), and either way [generate] ends in the
    local generator. *)
Definition generate (sqlQuery : string) : string :=
  match getFromBackend sqlQuery with
  | translatorAPI.Text backendShell =>
      if Str.nonEmpty backendShell && isValidShellQuery backendShell
      then formatShellQuery backendShell
      else generateLocalAdvanced sqlQuery
  | translatorAPI.Other => generateLocalAdvanced sqlQuery
  | translatorAPI.Falsy => generateLocalAdvanced sqlQuery
  end.
End Generate.

End mongoShell.

(** ** The order of the gates *)

Module translator.

Section Gated.
Variable response : Type.
Variable server : string -> result response.
Local Open Scope api_scope.

(** Modelled from the spec: the coordinator that owns the parsers
    ([translatorJS/main.js], the [main] every parser keeps a reference to)
    is not among the sources.  Section 4.5 of the specification has both
    gates run before any command is built, so a statement goes through its
    parser's [validatePermissions] and only then through its [execute]. *)
Definition gated (validatePermissions : permissions -> string -> result unit)
  (execute : string -> translatorAPI.M response)
  (p : permissions) (query : string) : translatorAPI.M response :=
  translatorAPI.lift (validatePermissions p query) ;;; execute query.

(** Modelled from the spec: [gated] at each of the parsers the coordinator
    owns, the SELECT statements entering through [readParser]. *)
Definition read :=
  gated readParser.validatePermissions (readParser.execute server).

(** Modelled from the spec: as [read], for UPDATE. *)
Definition update :=
  gated updateParser.validatePermissions (updateParser.execute server).

(** Modelled from the spec: as [read], for DELETE and DROP. *)
Definition delete :=
  gated deleteParser.validatePermissions (deleteParser.execute server).

(** Modelled from the spec: as [read], for INSERT and CREATE. *)
Definition create :=
  gated createParser.validatePermissions (createParser.execute server).
End Gated.

End translator.

(** * Vocabulary of the properties *)

(** ** Outcomes *)

(** The error kind a result carries, if it is a throw. *)
Definition thrown {A : Type} (r : result A) : option errorKind :=
  match r with
  | Throw e => Some (kind e)
  | Ok _ => None
  end.

(** The leading keyword, as every parser tests it. *)
Definition leads (keyword query : string) : bool :=
  Str.startsWith (Str.toUpperCase (Str.trim query)) keyword.

Definition allPermissions : permissions :=
  Permissions true true true true true true.

Definition noPermissions : permissions :=
  Permissions false false false false false false.

(** A backend that accepts whatever it is sent. *)
Definition accepting : string -> result unit := fun _ => Ok tt.

(** ** A declarative reading of the patterns *)

(** The character behind the matcher once it has gone through [w]. *)
Fixpoint lastFrom (pv : option ascii) (w : string) : option ascii :=
  match w with
  | EmptyString => pv
  | String c t => lastFrom (Some c) t
  end.

(** [w] is the literal [p], letter case aside when [ci]. *)
Definition sameText (ci : bool) (w p : string) : bool :=
  if ci then String.eqb (Str.toUpperCase w) (Str.toUpperCase p)
  else String.eqb w p.

(** Every character of [w] is in the class. *)
Fixpoint allIn (cs : Re.cset) (w : string) : bool :=
  match w with
  | EmptyString => true
  | String c t => Re.mem cs c && allIn cs t
  end.

(** What it means for a pattern to take the matcher from one state to
    another, with no reference to how the matcher searches. *)
Fixpoint matches (ci : bool) (r : Re.regex) (st st' : Re.state) : Prop :=
  match r with
  | Re.Lit p =>
      exists w, Re.rest st = w ++ Re.rest st'
                /\ sameText ci w p = true
                /\ Re.prev st' = lastFrom (Re.prev st) w
                /\ Re.caps st' = Re.caps st
  | Re.Many cs min _ =>
      exists w, Re.rest st = w ++ Re.rest st'
                /\ allIn cs w = true
                /\ min <= String.length w
                /\ Re.prev st' = lastFrom (Re.prev st) w
                /\ Re.caps st' = Re.caps st
  | Re.Seq a b => exists mid, matches ci a st mid /\ matches ci b mid st'
  | Re.Alt a b => matches ci a st st' \/ matches ci b st st'
  | Re.Opt a => matches ci a st st' \/ st' = st
  | Re.Grp n a =>
      exists e, matches ci a st e
                /\ st' = Re.State (Re.prev e) (Re.rest e)
                                  ((n, Re.consumed st e) :: Re.caps e)
  | Re.WordB =>
      st' = st
      /\ xorb (Re.is_word_opt (Re.prev st))
              (Re.is_word_opt (Str.head (Re.rest st))) = true
  | Re.Eoi => st' = st /\ Re.rest st = ""
  end.

(** Patterns that end by capturing a non-empty run of a class as group 1. *)
Inductive namesGroup : Re.regex -> Prop :=
| NamesGrp (cs : Re.cset) (n : nat) (g : bool) :
    namesGroup (Re.Grp 1 (Re.Many cs (S n) g))
| NamesSeq (a b : Re.regex) : namesGroup b -> namesGroup (Re.Seq a b).

(** [t] is a word of [q] that follows the keyword [k] and some blanks. *)
Definition namedAfter (k q t : string) : Prop :=
  exists pre kw blanks post : string,
    q = pre ++ kw ++ blanks ++ t ++ post
    /\ Str.toUpperCase kw = k
    /\ allIn Re.Space blanks = true /\ blanks <> ""
    /\ allIn Re.Word t = true /\ t <> "".

(** ** Replacing a literal *)

(** [s] opens with [p], letter case aside when [ci]. *)
Fixpoint opens (ci : bool) (p s : string) {struct p} : bool :=
  match p with
  | EmptyString => true
  | String a p' =>
      match s with
      | String b s' =>
          (if ci then Char.eqb_ci a b else Ascii.eqb a b) && opens ci p' s'
      | EmptyString => false
      end
  end.

(** [Re.replaceAll] specialised to a literal pattern: the length of a match
    is the length of the literal. *)
Fixpoint replaceLit (ci : bool) (p by_ s : string) (skip : nat) : string :=
  match skip with
  | S k =>
      match s with
      | String _ t => replaceLit ci p by_ t k
      | EmptyString => ""
      end
  | 0 =>
      match s with
      | String c t =>
          if opens ci p s
          then by_ ++ replaceLit ci p by_ t (pred (String.length p))
          else String c (replaceLit ci p by_ t 0)
      | EmptyString => ""
      end
  end.

(** No match of [p] starts in a text and runs into [y] placed after it. *)
Definition sealed (ci : bool) (p y : string) : Prop :=
  forall (c : ascii) (u : string),
    opens ci p (String c u ++ y) = opens ci p (String c u).

(** Text the conversions leave alone: no [=], no quote, no AND. *)
Definition plain (s : string) : bool :=
  negb (Str.includes s "=") && negb (Str.includes s "'")
  && negb (Str.includes (Str.toUpperCase s) "AND").

(** ** What the seven tests of [shouldUseAdvancedParser] look for *)

(** None of the seven tests answers yes. *)
Definition noTestFires (q : string) : Prop :=
  readParser.hasAggregation q = false
  /\ readParser.hasGroupBy q = false
  /\ readParser.hasHaving q = false
  /\ readParser.hasJoin q = false
  /\ readParser.hasUnion q = false
  /\ readParser.hasDistinct q = false
  /\ readParser.hasSubquery q = false.

(** One of the seven tests answers yes. *)
Definition someTestFires (q : string) : Prop :=
  readParser.hasAggregation q = true
  \/ readParser.hasGroupBy q = true
  \/ readParser.hasHaving q = true
  \/ readParser.hasJoin q = true
  \/ readParser.hasUnion q = true
  \/ readParser.hasDistinct q = true
  \/ readParser.hasSubquery q = true.

Definition aggregateNames : list string :=
  ["COUNT"; "SUM"; "AVG"; "MAX"; "MIN"; "GROUP_CONCAT"].

(** An aggregate call somewhere in [q]: one of the six names in any letter
    case, with no word character just before it, then blanks, then an
    opening parenthesis. *)
Definition aggregateCallIn (q : string) : Prop :=
  exists pre name blanks post : string,
    q = pre ++ name ++ blanks ++ "(" ++ post
    /\ In (Str.toUpperCase name) aggregateNames
    /\ allIn Re.Space blanks = true
    /\ Re.is_word_opt (lastFrom None pre) = false.

(** A parenthesised subquery: an opening parenthesis, blanks, SELECT in any
    letter case, at least one blank. *)
Definition subqueryIn (q : string) : Prop :=
  exists pre b1 w b2 post : string,
    q = pre ++ "(" ++ b1 ++ w ++ b2 ++ post
    /\ allIn Re.Space b1 = true
    /\ Str.toUpperCase w = "SELECT"
    /\ allIn Re.Space b2 = true
    /\ b2 <> "".

(** The keyword occurs in the text once it is put in capitals. *)
Definition keywordIn (k q : string) : Prop :=
  exists a b : string, Str.toUpperCase q = a ++ k ++ b.

(** LIMIT as a word of its own, in any letter case. *)
Definition limitWordIn (q : string) : Prop :=
  exists pre w post : string,
    q = pre ++ w ++ post
    /\ Str.toUpperCase w = "LIMIT"
    /\ Re.is_word_opt (lastFrom None pre) = false
    /\ Re.is_word_opt (Str.head post) = false.

(** The text has one of the seven constructs. *)
Definition advancedFeatureIn (q : string) : Prop :=
  aggregateCallIn q
  \/ keywordIn "GROUP BY" q
  \/ keywordIn "HAVING" q
  \/ keywordIn "JOIN" q
  \/ keywordIn "UNION" q
  \/ keywordIn "SELECT DISTINCT" q
  \/ subqueryIn q.

(** ** Texts, keywords and clauses, as a reader of SQL sees them *)

(** Text of ASCII characters only.  There the blanks, the word characters
    and the letter case of the source are the ones of [Char]. *)
Fixpoint asciiText (s : string) : bool :=
  match s with
  | EmptyString => true
  | String c t => (Char.code c <? 128) && asciiText t
  end.

(** The keyword [k] stands in the text as a word of its own, in any letter
    case: no word character touches it on either side. *)
Definition wordIn (k q : string) : Prop :=
  exists pre w post : string,
    q = pre ++ w ++ post
    /\ Str.toUpperCase w = k
    /\ Re.is_word_opt (lastFrom None pre) = false
    /\ Re.is_word_opt (Str.head post) = false.

(** The letters of [a], one or more blanks and the letters of [b], anywhere
    in the text and in any letter case. *)
Definition phraseIn (a b q : string) : Prop :=
  exists pre x blanks y post : string,
    q = pre ++ x ++ blanks ++ y ++ post
    /\ Str.toUpperCase x = a
    /\ allIn Re.Space blanks = true /\ blanks <> ""
    /\ Str.toUpperCase y = b.

(** The three quotes of SQL: the single quote, the double quote and the
    backtick. *)
Definition isQuote (c : ascii) : bool :=
  (Char.code c =? 39) || (Char.code c =? 34) || (Char.code c =? 96).

(** The quote that is open once [s] has been read, if one is: a quote
    opens a quoted text, the next quote of its kind closes it. *)
Fixpoint openQuote (o : option ascii) (s : string) : option ascii :=
  match s with
  | EmptyString => o
  | String c t =>
      match o with
      | Some d => openQuote (if Ascii.eqb c d then None else Some d) t
      | None => openQuote (if isQuote c then Some c else None) t
      end
  end.

(** The keyword [k] opens a clause of the statement: it stands there, in
    any letter case, as a word of its own and outside every quoted text. *)
Definition clauseIn (k q : string) : Prop :=
  exists pre w post : string,
    q = pre ++ w ++ post
    /\ Str.toUpperCase w = k
    /\ Re.is_word_opt (lastFrom None pre) = false
    /\ Re.is_word_opt (Str.head post) = false
    /\ openQuote None pre = None.

(** The statement has a WHERE clause. *)
Definition whereClauseIn (q : string) : Prop := clauseIn "WHERE" q.

(** The statement calls an aggregate function: [aggregateCallIn], the call
    standing outside every quoted text. *)
Definition callIn (q : string) : Prop :=
  exists pre name blanks post : string,
    q = pre ++ name ++ blanks ++ "(" ++ post
    /\ In (Str.toUpperCase name) aggregateNames
    /\ allIn Re.Space blanks = true
    /\ Re.is_word_opt (lastFrom None pre) = false
    /\ openQuote None pre = None.

(** The statement has a parenthesised subquery: [subqueryIn], the
    parenthesis standing outside every quoted text. *)
Definition subselectIn (q : string) : Prop :=
  exists pre b1 w b2 post : string,
    q = pre ++ "(" ++ b1 ++ w ++ b2 ++ post
    /\ allIn Re.Space b1 = true
    /\ Str.toUpperCase w = "SELECT"
    /\ allIn Re.Space b2 = true
    /\ b2 <> ""
    /\ openQuote None pre = None.

(** The statement calls an aggregate function on one column: COUNT of
    [*], or COUNT, SUM, AVG, MAX or MIN of a column name, the function
    name a word of its own, in any letter case, outside every quoted text,
    blanks allowed around the parentheses. *)
Definition simpleCallIn (q : string) : Prop :=
  exists pre name b1 b2 arg b3 post : string,
    q = pre ++ name ++ b1 ++ "(" ++ b2 ++ arg ++ b3 ++ ")" ++ post
    /\ Re.is_word_opt (lastFrom None pre) = false
    /\ openQuote None pre = None
    /\ allIn Re.Space b1 = true
    /\ allIn Re.Space b2 = true
    /\ allIn Re.Space b3 = true
    /\ ((Str.toUpperCase name = "COUNT" /\ arg = "*")
        \/ (In (Str.toUpperCase name) ["COUNT"; "SUM"; "AVG"; "MAX"; "MIN"]
            /\ allIn Re.Word arg = true /\ arg <> "")).

(** [s] opens with the letters of [k], blanks and a word character. *)
Definition opensNamed (k s : string) : Prop :=
  exists (kw blanks : string) (c : ascii) (rest : string),
    s = kw ++ blanks ++ String c rest
    /\ Str.toUpperCase kw = k
    /\ allIn Re.Space blanks = true /\ blanks <> ""
    /\ Char.is_word c = true.

(** [t] is the whole word after the first place of [q] where the letters
    of [k], in any letter case, are followed by blanks and a word. *)
Definition firstNamed (k q t : string) : Prop :=
  exists pre kw blanks post : string,
    q = pre ++ kw ++ blanks ++ t ++ post
    /\ Str.toUpperCase kw = k
    /\ allIn Re.Space blanks = true /\ blanks <> ""
    /\ allIn Re.Word t = true /\ t <> ""
    /\ Re.is_word_opt (Str.head post) = false
    /\ forall pre' suf' : string,
         q = pre' ++ suf' ->
         String.length pre' < String.length pre ->
         ~ opensNamed k suf'.

(** Nowhere in [q] are the letters of [k] followed by blanks and a word. *)
Definition noneNamed (k q : string) : Prop :=
  forall t : string, ~ namedAfter k q t.

(** The table name of a statement, as the shell generator reads it: the
    word named first by FROM; failing FROM, by INTO; then by UPDATE; then
    by TABLE; and the placeholder when none of the four names a word. *)
Definition tableNamedBy (q t : string) : Prop :=
  firstNamed "FROM" q t
  \/ (noneNamed "FROM" q /\ firstNamed "INTO" q t)
  \/ (noneNamed "FROM" q /\ noneNamed "INTO" q /\ firstNamed "UPDATE" q t)
  \/ (noneNamed "FROM" q /\ noneNamed "INTO" q /\ noneNamed "UPDATE" q
      /\ firstNamed "TABLE" q t)
  \/ (noneNamed "FROM" q /\ noneNamed "INTO" q /\ noneNamed "UPDATE" q
      /\ noneNamed "TABLE" q /\ t = "collection").

(** ** Pipeline entries *)

(** The entry for a stage that is there or not. *)
Definition stageIf (b : bool) (s : mongoShell.stage)
  : list (option mongoShell.stage) :=
  if b then [Some s] else [].

(** ** The remaining methods *)

(** A field name [validateFields] calls dangerous, and one it warns about,
    whatever the letter case. *)
Definition critical (f : string) : bool :=
  Str.member (Str.toLowerCase f) updateParser.criticalFields.

Definition cautioned (f : string) : bool :=
  Str.member (Str.toLowerCase f) updateParser.warningFields.

(** The tiers of [calculateComplexity], in order. *)
Definition tier (complexity : string) : nat :=
  if String.eqb complexity "simple" then 0
  else if String.eqb complexity "moderate" then 1
  else if String.eqb complexity "complex" then 2
  else 3.

(** Every construct [f] has, [g] has too. *)
Definition featuresLe (f g : selectParser.features) : Prop :=
  (selectParser.hasJoin f = true -> selectParser.hasJoin g = true)
  /\ (selectParser.hasSubquery f = true -> selectParser.hasSubquery g = true)
  /\ (selectParser.hasAggregation f = true ->
      selectParser.hasAggregation g = true)
  /\ (selectParser.hasGroupBy f = true -> selectParser.hasGroupBy g = true)
  /\ (selectParser.hasHaving f = true -> selectParser.hasHaving g = true)
  /\ (selectParser.hasOrderBy f = true -> selectParser.hasOrderBy g = true)
  /\ (selectParser.hasWindow f = true -> selectParser.hasWindow g = true)
  /\ (selectParser.hasUnion f = true -> selectParser.hasUnion g = true)
  /\ (selectParser.hasDistinct f = true -> selectParser.hasDistinct g = true).

(** How many of the four constructs [planMongoDBStrategy] counts. *)
Definition pipelineConstructs (f : selectParser.features) : nat :=
  List.length
    (filter (fun b : bool => b)
            [selectParser.hasAggregation f; selectParser.hasGroupBy f;
             selectParser.hasOrderBy f; selectParser.hasDistinct f]).

(** The comment [formatShellQuery] puts before a text that has none. *)
Definition backendHeader : string :=
  "// MongoDB Shell Query" ++ LF ++ "// Generado por el backend" ++ LF ++ LF.

(** The number [n] is written in [q] after LIMIT and some blanks, as a
    whole run of digits. *)
Definition limitIn (q : string) (n : N) : Prop :=
  exists pre kw blanks digits post : string,
    q = pre ++ kw ++ blanks ++ digits ++ post
    /\ Str.toUpperCase kw = "LIMIT"
    /\ allIn Re.Space blanks = true /\ blanks <> ""
    /\ allIn Re.Digit digits = true /\ digits <> ""
    /\ match post with
       | String c _ => Char.is_digit c = false
       | EmptyString => True
       end
    /\ n = Num.parseInt digits.

(** The property names of an object, in creation order. *)
Definition keys (o : Obj.t) : list string := List.map fst o.

(** The object [buildGroupStage] fills in before it renders it, and the
    one [buildProjectStage] fills in. *)
Definition groupFields (a : mongoShell.analysis) : Obj.t :=
  fold_left (fun o agg =>
               match mongoShell.accumulator agg with
               | Some v => Obj.set (mongoShell.alias agg) v o
               | None => o
               end)
            (mongoShell.aggregations a)
            [("_id", if mongoShell.hasGroupBy a
                     then DQ ++ "$group_field" ++ DQ else "null")].

Definition projectFields (a : mongoShell.analysis) : Obj.t :=
  fold_left (fun o agg => Obj.set (mongoShell.alias agg) "1" o)
            (mongoShell.aggregations a) [("_id", "0")].

(** * Properties *)

(** Closed facts are settled by running the model. *)
Ltac evaluate := vm_compute; reflexivity.

(** ** Strings *)

Lemma append_assoc (a b c : string) : (a ++ b) ++ c = a ++ b ++ c.
Proof. induction a as [|x a IH]; simpl; [reflexivity | now rewrite IH]. Qed.

Lemma append_empty_r (a : string) : a ++ "" = a.
Proof. induction a as [|x a IH]; simpl; [reflexivity | now rewrite IH]. Qed.

Lemma startsWith_spec (s p : string) :
  Str.startsWith s p = true <-> exists b, s = p ++ b.
Proof.
  revert s; induction p as [|x p IH]; intros s; simpl.
  - split; [intros _; now exists s | reflexivity].
  - destruct s as [|y s].
    + split; [discriminate | intros [b H]; discriminate].
    + rewrite andb_true_iff, Ascii.eqb_eq, IH. split.
      * intros [-> [b ->]]. now exists b.
      * intros [b H]. injection H as -> ->. split; [reflexivity | now exists b].
Qed.

Lemma startsWith_append (p b : string) : Str.startsWith (p ++ b) p = true.
Proof. apply startsWith_spec. now exists b. Qed.

Lemma includes_spec (s p : string) :
  Str.includes s p = true <-> exists a b, s = a ++ p ++ b.
Proof.
  induction s as [|x s IH]; simpl.
  - rewrite orb_false_r, startsWith_spec. split.
    + intros [b H]. now exists "", b.
    + intros [a [b H]]. destruct a; [now exists b | discriminate].
  - rewrite orb_true_iff, startsWith_spec, IH. split.
    + intros [[b H] | [a [b H]]].
      * now exists "", b.
      * exists (String x a), b. simpl. now rewrite H.
    + intros [a [b H]]. destruct a as [|y a].
      * left. now exists b.
      * right. simpl in H. injection H as _ H. now exists a, b.
Qed.

Lemma includes_append (a p b : string) : Str.includes (a ++ p ++ b) p = true.
Proof. apply includes_spec. now exists a, b. Qed.

Lemma keyword_test (k q : string) :
  Str.includes (Str.toUpperCase q) k = true <-> keywordIn k q.
Proof. apply includes_spec. Qed.

(** ** The matcher against a declarative reading of the patterns *)

Lemma run_seq (ci : bool) (a b : Re.regex) (st st' : Re.state) :
  In st' (Re.run ci (Re.Seq a b) st) <->
  exists mid, In mid (Re.run ci a st) /\ In st' (Re.run ci b mid).
Proof. simpl. apply in_flat_map. Qed.

Lemma sameText_nil_l (ci : bool) (p : string) :
  sameText ci "" p = true -> p = "".
Proof. unfold sameText. destruct p, ci; simpl; congruence. Qed.

Lemma sameText_nil_r (ci : bool) (w : string) :
  sameText ci w "" = true -> w = "".
Proof. unfold sameText. destruct w, ci; simpl; congruence. Qed.

Lemma sameText_cons (ci : bool) (b a : ascii) (w p : string) :
  sameText ci (String b w) (String a p)
  = (if ci then Char.eqb_ci a b else Ascii.eqb a b) && sameText ci w p.
Proof.
  unfold sameText, Char.eqb_ci. destruct ci; simpl;
    now rewrite Ascii.eqb_sym.
Qed.

Lemma sameText_upper (w p : string) :
  Str.toUpperCase p = p ->
  (sameText true w p = true <-> Str.toUpperCase w = p).
Proof. intros Hp. unfold sameText. rewrite Hp. apply String.eqb_eq. Qed.

Lemma eat_spec (ci : bool) (p : string) :
  forall (pv pv' : option ascii) (s s' : string),
    Re.eat ci p pv s = Some (pv', s') <->
    exists w, s = w ++ s' /\ sameText ci w p = true /\ pv' = lastFrom pv w.
Proof.
  induction p as [|a p IH]; intros pv pv' s s'; simpl.
  - split.
    + intros H. injection H as <- <-. exists "". split; [reflexivity |].
      split; [now destruct ci | reflexivity].
    + intros [w [-> [Hw ->]]]. apply sameText_nil_r in Hw. now subst w.
  - destruct s as [|b s].
    + split; [discriminate |]. intros [w [Hs [Hw _]]].
      destruct w; [| discriminate Hs].
      apply sameText_nil_l in Hw. discriminate Hw.
    + split.
      * intros H.
        destruct (if ci then Char.eqb_ci a b else Ascii.eqb a b) eqn:E;
          [| discriminate H].
        apply IH in H. destruct H as [w [-> [Hw ->]]]. exists (String b w).
        split; [reflexivity |]. split; [| reflexivity].
        now rewrite sameText_cons, E.
      * intros [w [Hs [Hw ->]]]. destruct w as [|c w].
        -- apply sameText_nil_l in Hw. discriminate Hw.
        -- simpl in Hs. injection Hs as <- ->.
           rewrite sameText_cons in Hw. apply andb_true_iff in Hw.
           destruct Hw as [E Hw]. rewrite E. apply IH. now exists w.
Qed.

Lemma spans_spec (cs : Re.cset) (s : string) :
  forall (n : nat) (pv : option ascii) (e : option ascii * string),
    In e (skipn n (Re.spans cs pv s)) <->
    exists w, s = w ++ snd e /\ allIn cs w = true
              /\ n <= String.length w /\ fst e = lastFrom pv w.
Proof.
  induction s as [|c s IH]; intros n pv e.
  - split.
    + intros H. destruct n as [|n]; simpl in H;
        [| rewrite skipn_nil in H; destruct H].
      destruct H as [<- | []]. exists "". simpl. repeat split. lia.
    + intros [w [Hs [_ [Hn He]]]]. destruct w; [| discriminate Hs].
      simpl in *. replace n with 0 by lia. simpl. left.
      destruct e as [e1 e2]. simpl in *. now subst.
  - split.
    + intros H. destruct n as [|n]; simpl in H.
      * destruct H as [<- | H].
        { exists "". simpl. repeat split. lia. }
        destruct (Re.mem cs c) eqn:M; [| destruct H].
        apply (IH 0) in H. destruct H as [w [-> [Hw [_ ->]]]].
        exists (String c w). simpl. rewrite M, Hw. repeat split. lia.
      * destruct (Re.mem cs c) eqn:M; [| rewrite skipn_nil in H; destruct H].
        apply IH in H. destruct H as [w [-> [Hw [Hn ->]]]].
        exists (String c w). simpl. rewrite M, Hw. repeat split. lia.
    + intros [w [Hs [Hw [Hn He]]]]. destruct w as [|b w].
      * simpl in *. replace n with 0 by lia. simpl. left.
        destruct e as [e1 e2]. simpl in *. now subst.
      * simpl in Hs. injection Hs as <- ->. simpl in Hw.
        apply andb_true_iff in Hw. destruct Hw as [M Hw].
        assert (In e (skipn (pred n) (Re.spans cs (Some c) (w ++ snd e)))).
        { apply IH. exists w. simpl in Hn. repeat split; trivial. lia. }
        destruct n as [|n]; simpl; rewrite M; [right |]; exact H.
Qed.

Lemma many_spec (cs : Re.cset) (n : nat) (g : bool) (st st' : Re.state) :
  In st' (Re.many cs n g st) <-> matches true (Re.Many cs n g) st st'.
Proof.
  unfold Re.many. simpl. rewrite in_map_iff. split.
  - intros [e [<- H]].
    assert (H' : In e (skipn n (Re.spans cs (Re.prev st) (Re.rest st))))
      by (destruct g; [now apply in_rev in H | exact H]).
    apply spans_spec in H'. destruct H' as [w [Hs [Hw [Hn He]]]].
    exists w. simpl. auto.
  - intros [w [Hs [Hw [Hn [Hp Hc]]]]].
    exists (Re.prev st', Re.rest st'). split.
    + destruct st'. simpl in *. now subst.
    + assert (H' : In (Re.prev st', Re.rest st')
                      (skipn n (Re.spans cs (Re.prev st) (Re.rest st))))
        by (apply spans_spec; exists w; simpl; auto).
      destruct g; [apply (proj1 (in_rev _ _)); exact H' | exact H'].
Qed.

(** The states [run] lists are exactly the ones the pattern allows. *)
Theorem run_matches (ci : bool) (r : Re.regex) :
  forall st st' : Re.state, In st' (Re.run ci r st) <-> matches ci r st st'.
Proof.
  induction r as [p | cs n g | a IHa b IHb | a IHa b IHb | a IHa | n a IHa | |];
    intros st st'.
  - simpl. destruct (Re.eat ci p (Re.prev st) (Re.rest st)) as [[pv s] |] eqn:E.
    + split.
      * intros [<- | []]. apply eat_spec in E.
        destruct E as [w [Hs [Hw Hp]]]. exists w. simpl. auto.
      * intros [w [Hs [Hw [Hp Hc]]]]. left.
        assert (E' : Re.eat ci p (Re.prev st) (Re.rest st)
                     = Some (Re.prev st', Re.rest st'))
          by (apply eat_spec; exists w; auto).
        rewrite E in E'. injection E' as -> ->.
        destruct st'. simpl in *. now subst.
    + split; [intros [] |]. intros [w [Hs [Hw [Hp Hc]]]].
      assert (E' : Re.eat ci p (Re.prev st) (Re.rest st)
                   = Some (Re.prev st', Re.rest st'))
        by (apply eat_spec; exists w; auto).
      rewrite E in E'. discriminate E'.
  - apply many_spec.
  - rewrite run_seq. simpl. split.
    + intros [mid [H1 H2]]. exists mid. split; [now apply IHa | now apply IHb].
    + intros [mid [H1 H2]]. exists mid. split; [now apply IHa | now apply IHb].
  - simpl. rewrite in_app_iff, IHa, IHb. reflexivity.
  - simpl. rewrite in_app_iff, IHa. simpl. intuition auto.
  - simpl. rewrite in_map_iff. split.
    + intros [e [<- H]]. exists e. split; [now apply IHa | reflexivity].
    + intros [e [H ->]]. exists e. split; [reflexivity | now apply IHa].
  - simpl. destruct (xorb _ _); simpl; intuition (auto; discriminate).
  - simpl. destruct (Re.rest st); simpl; intuition (auto; discriminate).
Qed.

Lemma search_spec (ci : bool) (r : Re.regex) (s : string) :
  forall pv : option ascii,
    (exists m, Re.search ci r pv s = Some m) <->
    exists pre suf st',
      s = pre ++ suf
      /\ matches ci r (Re.State (lastFrom pv pre) suf []) st'.
Proof.
  induction s as [|c s IH]; intros pv; simpl; unfold Re.at_.
  - destruct (Re.run ci r (Re.State pv "" [])) as [|st' l] eqn:E; simpl.
    + split; [intros [m H]; discriminate H |].
      intros [pre [suf [st' [Hs H]]]].
      destruct pre; [| discriminate Hs]. simpl in Hs. subst suf.
      apply run_matches in H. simpl in H. rewrite E in H. destruct H.
    + split; [| intros _; eauto].
      intros _. exists "", "", st'. split; [reflexivity |].
      apply run_matches. simpl. rewrite E. now left.
  - destruct (Re.run ci r (Re.State pv (String c s) [])) as [|st' l] eqn:E;
      simpl.
    + rewrite IH. split.
      * intros [pre [suf [st' [-> H]]]]. exists (String c pre), suf, st'.
        split; [reflexivity | exact H].
      * intros [pre [suf [st' [Hs H]]]]. destruct pre as [|b pre].
        -- simpl in Hs. subst suf. apply run_matches in H. simpl in H.
           rewrite E in H. destruct H.
        -- simpl in Hs. injection Hs as <- ->. exists pre, suf, st'.
           split; [reflexivity | exact H].
    + split; [| intros _; eauto].
      intros _. exists "", (String c s), st'. split; [reflexivity |].
      apply run_matches. simpl. rewrite E. now left.
Qed.

(** [test] answers yes exactly when the pattern matches somewhere. *)
Theorem test_spec (ci : bool) (r : Re.regex) (s : string) :
  Re.test ci r s = true <->
  exists pre suf st',
    s = pre ++ suf /\ matches ci r (Re.State (lastFrom None pre) suf []) st'.
Proof.
  rewrite <- search_spec. unfold Re.test, Re.match_.
  destruct (Re.search ci r None s) as [m|].
  - split; [intros _; now exists m | reflexivity].
  - split; [discriminate | intros [m H]; discriminate H].
Qed.

(** ** What a match leaves in group 1 *)

Lemma take_nonempty (n : nat) (s : string) :
  0 < n -> 0 < String.length s -> Str.take n s <> "".
Proof.
  destruct n as [|n]; [lia |]. destruct s as [|c s]; simpl; [lia |].
  discriminate.
Qed.

Lemma spans_shorter (cs : Re.cset) (s : string) :
  forall (n : nat) (pv : option ascii) (e : option ascii * string),
    In e (skipn n (Re.spans cs pv s)) ->
    String.length (snd e) + n <= String.length s.
Proof.
  induction s as [|c s IH]; intros n pv e H.
  - destruct n as [|n]; simpl in H.
    + destruct H as [<- | []]. simpl. lia.
    + rewrite skipn_nil in H. destruct H.
  - destruct n as [|n]; simpl in H.
    + destruct H as [<- | H]; [simpl; lia |].
      destruct (Re.mem cs c); [| destruct H].
      specialize (IH 0 (Some c) e H). simpl. lia.
    + destruct (Re.mem cs c); [| rewrite skipn_nil in H; destruct H].
      specialize (IH n (Some c) e H). simpl. lia.
Qed.

Lemma many_inv (cs : Re.cset) (n : nat) (g : bool) (st st' : Re.state) :
  In st' (Re.many cs n g st) ->
  Re.caps st' = Re.caps st
  /\ String.length (Re.rest st') + n <= String.length (Re.rest st).
Proof.
  unfold Re.many. intros H. apply in_map_iff in H.
  destruct H as [e [<- H]]. split; [reflexivity |]. simpl.
  apply spans_shorter with (cs := cs) (pv := Re.prev st).
  destruct g; [now apply in_rev in H | exact H].
Qed.

Lemma namesGroup_run (ci : bool) (r : Re.regex) :
  namesGroup r ->
  forall st st' : Re.state,
    In st' (Re.run ci r st) ->
    exists v, Re.lookup 1 (Re.caps st') = Some v /\ v <> "".
Proof.
  induction 1 as [cs n g | a b Hb IH]; intros st st' H.
  - simpl in H. apply in_map_iff in H. destruct H as [e [<- H]].
    apply many_inv in H. destruct H as [_ H].
    exists (Re.consumed st e). split; [reflexivity |].
    unfold Re.consumed. apply take_nonempty; lia.
  - apply run_seq in H. destruct H as [mid [_ H]]. now apply IH in H.
Qed.

Lemma search_inv (ci : bool) (r : Re.regex) (s : string) :
  forall (pv : option ascii) (m : Re.found),
    Re.search ci r pv s = Some m ->
    exists (pv' : option ascii) (s' : string) (st' : Re.state),
      In st' (Re.run ci r (Re.State pv' s' [])) /\ Re.groups m = Re.caps st'.
Proof.
  induction s as [|c s IH]; intros pv m H; simpl in H.
  - unfold Re.at_ in H.
    destruct (Re.run ci r (Re.State pv "" [])) as [|st' l] eqn:E;
      simpl in H; [discriminate |].
    injection H as <-. exists pv, "", st'. rewrite E. split; [now left | reflexivity].
  - unfold Re.at_ in H.
    destruct (Re.run ci r (Re.State pv (String c s) [])) as [|st' l] eqn:E;
      simpl in H.
    + now apply IH in H.
    + injection H as <-. exists pv, (String c s), st'. rewrite E.
      split; [now left | reflexivity].
Qed.

Lemma match_names (ci : bool) (r : Re.regex) (q : string) (m : Re.found) :
  namesGroup r ->
  Re.match_ ci r q = Some m ->
  exists v, Re.group 1 m = Some v /\ v <> "".
Proof.
  intros Hr H. apply search_inv in H.
  destruct H as [pv' [s' [st' [H E]]]].
  unfold Re.group. rewrite E. exact (@namesGroup_run ci r Hr _ _ H).
Qed.

Lemma search_reports (ci : bool) (r : Re.regex) (s : string) :
  forall (pv : option ascii) (m : Re.found),
    Re.search ci r pv s = Some m ->
    exists pre suf st',
      s = pre ++ suf
      /\ matches ci r (Re.State (lastFrom pv pre) suf []) st'
      /\ Re.groups m = Re.caps st'.
Proof.
  induction s as [|c s IH]; intros pv m H; simpl in H; unfold Re.at_ in H.
  - destruct (Re.run ci r (Re.State pv "" [])) as [|st' l] eqn:E;
      simpl in H; [discriminate |].
    injection H as <-. exists "", "", st'. split; [reflexivity |].
    split; [| reflexivity]. apply run_matches. simpl. rewrite E. now left.
  - destruct (Re.run ci r (Re.State pv (String c s) [])) as [|st' l] eqn:E;
      simpl in H.
    + apply IH in H. destruct H as [pre [suf [st' [-> [H G]]]]].
      exists (String c pre), suf, st'. auto.
    + injection H as <-. exists "", (String c s), st'.
      split; [reflexivity |]. split; [| reflexivity].
      apply run_matches. simpl. rewrite E. now left.
Qed.

Lemma take_app (w x : string) :
  Str.take (String.length (w ++ x) - String.length x) (w ++ x) = w.
Proof.
  induction w as [|c w IH].
  - simpl. rewrite Nat.sub_diag. now destruct x.
  - assert (H : String.length x <= String.length (w ++ x)).
    { clear. induction w; simpl; lia. }
    change (String c w ++ x) with (String c (w ++ x)). cbn [String.length].
    rewrite Nat.sub_succ_l by exact H. cbn [Str.take]. now rewrite IH.
Qed.

Lemma consumed_app (st e : Re.state) (w : string) :
  Re.rest st = w ++ Re.rest e -> Re.consumed st e = w.
Proof. unfold Re.consumed. intros ->. apply take_app. Qed.

Lemma firstName_named (k q t : string) :
  Str.toUpperCase k = k ->
  mongoShell.firstName k q = Some t -> namedAfter k q t.
Proof.
  intros Hk. unfold mongoShell.firstName, Re.match_.
  destruct (Re.search true (mongoShell.nameAfter k) None q) as [m|] eqn:E;
    [| discriminate].
  apply search_reports in E. destruct E as [pre [suf [st' [-> [H G]]]]].
  unfold Re.group. rewrite G. clear G m.
  unfold mongoShell.nameAfter in H. cbn [matches] in H.
  destruct H as [m1 [[kw [Hr1 [Hkw _]]] [m2 [[blanks [Hr2 [Hb [Hl _]]]] H]]]].
  destruct H as [e [[w [Hr3 [Hw [Hlw _]]]] ->]].
  cbn [Re.rest Re.caps Re.lookup Nat.eqb] in *.
  intros Ht. injection Ht as <-.
  rewrite (@consumed_app m2 e w Hr3).
  exists pre, kw, blanks, (Re.rest e).
  rewrite Hr1, Hr2, Hr3. split; [reflexivity |].
  split; [exact (proj1 (@sameText_upper kw k Hk) Hkw) |].
  split; [exact Hb |]. split; [intros ->; simpl in Hl; lia |].
  split; [exact Hw |]. intros ->. simpl in Hlw. lia.
Qed.

(** ** Replacing a literal *)

Lemma eat_opens (ci : bool) (p : string) :
  forall (pv : option ascii) (s : string),
    match Re.eat ci p pv s with
    | Some (_, s') =>
        opens ci p s = true
        /\ String.length s = String.length p + String.length s'
    | None => opens ci p s = false
    end.
Proof.
  induction p as [|a p IH]; intros pv s; simpl.
  - split; reflexivity.
  - destruct s as [|b s]; [reflexivity |].
    destruct (if ci then Char.eqb_ci a b else Ascii.eqb a b); [| reflexivity].
    specialize (IH (Some b) s).
    destruct (Re.eat ci p (Some b) s) as [[pv' s'] |].
    + destruct IH as [H1 H2]. split; [exact H1 | simpl; now rewrite H2].
    + exact IH.
Qed.

Lemma opens_length (ci : bool) (p : string) :
  forall s : string, opens ci p s = true -> String.length p <= String.length s.
Proof.
  induction p as [|a p IH]; intros s H; simpl; [lia |].
  destruct s as [|b s]; simpl in H; [discriminate |].
  apply andb_true_iff in H. destruct H as [_ H]. apply IH in H. simpl. lia.
Qed.

Lemma replaceAll_lit (ci : bool) (a : ascii) (p by_ : string) :
  forall (s : string) (pv : option ascii) (skip : nat),
    Re.replaceAll ci (Re.Lit (String a p)) by_ pv s skip
    = replaceLit ci (String a p) by_ s skip.
Proof.
  induction s as [|c s IH]; intros pv skip.
  - destruct skip; reflexivity.
  - destruct skip as [|k]; [| simpl; apply IH].
    cbn [Re.replaceAll replaceLit]. unfold Re.at_. cbn [Re.run Re.prev Re.rest Re.caps].
    pose proof (eat_opens ci (String a p) pv (String c s)) as E.
    destruct (Re.eat ci (String a p) pv (String c s)) as [[pv' s'] |].
    + destruct E as [-> E]. cbn [hd_error Re.rest].
      replace (String.length (String c s) - String.length s')
        with (S (String.length p)) by (rewrite E; cbn [String.length]; lia).
      rewrite IH. reflexivity.
    + rewrite E. cbn [hd_error]. rewrite IH. reflexivity.
Qed.

Lemma replace_lit (ci : bool) (a : ascii) (p by_ s : string) :
  Re.replace ci (Re.Lit (String a p)) by_ s
  = replaceLit ci (String a p) by_ s 0.
Proof. apply replaceAll_lit. Qed.

Lemma replaceLit_app (ci : bool) (p by_ y : string) :
  sealed ci p y ->
  forall (x : string) (k : nat),
    k <= String.length x ->
    replaceLit ci p by_ (x ++ y) k
    = replaceLit ci p by_ x k ++ replaceLit ci p by_ y 0.
Proof.
  intros Hs. induction x as [|c x IH]; intros k Hk.
  - simpl in Hk. replace k with 0 by lia. reflexivity.
  - destruct k as [|k].
    + change (String c x ++ y) with (String c (x ++ y)).
      cbn [replaceLit].
      change (String c (x ++ y)) with (String c x ++ y).
      rewrite (Hs c x).
      destruct (opens ci p (String c x)) eqn:E.
      * apply opens_length in E. simpl in E.
        rewrite IH by lia. now rewrite append_assoc.
      * rewrite IH by lia. reflexivity.
    + simpl. apply IH. simpl in Hk. lia.
Qed.

Lemma sealed_char (ci : bool) (a : ascii) (y : string) :
  sealed ci (String a "") y.
Proof. intros c u. reflexivity. Qed.

Lemma sealed_and_blank (y : string) : sealed true "AND" (" " ++ y).
Proof.
  intros c u. change (" " ++ y) with (String " " y). destruct u as [|c2 [|c3 u]]; simpl;
    rewrite ?andb_false_r; reflexivity.
Qed.

Lemma opens_exact (p : string) :
  forall s : string, opens false p s = Str.startsWith s p.
Proof.
  induction p as [|a p IH]; intros s; simpl; [reflexivity |].
  destruct s as [|b s]; [reflexivity |]. now rewrite IH.
Qed.

Lemma opens_upper (p : string) :
  forall s : string,
    opens true p s = Str.startsWith (Str.toUpperCase s) (Str.toUpperCase p).
Proof.
  induction p as [|a p IH]; intros s; simpl; [reflexivity |].
  destruct s as [|b s]; [reflexivity |]. simpl. now rewrite IH.
Qed.

Lemma replaceLit_absent (p by_ : string) :
  forall s : string,
    Str.includes s p = false -> replaceLit false p by_ s 0 = s.
Proof.
  induction s as [|c s IH]; intros H; [reflexivity |].
  cbn [Str.includes] in H. apply orb_false_elim in H. destruct H as [H1 H2].
  cbn [replaceLit]. rewrite opens_exact, H1, (IH H2). reflexivity.
Qed.

Lemma replaceLit_absent_ci (p by_ : string) :
  forall s : string,
    Str.includes (Str.toUpperCase s) (Str.toUpperCase p) = false ->
    replaceLit true p by_ s 0 = s.
Proof.
  induction s as [|c s IH]; intros H; [reflexivity |].
  change (Str.toUpperCase (String c s))
    with (String (Char.toUpper c) (Str.toUpperCase s)) in H.
  cbn [Str.includes] in H. apply orb_false_elim in H. destruct H as [H1 H2].
  cbn [replaceLit]. rewrite opens_upper.
  change (Str.toUpperCase (String c s))
    with (String (Char.toUpper c) (Str.toUpperCase s)).
  rewrite H1, (IH H2). reflexivity.
Qed.

(** ** More on strings *)

Lemma toUpperCase_app (a b : string) :
  Str.toUpperCase (a ++ b) = Str.toUpperCase a ++ Str.toUpperCase b.
Proof.
  induction a as [|c a IH]; [reflexivity |].
  change (Str.toUpperCase (String c a ++ b))
    with (String (Char.toUpper c) (Str.toUpperCase (a ++ b))).
  now rewrite IH.
Qed.

Lemma lastFrom_app (a b : string) :
  forall pv : option ascii, lastFrom pv (a ++ b) = lastFrom (lastFrom pv a) b.
Proof. induction a as [|c a IH]; intros pv; [reflexivity | apply IH]. Qed.

Lemma allIn_app (cs : Re.cset) (a b : string) :
  allIn cs (a ++ b) = allIn cs a && allIn cs b.
Proof.
  induction a as [|c a IH]; [reflexivity |]. simpl. rewrite IH.
  now rewrite andb_assoc.
Qed.

Lemma length_app (a b : string) :
  String.length (a ++ b) = String.length a + String.length b.
Proof. induction a as [|c a IH]; simpl; [reflexivity | now rewrite IH]. Qed.

(** *** [trim] *)

Lemma trimStart_blank (a s : string) :
  allIn Re.Space a = true -> Str.trimStart (a ++ s) = Str.trimStart s.
Proof.
  induction a as [|c a IH]; [reflexivity |]. simpl. intros H.
  apply andb_true_iff in H. destruct H as [Hc Ha]. rewrite Hc. now apply IH.
Qed.

Lemma trimStart_split (s : string) :
  exists a, s = a ++ Str.trimStart s /\ allIn Re.Space a = true.
Proof.
  induction s as [|c s [a [Hs Ha]]].
  - now exists "".
  - simpl. destruct (Char.is_space c) eqn:E.
    + exists (String c a). simpl. rewrite E, Ha. split; [now rewrite <- Hs | reflexivity].
    + now exists "".
Qed.

Lemma trimStart_solid (s : string) :
  Re.mem Re.Space (match s with String c _ => c | EmptyString => "x"%char end)
  = false ->
  Str.trimStart s = s.
Proof. destruct s as [|c s]; [reflexivity |]. simpl. now intros ->. Qed.

Lemma trimStart_head (s : string) :
  match Str.trimStart s with
  | String c _ => Char.is_space c = false
  | EmptyString => True
  end.
Proof.
  induction s as [|c s IH]; [exact I |]. simpl.
  destruct (Char.is_space c) eqn:E; [exact IH | exact E].
Qed.

Lemma trimEnd_app (a s : string) :
  Str.trimEnd s <> "" -> Str.trimEnd (a ++ s) = a ++ Str.trimEnd s.
Proof.
  intros H. induction a as [|c a IH]; [reflexivity |].
  change (String c a ++ s) with (String c (a ++ s)). cbn [Str.trimEnd].
  rewrite IH. cbn [append]. destruct (a ++ Str.trimEnd s) eqn:E; [| reflexivity].
  destruct a; simpl in E; [now elim H | discriminate E].
Qed.

Lemma trimEnd_split (s : string) :
  exists b, s = Str.trimEnd s ++ b /\ allIn Re.Space b = true.
Proof.
  induction s as [|c s [b [Hs Hb]]].
  - now exists "".
  - cbn [Str.trimEnd]. destruct (Str.trimEnd s) as [|d t] eqn:E.
    + destruct (Char.is_space c) eqn:Ec.
      * exists (String c b). simpl in *. rewrite Ec, Hb. split; [now rewrite <- Hs | reflexivity].
      * exists b. simpl in *. split; [now rewrite <- Hs | exact Hb].
    + exists b. split; [| exact Hb].
      change (String c (String d t) ++ b) with (String c (String d t ++ b)).
      now rewrite <- Hs.
Qed.

Lemma trimEnd_idem (s : string) : Str.trimEnd (Str.trimEnd s) = Str.trimEnd s.
Proof.
  induction s as [|c s IH]; [reflexivity |]. cbn [Str.trimEnd].
  destruct (Str.trimEnd s) as [|d t] eqn:E.
  - destruct (Char.is_space c) eqn:Ec; [reflexivity |]. simpl. now rewrite Ec.
  - cbn [Str.trimEnd]. cbn [Str.trimEnd] in IH.
    destruct (Str.trimEnd t) as [|d' t'] eqn:E'.
    + destruct (Char.is_space d); [discriminate IH |]. now rewrite IH.
    + now rewrite IH.
Qed.

Lemma trimEnd_head (s : string) (c : ascii) (t : string) :
  Str.trimEnd s = String c t -> exists u, s = String c u.
Proof.
  destruct s as [|d s]; [discriminate |]. cbn [Str.trimEnd].
  destruct (Str.trimEnd s); [destruct (Char.is_space d) |]; intros H;
    try discriminate H; injection H as -> _; now exists s.
Qed.

Lemma trim_idem (s : string) : Str.trim (Str.trim s) = Str.trim s.
Proof.
  unfold Str.trim.
  assert (H : Str.trimStart (Str.trimEnd (Str.trimStart s))
              = Str.trimEnd (Str.trimStart s)).
  { destruct (Str.trimEnd (Str.trimStart s)) as [|c t] eqn:E; [reflexivity |].
    apply trimEnd_head in E. destruct E as [u E].
    pose proof (trimStart_head s) as Hh. rewrite E in Hh.
    simpl. now rewrite Hh. }
  rewrite H. apply trimEnd_idem.
Qed.

(** A text is a trimmed core between two runs of blanks. *)
Lemma trim_split (s : string) :
  exists a b, s = a ++ Str.trim s ++ b
              /\ allIn Re.Space a = true /\ allIn Re.Space b = true.
Proof.
  destruct (trimStart_split s) as [a [Hs Ha]].
  destruct (trimEnd_split (Str.trimStart s)) as [b [Ht Hb]].
  exists a, b. unfold Str.trim. now rewrite <- Ht, <- Hs.
Qed.

(** A text that opens and closes on a character that is not a blank is
    its own trimmed form. *)
Lemma trim_solid (c : ascii) (m : string) (d : ascii) :
  Char.is_space c = false -> Char.is_space d = false ->
  Str.trim (String c (m ++ String d "")) = String c (m ++ String d "").
Proof.
  intros Hc Hd. unfold Str.trim. simpl Str.trimStart. rewrite Hc.
  change (String c (m ++ String d "")) with (String c m ++ String d "").
  rewrite trimEnd_app; simpl; rewrite Hd; [reflexivity | discriminate].
Qed.

Lemma trimEnd_solid (a : string) (d : ascii) :
  Char.is_space d = false ->
  Str.trimEnd (a ++ String d "") = a ++ String d "".
Proof.
  intros Hd. rewrite trimEnd_app; simpl; rewrite Hd; [reflexivity | discriminate].
Qed.

Lemma trimEnd_solid_head (c : ascii) (s : string) :
  Char.is_space c = false -> exists t, Str.trimEnd (String c s) = String c t.
Proof.
  intros Hc. cbn [Str.trimEnd]. destruct (Str.trimEnd s) as [|d t].
  - rewrite Hc. now exists "".
  - now exists (String d t).
Qed.

(** [trimEnd] leaves alone what comes before a character that is not a
    blank. *)
Lemma trimEnd_prefix (a : string) (c : ascii) (s : string) :
  Char.is_space c = false ->
  exists t, Str.trimEnd (a ++ String c s) = a ++ String c t.
Proof.
  intros Hc. destruct (@trimEnd_solid_head c s Hc) as [t Ht].
  exists t. rewrite trimEnd_app; rewrite Ht; [reflexivity | discriminate].
Qed.

Lemma trimStart_app (x z : string) :
  Str.trimStart (x ++ z)
  = if allIn Re.Space x then Str.trimStart z else Str.trimStart x ++ z.
Proof.
  induction x as [|c x IH]; [reflexivity |]. simpl.
  destruct (Char.is_space c); [exact IH | reflexivity].
Qed.

(** A text framed by two characters that are not blanks is its own
    trimmed form. *)
Lemma trim_framed (c d : ascii) (m s : string) :
  Char.is_space c = false -> Char.is_space d = false ->
  s = String c (m ++ String d "") -> Str.trim s = s.
Proof. intros Hc Hd ->. now apply trim_solid. Qed.

Lemma includes_left (x s p : string) :
  Str.includes x p = true -> Str.includes (x ++ s) p = true.
Proof.
  rewrite !includes_spec. intros [a [b ->]]. exists a, (b ++ s).
  now rewrite !append_assoc.
Qed.

Lemma includes_right (x s p : string) :
  Str.includes s p = true -> Str.includes (x ++ s) p = true.
Proof.
  rewrite !includes_spec. intros [a [b ->]]. exists (x ++ a), b.
  now rewrite !append_assoc.
Qed.

Lemma is_space_upper (c : ascii) :
  Char.is_space (Char.toUpper c) = Char.is_space c.
Proof. destruct c as [[] [] [] [] [] [] [] []]; evaluate. Qed.

Lemma toUpperCase_trimStart (s : string) :
  Str.toUpperCase (Str.trimStart s) = Str.trimStart (Str.toUpperCase s).
Proof.
  induction s as [|c s IH]; [reflexivity |].
  change (Str.toUpperCase (String c s))
    with (String (Char.toUpper c) (Str.toUpperCase s)).
  cbn [Str.trimStart]. rewrite is_space_upper.
  destruct (Char.is_space c); [exact IH | reflexivity].
Qed.

Lemma toUpperCase_trimEnd (s : string) :
  Str.toUpperCase (Str.trimEnd s) = Str.trimEnd (Str.toUpperCase s).
Proof.
  induction s as [|c s IH]; [reflexivity |].
  change (Str.toUpperCase (String c s))
    with (String (Char.toUpper c) (Str.toUpperCase s)).
  cbn [Str.trimEnd]. rewrite <- IH, is_space_upper.
  destruct (Str.trimEnd s); simpl; [destruct (Char.is_space c) |]; reflexivity.
Qed.

Lemma toUpperCase_trim (s : string) :
  Str.toUpperCase (Str.trim s) = Str.trim (Str.toUpperCase s).
Proof.
  unfold Str.trim. now rewrite toUpperCase_trimEnd, toUpperCase_trimStart.
Qed.

(** Trimming a text neither hides nor reveals an occurrence of a word
    that opens and closes on a character that is not a blank. *)
Lemma includes_trim (c d : ascii) (m s : string) :
  Char.is_space c = false -> Char.is_space d = false ->
  forall p : string,
    p = String c "" /\ c = d /\ m = "" \/ p = String c (m ++ String d "") ->
    Str.includes (Str.trim s) p = Str.includes s p.
Proof.
  intros Hc Hd p Hp.
  assert (Hp' : exists p0, p = p0 ++ String d "").
  { destruct Hp as [[-> [<- _]] | ->]; [now exists "" |].
    now exists (String c m). }
  assert (Hp'' : exists p1, p = String c p1)
    by (destruct Hp as [[-> _] | ->]; eauto).
  clear Hp. destruct Hp' as [p0 Hp0], Hp'' as [p1 Hp1].
  destruct (Str.includes s p) eqn:E.
  - apply includes_spec in E. destruct E as [x [y ->]].
    unfold Str.trim. rewrite trimStart_app.
    assert (T : exists x', (if allIn Re.Space x
                            then Str.trimStart (p ++ y)
                            else Str.trimStart x ++ p ++ y) = x' ++ p ++ y).
    { destruct (allIn Re.Space x).
      - exists "". rewrite Hp1. simpl. now rewrite Hc.
      - now exists (Str.trimStart x). }
    destruct T as [x' ->]. rewrite Hp0, append_assoc.
    change (String d "" ++ y) with (String d y).
    rewrite <- append_assoc.
    destruct (@trimEnd_prefix (x' ++ p0) d y Hd) as [t ->].
    rewrite append_assoc. change (String d t) with (String d "" ++ t).
    rewrite <- (append_assoc p0). apply includes_append.
  - destruct (Str.includes (Str.trim s) p) eqn:E'; [| reflexivity].
    destruct (trim_split s) as [a [b [Hs _]]].
    rewrite Hs in E. rewrite <- E. symmetry.
    apply includes_right, includes_left, E'.
Qed.

(** *** Capitals *)

Lemma toUpperCase_split (p : string) :
  forall s r' : string,
    Str.toUpperCase s = p ++ r' ->
    exists kw r, s = kw ++ r /\ Str.toUpperCase kw = p
                 /\ Str.toUpperCase r = r'.
Proof.
  induction p as [|a p IH]; intros s r' H.
  - now exists "", s.
  - destruct s as [|c s]; [discriminate H |].
    change (Str.toUpperCase (String c s))
      with (String (Char.toUpper c) (Str.toUpperCase s)) in H.
    simpl in H. injection H as Hc H.
    destruct (IH s r' H) as [kw [r [-> [Hk Hr]]]].
    exists (String c kw), r. split; [reflexivity |]. split; [| exact Hr].
    change (Str.toUpperCase (String c kw))
      with (String (Char.toUpper c) (Str.toUpperCase kw)).
    now rewrite Hc, Hk.
Qed.

Lemma toUpper_blank (c : ascii) : Char.toUpper c = " "%char -> c = " "%char.
Proof.
  destruct c as [[] [] [] [] [] [] [] []]; vm_compute; intros H;
    (reflexivity || discriminate H).
Qed.

(** Where the capitals of a text hold a keyword, the text holds its
    letters. *)
Lemma keywordIn_split (k q : string) :
  keywordIn k q ->
  exists pre w post : string, q = pre ++ w ++ post /\ Str.toUpperCase w = k.
Proof.
  intros [a [b H]].
  destruct (@toUpperCase_split a q (k ++ b) H) as [pre [r [-> [_ Hr]]]].
  destruct (@toUpperCase_split k r b Hr) as [w [post [-> [Hw _]]]].
  now exists pre, w, post.
Qed.

(** Two words one space apart are a phrase. *)
Lemma phrase_of_letters (a b q : string) :
  keywordIn (a ++ " " ++ b) q -> phraseIn a b q.
Proof.
  intros H. apply keywordIn_split in H.
  destruct H as [pre [w [post [-> Hw]]]].
  destruct (@toUpperCase_split a w (" " ++ b) Hw) as [x [r [-> [Hx Hr]]]].
  destruct r as [|c y]; [discriminate Hr |].
  change (Str.toUpperCase (String c y))
    with (String (Char.toUpper c) (Str.toUpperCase y)) in Hr.
  simpl in Hr. injection Hr as Hc Hy. apply toUpper_blank in Hc. subst c.
  exists pre, x, " ", y, post. rewrite !append_assoc.
  repeat split; trivial. discriminate.
Qed.

(** ** Words and first matches *)

Lemma toUpper_word (c : ascii) :
  Char.is_word (Char.toUpper c) = Char.is_word c.
Proof. destruct c as [[] [] [] [] [] [] [] []]; evaluate. Qed.

Lemma toUpper_paren (c : ascii) : Char.toUpper c = "("%char -> c = "("%char.
Proof.
  destruct c as [[] [] [] [] [] [] [] []]; vm_compute; intros H;
    (reflexivity || discriminate H).
Qed.

Lemma sameText_paren (w : string) : sameText true w "(" = true <-> w = "(".
Proof.
  rewrite sameText_upper by reflexivity. split; [| now intros ->].
  destruct w as [|c [|d w]]; simpl; try discriminate.
  intros H. injection H as H. now rewrite (toUpper_paren c H).
Qed.

Lemma head_word (w p : string) :
  Str.toUpperCase w = p ->
  Re.is_word_opt (Str.head p) = true ->
  Re.is_word_opt (Str.head (w ++ p)) = true
  /\ forall t, Re.is_word_opt (Str.head (w ++ t)) = true.
Proof.
  intros <- H. destruct w as [|c w]; [discriminate H |]. simpl in *.
  rewrite toUpper_word in H. split; [exact H | intros _; exact H].
Qed.

Lemma aggregateNames_lead (n : string) :
  In n aggregateNames -> Re.is_word_opt (Str.head n) = true.
Proof.
  intros H. repeat (destruct H as [<- | H]; [reflexivity |]). destruct H.
Qed.

Lemma xorb_word_right (a b : bool) : b = true -> (xorb a b = true <-> a = false).
Proof. intros ->. destruct a; simpl; intuition congruence. Qed.

Lemma lastFrom_upper (w : string) :
  forall pv : option ascii,
    Re.is_word_opt (lastFrom pv w)
    = Re.is_word_opt (lastFrom (option_map Char.toUpper pv)
                               (Str.toUpperCase w)).
Proof.
  induction w as [|c w IH]; intros pv; simpl.
  - destruct pv; simpl; [now rewrite toUpper_word | reflexivity].
  - apply (IH (Some c)).
Qed.

(** What [search] reports is the first result of the pattern where it
    matched. *)
Lemma search_first (ci : bool) (r : Re.regex) (s : string) :
  forall (pv : option ascii) (m : Re.found),
    Re.search ci r pv s = Some m ->
    exists pre suf st',
      s = pre ++ suf
      /\ hd_error (Re.run ci r (Re.State (lastFrom pv pre) suf [])) = Some st'
      /\ Re.groups m = Re.caps st'.
Proof.
  induction s as [|c s IH]; intros pv m H; simpl in H; unfold Re.at_ in H.
  - destruct (hd_error (Re.run ci r (Re.State pv "" []))) as [st'|] eqn:E;
      [| discriminate].
    injection H as <-. exists "", "", st'. auto.
  - destruct (hd_error (Re.run ci r (Re.State pv (String c s) [])))
      as [st'|] eqn:E.
    + injection H as <-. exists "", (String c s), st'. auto.
    + apply IH in H. destruct H as [pre [suf [st' [-> [H G]]]]].
      exists (String c pre), suf, st'. auto.
Qed.

Lemma hd_flat_map (A B : Type) (g : A -> list B) (xs : list A) (y : B) :
  hd_error (flat_map g xs) = Some y ->
  exists x, In x xs /\ hd_error (g x) = Some y.
Proof.
  induction xs as [|x xs IH]; [discriminate |]. simpl.
  destruct (g x) as [|z l] eqn:E.
  - intros H. destruct (IH H) as [x' [Hx Hy]]. exists x'. auto.
  - simpl. intros H. exists x. rewrite E. auto.
Qed.

Lemma hd_map (A B : Type) (g : A -> B) (l : list A) (y : B) :
  hd_error (List.map g l) = Some y ->
  exists x, hd_error l = Some x /\ y = g x.
Proof.
  destruct l as [|x l]; [discriminate |]. simpl. intros H.
  injection H as <-. now exists x.
Qed.

Lemma hd_rev (A : Type) (l : list A) (e : A) :
  hd_error (rev l) = Some e -> exists l', l = (l' ++ [e])%list.
Proof.
  intros H. destruct (rev l) as [|x t] eqn:E; [discriminate |].
  injection H as ->. exists (rev t).
  rewrite <- (rev_involutive l), E. reflexivity.
Qed.

(** The last position [spans] lists is where the run of the class ends. *)
Lemma spans_last (cs : Re.cset) (s : string) :
  forall (pv : option ascii) (l' : list (option ascii * string))
         (e : option ascii * string),
    Re.spans cs pv s = (l' ++ [e])%list ->
    match snd e with
    | String c _ => Re.mem cs c = false
    | EmptyString => True
    end.
Proof.
  induction s as [|c s IH]; intros pv l' e H.
  - simpl in H. destruct l' as [|x [|y l']]; try discriminate H.
    injection H as <-. exact I.
  - cbn [Re.spans] in H. destruct (Re.mem cs c) eqn:M.
    + destruct l' as [|x l'].
      * destruct s; simpl in H; [| destruct (Re.mem cs a)]; discriminate H.
      * injection H as _ H. exact (IH _ _ _ H).
    + destruct l' as [|x [|y l']]; try discriminate H.
      injection H as <-. exact M.
Qed.


(** *** A keyword as a word of its own *)

Lemma lastFrom_nonempty (k : string) (pv : option ascii) :
  k <> "" -> lastFrom pv k = lastFrom None k.
Proof.
  destruct k as [|c k]; [intros H; now elim H | reflexivity].
Qed.

(** [/\bK\b/i] answers yes exactly when [K] stands in the text as a word
    of its own. *)
Lemma wordIn_spec (k q : string) :
  Str.toUpperCase k = k ->
  Re.is_word_opt (Str.head k) = true ->
  Re.is_word_opt (lastFrom None k) = true ->
  Re.test true (Re.Seq Re.WordB (Re.Seq (Re.Lit k) Re.WordB)) q = true
  <-> wordIn k q.
Proof.
  intros Hk Hh Hl.
  assert (Hne : k <> "") by (intros ->; discriminate Hh).
  rewrite test_spec. cbn [matches]. unfold wordIn. split.
  - intros [pre [suf [st' [-> [m1 [[-> Hb1] [m2 [Hw [-> Hb2]]]]]]]]].
    cbn [Re.rest Re.prev Re.caps] in *.
    destruct Hw as [w [Hr [Hs [Hp _]]]].
    apply sameText_upper in Hs; [| exact Hk].
    exists pre, w, (Re.rest m2). rewrite Hr. split; [reflexivity |].
    split; [exact Hs |].
    assert (Hw : Re.is_word_opt (Str.head (w ++ Re.rest m2)) = true)
      by (apply (@head_word w k Hs Hh)).
    rewrite <- Hr in Hw. split.
    + exact (proj1 (@xorb_word_right _ _ Hw) Hb1).
    + rewrite Hp, lastFrom_upper, Hs in Hb2.
      rewrite (@lastFrom_nonempty k _ Hne), Hl in Hb2.
      now destruct (Re.is_word_opt (Str.head (Re.rest m2))).
  - intros [pre [w [post [-> [Hs [Hpre Hpost]]]]]].
    set (st0 := Re.State (lastFrom None pre) (w ++ post) []).
    exists pre, (w ++ post), (Re.State (lastFrom (Re.prev st0) w) post []).
    split; [reflexivity |]. fold st0.
    exists st0. split.
    { split; [reflexivity |]. cbn [Re.prev Re.rest st0].
      assert (Hw : Re.is_word_opt (Str.head (w ++ post)) = true)
        by (apply (@head_word w k Hs Hh)).
      exact (proj2 (@xorb_word_right _ _ Hw) Hpre). }
    exists (Re.State (lastFrom (Re.prev st0) w) post []). split.
    { exists w. repeat split. apply sameText_upper; [exact Hk | exact Hs]. }
    split; [reflexivity |]. cbn [Re.prev Re.rest].
    rewrite lastFrom_upper, Hs, (@lastFrom_nonempty k _ Hne), Hl, Hpost.
    reflexivity.
Qed.

(** A word of the text is in its capitals. *)
Lemma wordIn_keywordIn (k q : string) : wordIn k q -> keywordIn k q.
Proof.
  intros [pre [w [post [-> [Hw _]]]]].
  exists (Str.toUpperCase pre), (Str.toUpperCase post).
  now rewrite !toUpperCase_app, Hw.
Qed.

(** What opens a clause is a word of the text, and what stands outside
    quoted text stands in the text. *)
Lemma clauseIn_wordIn (k q : string) : clauseIn k q -> wordIn k q.
Proof.
  intros [pre [w [post [Hq [Hw [Hb [Ha _]]]]]]]. now exists pre, w, post.
Qed.

Lemma callIn_anywhere (q : string) : callIn q -> aggregateCallIn q.
Proof.
  intros [pre [name [blanks [post [Hq [Hn [Hb [Hp _]]]]]]]].
  now exists pre, name, blanks, post.
Qed.

Lemma subselectIn_anywhere (q : string) : subselectIn q -> subqueryIn q.
Proof.
  intros [pre [b1 [w [b2 [post [Hq [H1 [Hw [H2 [Hne _]]]]]]]]]].
  now exists pre, b1, w, b2, post.
Qed.

(** *** The first match of a pattern *)

(** [search] stops at the first place where the pattern matches: it
    matches at no place before. *)
Lemma search_leftmost (ci : bool) (r : Re.regex) (s : string) :
  forall (pv : option ascii) (m : Re.found),
    Re.search ci r pv s = Some m ->
    exists pre suf st',
      s = pre ++ suf
      /\ hd_error (Re.run ci r (Re.State (lastFrom pv pre) suf [])) = Some st'
      /\ Re.groups m = Re.caps st'
      /\ forall pre' suf' : string,
           s = pre' ++ suf' ->
           String.length pre' < String.length pre ->
           Re.run ci r (Re.State (lastFrom pv pre') suf' []) = [].
Proof.
  induction s as [|c s IH]; intros pv m H; simpl in H; unfold Re.at_ in H.
  - destruct (hd_error (Re.run ci r (Re.State pv "" []))) as [st'|] eqn:E;
      [| discriminate].
    injection H as <-. exists "", "", st'.
    repeat split; trivial. intros pre' suf' _ Hl. simpl in Hl. lia.
  - destruct (hd_error (Re.run ci r (Re.State pv (String c s) [])))
      as [st'|] eqn:E.
    + injection H as <-. exists "", (String c s), st'.
      repeat split; trivial. intros pre' suf' _ Hl. simpl in Hl. lia.
    + apply IH in H. destruct H as [pre [suf [st' [-> [H [G L]]]]]].
      exists (String c pre), suf, st'. repeat split; trivial.
      intros pre' suf' Hs Hl. destruct pre' as [|b pre'].
      * simpl in Hs. subst suf'. simpl.
        destruct (Re.run ci r (Re.State pv (String c (pre ++ suf)) []));
          [reflexivity | discriminate E].
      * simpl in Hs. injection Hs as <- Hs. simpl in Hl.
        apply (L pre' suf' Hs). lia.
Qed.

(** What the first result of [/K\s+(C+)/i] holds, for a keyword in
    capitals and a character class [C]: the keyword, blanks, and the whole
    run of the class, which is group 1. *)
Lemma keyword_first (k : string) (cs : Re.cset) (pv : option ascii)
  (suf : string) (st' : Re.state) :
  Str.toUpperCase k = k ->
  hd_error
    (Re.run true
       (Re.Seq (Re.Lit k)
          (Re.Seq (Re.Many Re.Space 1 true)
             (Re.Grp 1 (Re.Many cs 1 true))))
       (Re.State pv suf [])) = Some st' ->
  exists kw blanks w post : string,
    suf = kw ++ blanks ++ w ++ post
    /\ Str.toUpperCase kw = k
    /\ allIn Re.Space blanks = true /\ blanks <> ""
    /\ allIn cs w = true /\ w <> ""
    /\ match post with
       | String c _ => Re.mem cs c = false
       | EmptyString => True
       end
    /\ Re.lookup 1 (Re.caps st') = Some w.
Proof.
  intros Hk.
  cbn [Re.run Re.prev Re.rest Re.caps].
  destruct (Re.eat true k pv suf) as [[pv1 s1] |] eqn:E;
    [| discriminate].
  apply eat_spec in E. destruct E as [kw [-> [Hkw _]]].
  apply sameText_upper in Hkw; [| exact Hk].
  cbn [flat_map]. rewrite app_nil_r. intros H.
  apply hd_flat_map in H. destruct H as [x [Hx H]].
  apply many_spec in Hx. cbn [matches Re.rest Re.prev Re.caps] in Hx.
  destruct Hx as [blanks [Hr [Hb [Hl _]]]].
  apply hd_map in H. destruct H as [e [H ->]].
  unfold Re.many in H. apply hd_map in H. destruct H as [p [H ->]].
  apply hd_rev in H. destruct H as [l' H].
  assert (Hin : In p (skipn 1 (Re.spans cs (Re.prev x) (Re.rest x))))
    by (rewrite H; apply in_or_app; right; now left).
  apply spans_spec in Hin. destruct Hin as [w [Hw [Hd [Hlen _]]]].
  assert (Hmax : match snd p with
                 | String c _ => Re.mem cs c = false
                 | EmptyString => True
                 end).
  { destruct (Re.spans cs (Re.prev x) (Re.rest x)) as [|f t] eqn:S.
    - destruct (Re.rest x); discriminate S.
    - simpl in H. subst t. exact (@spans_last _ _ _ (f :: l') p S). }
  exists kw, blanks, w, (snd p).
  rewrite Hr, Hw. split; [reflexivity |]. split; [exact Hkw |].
  split; [exact Hb |]. split; [intros ->; simpl in Hl; lia |].
  split; [exact Hd |]. split; [intros ->; simpl in Hlen; lia |].
  split; [exact Hmax |].
  cbn [Re.caps Re.lookup Nat.eqb]. f_equal.
  apply consumed_app. exact Hw.
Qed.

(** ** The two gates of [validatePermissions] *)

Lemma gated_throw (response : Type)
  (validate : permissions -> string -> result unit)
  (execute : string -> translatorAPI.M response)
  (p : permissions) (q : string) (e : error) (log : list string) :
  validate p q = Throw e ->
  translator.gated validate execute p q log = (Throw e, log).
Proof.
  intros H. unfold translator.gated, translatorAPI.bind, translatorAPI.lift.
  now rewrite H.
Qed.

Lemma updateParser_hasWhere (q : string) :
  updateParser.hasWhere (updateParser.analyzeQuery q)
  = Str.includes (Str.toUpperCase (Str.trim q)) "WHERE".
Proof. reflexivity. Qed.

Lemma deleteParser_hasWhere (q : string) :
  leads "DELETE" q = true ->
  deleteParser.hasWhere (deleteParser.analyzeQuery q)
  = Str.includes (Str.toUpperCase (Str.trim q)) "WHERE".
Proof.
  unfold leads, deleteParser.analyzeQuery. intros ->.
  now destruct (Str.includes _ "WHERE").
Qed.

Lemma update_gate (p : permissions) (q : string) :
  update p = true ->
  updateParser.validatePermissions p q
  = if updateParser.hasWhere (updateParser.analyzeQuery q)
    then Ok tt
    else Throw (Error DangerousOperationError
                  "⚠️ UPDATE sin WHERE modificará TODOS los registros. Use WHERE para especificar condiciones.").
Proof.
  intros Hp. rewrite updateParser_hasWhere.
  unfold updateParser.validatePermissions. rewrite Hp. simpl negb.
  now destruct (Str.includes _ "WHERE").
Qed.

Lemma delete_gate (p : permissions) (q : string) :
  delete p = true ->
  leads "DELETE" q = true ->
  deleteParser.validatePermissions p q
  = if deleteParser.hasWhere (deleteParser.analyzeQuery q)
    then Ok tt
    else Throw (Error DangerousOperationError
                  "⚠️ DELETE sin WHERE eliminará TODOS los registros. Use WHERE para especificar condiciones.").
Proof.
  intros Hp Hd. rewrite (@deleteParser_hasWhere q Hd).
  unfold leads in Hd. unfold deleteParser.validatePermissions.
  rewrite Hd, Hp. simpl.
  now destruct (Str.includes _ "WHERE").
Qed.

Lemma update_execute_blocked (response : Type)
  (server : string -> result response) (q : string) (log : list string) :
  updateParser.hasWhere (updateParser.analyzeQuery q) = false ->
  exists e, updateParser.execute server q log = (Throw e, log).
Proof.
  rewrite updateParser_hasWhere. intros Hw.
  unfold updateParser.execute, translatorAPI.bind, translatorAPI.lift.
  destruct (updateParser.validateSyntax q) as [u | e];
    [| now exists e].
  assert (Hd : updateParser.isDangerous (updateParser.analyzeQuery q) = true)
    by (unfold updateParser.analyzeQuery; cbn [updateParser.isDangerous];
        now rewrite Hw).
  assert (Hi : updateParser.estimatedImpact (updateParser.analyzeQuery q)
               = "all_records")
    by (unfold updateParser.analyzeQuery; cbn [updateParser.estimatedImpact];
        now rewrite Hw).
  unfold updateParser.performSecurityChecks. rewrite Hd, Hi.
  eexists. reflexivity.
Qed.

(** The WHERE test of the two gates looks for the letters WHERE in the
    text put in capitals; trimming cannot hide them. *)
Lemma where_letters (q : string) :
  Str.includes (Str.toUpperCase (Str.trim q)) "WHERE"
  = Str.includes (Str.toUpperCase q) "WHERE".
Proof.
  rewrite toUpperCase_trim.
  apply (@includes_trim "W" "E" "HER" _ eq_refl eq_refl). now right.
Qed.

Lemma whereClause_letters (q : string) :
  whereClauseIn q -> Str.includes (Str.toUpperCase q) "WHERE" = true.
Proof.
  intros H. apply keyword_test, wordIn_keywordIn, clauseIn_wordIn, H.
Qed.

(** A decidable test that a WHERE clause passes. *)
Lemma whereClause_test (q : string) :
  whereClauseIn q ->
  Re.test true (Re.Seq Re.WordB (Re.Seq (Re.Lit "WHERE") Re.WordB)) q = true.
Proof.
  intros H. apply wordIn_spec; try reflexivity.
  now apply clauseIn_wordIn.
Qed.

Lemma update_gate_letters (p : permissions) (q : string) :
  update p = true ->
  updateParser.validatePermissions p q
  = if Str.includes (Str.toUpperCase q) "WHERE"
    then Ok tt
    else Throw (Error DangerousOperationError
                  "⚠️ UPDATE sin WHERE modificará TODOS los registros. Use WHERE para especificar condiciones.").
Proof.
  intros Hp. rewrite (@update_gate p q Hp), updateParser_hasWhere.
  now rewrite where_letters.
Qed.

Lemma delete_gate_letters (p : permissions) (q : string) :
  delete p = true ->
  leads "DELETE" q = true ->
  deleteParser.validatePermissions p q
  = if Str.includes (Str.toUpperCase q) "WHERE"
    then Ok tt
    else Throw (Error DangerousOperationError
                  "⚠️ DELETE sin WHERE eliminará TODOS los registros. Use WHERE para especificar condiciones.").
Proof.
  intros Hp Hd.
  rewrite (@delete_gate p q Hp Hd), (@deleteParser_hasWhere q Hd).
  now rewrite where_letters.
Qed.

(** What a gate of this shape does with a statement, by the WHERE clause
    the statement has and by the letters WHERE in its text. *)
Lemma where_gate (response : Type)
  (validate : permissions -> string -> result unit)
  (execute : string -> translatorAPI.M response)
  (p : permissions) (q : string) (log : list string) (message : string) :
  validate p q
  = (if Str.includes (Str.toUpperCase q) "WHERE"
     then Ok tt
     else Throw (Error DangerousOperationError message)) ->
  (whereClauseIn q -> validate p q = Ok tt)
  /\ (thrown (validate p q) = Some DangerousOperationError ->
      ~ whereClauseIn q
      /\ exists e, kind e = DangerousOperationError
                   /\ translator.gated validate execute p q log
                      = (Throw e, log))
  /\ (~ keywordIn "WHERE" q ->
      thrown (validate p q) = Some DangerousOperationError).
Proof.
  intros G. split; [| split].
  - intros H. now rewrite G, (whereClause_letters H).
  - intros H. split.
    + intros C. rewrite G, (whereClause_letters C) in H. discriminate H.
    + destruct (validate p q) as [u | e] eqn:E; [discriminate H |].
      exists e. split; [simpl in H; congruence |].
      now apply gated_throw.
  - intros H. rewrite G.
    destruct (Str.includes (Str.toUpperCase q) "WHERE") eqn:E;
      [| reflexivity].
    elim H. now apply keyword_test.
Qed.

(** C1, as amended.  For a caller who holds the [update] capability: an
    UPDATE that has a WHERE clause passes the gate; the gate throws the
    DangerousOperationError only for a statement with no WHERE clause, and
    then nothing is posted to the backend; and it does throw it whenever
    the letters WHERE are nowhere in the text.  The same holds of a DELETE
    for a caller who holds [delete].  A caller without the capability gets
    the PermissionError instead.  The three statements of the claim behave
    as it says for a caller who holds the capabilities. *)
Theorem C1_blast_radius_gate :
  forall (response : Type) (server : string -> result response)
         (p : permissions) (q : string) (log : list string),
    (update p = true ->
       (whereClauseIn q -> updateParser.validatePermissions p q = Ok tt)
       /\ (thrown (updateParser.validatePermissions p q)
             = Some DangerousOperationError ->
           ~ whereClauseIn q
           /\ exists e, kind e = DangerousOperationError
                        /\ translator.update server p q log = (Throw e, log))
       /\ (~ keywordIn "WHERE" q ->
           thrown (updateParser.validatePermissions p q)
             = Some DangerousOperationError))
    /\ (delete p = true -> leads "DELETE" q = true ->
       (whereClauseIn q -> deleteParser.validatePermissions p q = Ok tt)
       /\ (thrown (deleteParser.validatePermissions p q)
             = Some DangerousOperationError ->
           ~ whereClauseIn q
           /\ exists e, kind e = DangerousOperationError
                        /\ translator.delete server p q log = (Throw e, log))
       /\ (~ keywordIn "WHERE" q ->
           thrown (deleteParser.validatePermissions p q)
             = Some DangerousOperationError))
    /\ (update p = false ->
        thrown (updateParser.validatePermissions p q) = Some PermissionError)
    /\ (delete p = false -> leads "DELETE" q = true ->
        thrown (deleteParser.validatePermissions p q) = Some PermissionError)
    /\ thrown (updateParser.validatePermissions allPermissions
                 "UPDATE t SET x = 1") = Some DangerousOperationError
    /\ thrown (deleteParser.validatePermissions allPermissions
                 "DELETE FROM t") = Some DangerousOperationError
    /\ updateParser.validatePermissions allPermissions
         "UPDATE t SET x = 1 WHERE id = 5" = Ok tt.
Proof.
  intros response server p q log.
  split; [| split; [| split; [| split; [| split; [| split]]]]].
  - intros Hp.
    exact (@where_gate response updateParser.validatePermissions
             (updateParser.execute server) p q log _
             (@update_gate_letters p q Hp)).
  - intros Hp Hd.
    exact (@where_gate response deleteParser.validatePermissions
             (deleteParser.execute server) p q log _
             (@delete_gate_letters p q Hp Hd)).
  - intros Hp. unfold updateParser.validatePermissions. now rewrite Hp.
  - intros Hp Hd. unfold leads in Hd.
    unfold deleteParser.validatePermissions. now rewrite Hd, Hp.
  - evaluate.
  - evaluate.
  - evaluate.
Qed.

Lemma C1_blast_radius_gate_witness :
  updateParser.validatePermissions allPermissions
    "UPDATE t SET x = 1 WHERE id = 5" = Ok tt
  /\ thrown (updateParser.validatePermissions allPermissions
               "UPDATE t SET x = 1") = Some DangerousOperationError
  /\ thrown (deleteParser.validatePermissions allPermissions "DELETE FROM t")
     = Some DangerousOperationError
  /\ thrown (deleteParser.validatePermissions noPermissions "DELETE FROM t")
     = Some PermissionError.
Proof.
  split; [| split; [| split]].
  - apply (proj1 (proj1 (@C1_blast_radius_gate unit accepting allPermissions
                           "UPDATE t SET x = 1 WHERE id = 5" []) eq_refl)).
    exists "UPDATE t SET x = 1 ", "WHERE", " id = 5". repeat split.
  - apply (proj2 (proj2 (proj1 (@C1_blast_radius_gate unit accepting
                                  allPermissions "UPDATE t SET x = 1" [])
                               eq_refl))).
    intros H. apply keyword_test in H. vm_compute in H. discriminate H.
  - apply (proj2 (proj2 (proj1 (proj2 (@C1_blast_radius_gate unit accepting
                                         allPermissions "DELETE FROM t" []))
                               eq_refl eq_refl))).
    intros H. apply keyword_test in H. vm_compute in H. discriminate H.
  - apply (proj1 (proj2 (proj2 (proj2 (@C1_blast_radius_gate unit accepting
                                         noPermissions "DELETE FROM t" []))))
                 eq_refl eq_refl).
Defined.

(** C1, as stated, fails.  Without the [update] capability an UPDATE with
    no WHERE clause is turned away by the capability gate, so the error is
    not the DangerousOperationError.  And for a caller who holds [delete],
    a DELETE with no WHERE clause whose table is called [nowhere] passes
    the gate, the letters WHERE being in its text: the claim as amended
    says nothing of such a statement. *)
Lemma C1_counterexample :
  ~ (forall (p : permissions) (q : string),
       leads "UPDATE" q = true ->
       (thrown (updateParser.validatePermissions p q)
          = Some DangerousOperationError
        <-> ~ whereClauseIn q))
  /\ ~ (forall (p : permissions) (q : string),
          delete p = true ->
          leads "DELETE" q = true ->
          ~ whereClauseIn q ->
          thrown (deleteParser.validatePermissions p q)
          = Some DangerousOperationError).
Proof.
  split.
  - intros H.
    destruct (H noPermissions "UPDATE t SET x = 1" eq_refl) as [_ H'].
    assert (N : ~ whereClauseIn "UPDATE t SET x = 1").
    { intros C. apply whereClause_test in C. vm_compute in C. discriminate C. }
    specialize (H' N). vm_compute in H'. discriminate H'.
  - intros H.
    assert (N : ~ whereClauseIn "DELETE FROM nowhere").
    { intros C. apply whereClause_test in C. vm_compute in C. discriminate C. }
    specialize (H allPermissions "DELETE FROM nowhere" eq_refl eq_refl N).
    vm_compute in H. discriminate H.
Qed.

(** C2.  Without the [select] capability both SELECT parsers throw the same
    PermissionError, whose message names SELECT, whatever the query says,
    and nothing is posted to the backend. *)
Theorem C2_select_capability_gate :
  forall (response : Type) (server : string -> result response)
         (p : permissions) (q : string) (log : list string),
    select p = false ->
    exists e,
      kind e = PermissionError
      /\ Str.includes (message e) "SELECT" = true
      /\ readParser.validatePermissions p q = Throw e
      /\ selectParser.validatePermissions p q = Throw e
      /\ translator.read server p q log = (Throw e, log).
Proof.
  intros response server p q log Hp.
  exists (Error PermissionError
            "❌ No tienes permisos para realizar consultas SELECT").
  assert (Hr : readParser.validatePermissions p q
               = Throw (Error PermissionError
                   "❌ No tienes permisos para realizar consultas SELECT")).
  { unfold readParser.validatePermissions. now rewrite Hp. }
  split; [reflexivity |].
  split; [evaluate |].
  split; [exact Hr |].
  split.
  - unfold selectParser.validatePermissions. now rewrite Hp.
  - apply gated_throw. exact Hr.
Qed.

Lemma C2_select_capability_gate_witness :
  exists e,
    kind e = PermissionError
    /\ Str.includes (message e) "SELECT" = true
    /\ readParser.validatePermissions noPermissions
         "SELECT name FROM users WHERE age > 18" = Throw e
    /\ selectParser.validatePermissions noPermissions
         "SELECT name FROM users WHERE age > 18" = Throw e
    /\ translator.read accepting noPermissions
         "SELECT name FROM users WHERE age > 18" [] = (Throw e, []).
Proof.
  apply (@C2_select_capability_gate unit accepting noPermissions
           "SELECT name FROM users WHERE age > 18" []).
  reflexivity.
Defined.

(** ** Routing of SELECT statements *)

Lemma shouldUseAdvancedParser_false (q : string) :
  readParser.shouldUseAdvancedParser q = false <-> noTestFires q.
Proof.
  unfold readParser.shouldUseAdvancedParser, noTestFires.
  destruct (readParser.hasAggregation q), (readParser.hasGroupBy q),
    (readParser.hasHaving q), (readParser.hasJoin q), (readParser.hasUnion q),
    (readParser.hasDistinct q), (readParser.hasSubquery q); simpl;
    intuition discriminate.
Qed.

Lemma shouldUseAdvancedParser_true (q : string) :
  readParser.shouldUseAdvancedParser q = true <-> someTestFires q.
Proof.
  unfold readParser.shouldUseAdvancedParser, someTestFires.
  destruct (readParser.hasAggregation q), (readParser.hasGroupBy q),
    (readParser.hasHaving q), (readParser.hasJoin q), (readParser.hasUnion q),
    (readParser.hasDistinct q), (readParser.hasSubquery q); simpl;
    intuition discriminate.
Qed.

Lemma hasAggregation_spec (q : string) :
  readParser.hasAggregation q = true <-> aggregateCallIn q.
Proof.
  unfold readParser.hasAggregation. rewrite test_spec. cbn [matches].
  unfold aggregateCallIn. split.
  - intros [pre [suf [st' [-> [m1 [[-> Hb] [m2 [[e [He ->]] [m3 [Hm Hp]]]]]]]]]].
    cbn [Re.rest Re.prev Re.caps] in *.
    destruct Hm as [blanks [Hr [Hbl _]]].
    destruct Hp as [wp [Hr' [Hwp _]]].
    apply sameText_paren in Hwp. subst wp.
    assert (Hn : exists name, suf = name ++ Re.rest e
                              /\ In (Str.toUpperCase name) aggregateNames).
    { repeat (destruct He as [He | He]);
        destruct He as [w [Hs [Hw _]]];
        apply sameText_upper in Hw; try reflexivity;
        exists w; (split; [exact Hs |]); rewrite Hw; simpl; tauto. }
    destruct Hn as [name [-> Hin]].
    exists pre, name, blanks, (Re.rest st').
    rewrite Hr, Hr'. split; [reflexivity |]. split; [exact Hin |].
    split; [exact Hbl |].
    assert (Hh : Re.is_word_opt (Str.head (name ++ Re.rest e)) = true)
      by (apply (@head_word name _ eq_refl); now apply aggregateNames_lead).
    exact (proj1 (@xorb_word_right _ _ Hh) Hb).
  - intros [pre [name [blanks [post [-> [Hin [Hbl Hpre]]]]]]].
    set (st0 := Re.State (lastFrom None pre) (name ++ blanks ++ "(" ++ post) []).
    set (e := Re.State (lastFrom (Re.prev st0) name) (blanks ++ "(" ++ post) []).
    set (m2 := Re.State (Re.prev e) (Re.rest e) [(1, Re.consumed st0 e)]).
    set (m3 := Re.State (lastFrom (Re.prev m2) blanks) ("(" ++ post)
                        (Re.caps m2)).
    exists pre, (name ++ blanks ++ "(" ++ post),
           (Re.State (lastFrom (Re.prev m3) "(") post (Re.caps m3)).
    split; [reflexivity |]. fold st0.
    exists st0. split.
    { split; [reflexivity |]. cbn [Re.prev Re.rest st0].
      assert (Hh : Re.is_word_opt
                     (Str.head (name ++ blanks ++ "(" ++ post)) = true)
        by (apply (@head_word name _ eq_refl); now apply aggregateNames_lead).
      exact (proj2 (@xorb_word_right _ _ Hh) Hpre). }
    exists m2. split.
    { exists e. split; [| reflexivity].
      assert (Hm : forall n, Str.toUpperCase name = n -> Str.toUpperCase n = n ->
                   exists w, Re.rest st0 = w ++ Re.rest e
                             /\ sameText true w n = true
                             /\ Re.prev e = lastFrom (Re.prev st0) w
                             /\ Re.caps e = Re.caps st0).
      { intros n Hn Hu. exists name. repeat split.
        apply sameText_upper; assumption. }
      unfold aggregateNames in Hin. simpl in Hin.
      destruct Hin as [H | [H | [H | [H | [H | [H | []]]]]]]; symmetry in H.
      - left. now apply Hm.
      - right; left. now apply Hm.
      - right; right; left. now apply Hm.
      - right; right; right; left. now apply Hm.
      - right; right; right; right; left. now apply Hm.
      - right; right; right; right; right. now apply Hm. }
    exists m3. split.
    { exists blanks. repeat split; [exact Hbl | lia]. }
    exists "(". repeat split.
Qed.

Lemma hasSubquery_spec (q : string) :
  readParser.hasSubquery q = true <-> subqueryIn q.
Proof.
  unfold readParser.hasSubquery. rewrite test_spec. cbn [matches].
  unfold subqueryIn. split.
  - intros [pre [suf [st' [-> [m1 [Hp [m2 [Hb1 [m3 [Hw Hb2]]]]]]]]]].
    cbn [Re.rest Re.prev Re.caps] in *.
    destruct Hp as [wp [Hr1 [Hwp _]]]. apply sameText_paren in Hwp. subst wp.
    destruct Hb1 as [b1 [Hr2 [Hs1 _]]].
    destruct Hw as [w [Hr3 [Hsel _]]].
    apply sameText_upper in Hsel; [| reflexivity].
    destruct Hb2 as [b2 [Hr4 [Hs2 [Hl _]]]].
    exists pre, b1, w, b2, (Re.rest st').
    rewrite Hr1, Hr2, Hr3, Hr4. repeat split; trivial.
    intros ->. simpl in Hl. lia.
  - intros [pre [b1 [w [b2 [post [-> [Hs1 [Hsel [Hs2 Hne]]]]]]]]].
    exists pre, ("(" ++ b1 ++ w ++ b2 ++ post).
    set (st0 := Re.State (lastFrom None pre) ("(" ++ b1 ++ w ++ b2 ++ post) []).
    set (m1 := Re.State (lastFrom (Re.prev st0) "(") (b1 ++ w ++ b2 ++ post) []).
    set (m2 := Re.State (lastFrom (Re.prev m1) b1) (w ++ b2 ++ post) []).
    set (m3 := Re.State (lastFrom (Re.prev m2) w) (b2 ++ post) []).
    exists (Re.State (lastFrom (Re.prev m3) b2) post []).
    split; [reflexivity |].
    exists m1. split; [exists "("; repeat split |].
    exists m2. split; [exists b1; repeat split; [exact Hs1 | lia] |].
    exists m3. split.
    { exists w. repeat split. apply sameText_upper; [reflexivity | exact Hsel]. }
    exists b2. repeat split; [exact Hs2 |].
    destruct b2; [now elim Hne | simpl; lia].
Qed.

Lemma limitWord_spec (q : string) :
  Re.test true (Re.Seq Re.WordB (Re.Seq (Re.Lit "LIMIT") Re.WordB)) q = true
  <-> limitWordIn q.
Proof.
  rewrite test_spec. cbn [matches]. unfold limitWordIn. split.
  - intros [pre [suf [st' [-> [m1 [[-> Hb1] [m2 [Hw [-> Hb2]]]]]]]]].
    cbn [Re.rest Re.prev Re.caps] in *.
    destruct Hw as [w [Hr [Hl [Hp _]]]].
    apply sameText_upper in Hl; [| reflexivity].
    exists pre, w, (Re.rest m2). rewrite Hr. split; [reflexivity |].
    split; [exact Hl |].
    assert (Hh : Re.is_word_opt (Str.head (w ++ Re.rest m2)) = true)
      by (apply (@head_word w _ eq_refl); rewrite Hl; reflexivity).
    rewrite <- Hr in Hh. split.
    + exact (proj1 (@xorb_word_right _ _ Hh) Hb1).
    + rewrite Hp, lastFrom_upper, Hl in Hb2. simpl in Hb2.
      now destruct (Re.is_word_opt (Str.head (Re.rest m2))).
  - intros [pre [w [post [-> [Hl [Hpre Hpost]]]]]].
    set (st0 := Re.State (lastFrom None pre) (w ++ post) []).
    exists pre, (w ++ post), (Re.State (lastFrom (Re.prev st0) w) post []).
    split; [reflexivity |]. fold st0.
    exists st0. split.
    { split; [reflexivity |]. cbn [Re.prev Re.rest st0].
      assert (Hh : Re.is_word_opt (Str.head (w ++ post)) = true)
        by (apply (@head_word w _ eq_refl); rewrite Hl; reflexivity).
      exact (proj2 (@xorb_word_right _ _ Hh) Hpre). }
    exists (Re.State (lastFrom (Re.prev st0) w) post []). split.
    { exists w. repeat split. apply sameText_upper; [reflexivity | exact Hl]. }
    split; [reflexivity |]. cbn [Re.prev Re.rest].
    rewrite lastFrom_upper, Hl, Hpost. reflexivity.
Qed.

Lemma advancedFeature_spec (q : string) :
  someTestFires q <-> advancedFeatureIn q.
Proof.
  unfold someTestFires, advancedFeatureIn, readParser.hasGroupBy,
    readParser.hasHaving, readParser.hasJoin, readParser.hasUnion,
    readParser.hasDistinct.
  now rewrite hasAggregation_spec, hasSubquery_spec, !keyword_test.
Qed.

Lemma aggregateNames_upper (f : string) :
  In f aggregateNames -> Str.toUpperCase f = f.
Proof.
  intros H. repeat (destruct H as [<- | H]; [reflexivity |]). destruct H.
Qed.

(** A match of [\bF\s*\(] for one of the six names is an aggregate call in
    the sense of the READ parser. *)
Lemma call_opening (f pre suf : string) (m1 m2 m3 m4 : Re.state) :
  In f aggregateNames ->
  matches true Re.WordB (Re.State (lastFrom None pre) suf []) m1 ->
  matches true (Re.Lit f) m1 m2 ->
  matches true (Re.Many Re.Space 0 true) m2 m3 ->
  matches true (Re.Lit "(") m3 m4 ->
  aggregateCallIn (pre ++ suf).
Proof.
  intros Hf [-> Hb] [w [Hr1 [Hw _]]] [blanks [Hr2 [Hbl _]]] [p [Hr3 [Hp _]]].
  cbn [Re.rest Re.prev] in *.
  apply sameText_upper in Hw; [| now apply aggregateNames_upper].
  apply sameText_paren in Hp. subst p.
  exists pre, w, blanks, (Re.rest m4).
  rewrite Hr1, Hr2, Hr3. split; [reflexivity |].
  split; [now rewrite Hw |]. split; [exact Hbl |].
  assert (Hh : Re.is_word_opt (Str.head (w ++ Re.rest m2)) = true)
    by (apply (@head_word w f Hw); now apply aggregateNames_lead).
  rewrite <- Hr1 in Hh.
  exact (proj1 (@xorb_word_right _ _ Hh) Hb).
Qed.

Lemma call_detected (f : string) (tail : Re.regex) (q : string) :
  In f aggregateNames ->
  Re.test true
    (Re.Seq Re.WordB
       (Re.Seq (Re.Lit f)
          (Re.Seq (Re.Many Re.Space 0 true) (Re.Seq (Re.Lit "(") tail)))) q
  = true ->
  aggregateCallIn q.
Proof.
  intros Hf H. apply test_spec in H.
  destruct H as [pre [suf [st' [-> M]]]]. cbn [matches] in M.
  destruct M as [m1 [H1 [m2 [H2 [m3 [H3 [m4 [H4 _]]]]]]]].
  exact (@call_opening f pre suf m1 m2 m3 m4 Hf H1 H2 H3 H4).
Qed.

Lemma call_detected_bare (f : string) (q : string) :
  In f aggregateNames ->
  Re.test true
    (Re.Seq Re.WordB
       (Re.Seq (Re.Lit f) (Re.Seq (Re.Many Re.Space 0 true) (Re.Lit "(")))) q
  = true ->
  aggregateCallIn q.
Proof.
  intros Hf H. apply test_spec in H.
  destruct H as [pre [suf [st' [-> M]]]]. cbn [matches] in M.
  destruct M as [m1 [H1 [m2 [H2 [m3 [H3 H4]]]]]].
  exact (@call_opening f pre suf m1 m2 m3 st' Hf H1 H2 H3 H4).
Qed.

Lemma detected_is_call (q : string) :
  selectParser.detectAggregationFunctions q = true -> aggregateCallIn q.
Proof.
  unfold selectParser.detectAggregationFunctions. intros H.
  apply existsb_exists in H. destruct H as [r [Hr H]].
  unfold selectParser.aggregationPatterns, selectParser.callOf in Hr.
  destruct Hr as [<- | [<- | [<- | [<- | [<- | [<- | [<- | []]]]]]]].
  - eapply call_detected; [| exact H]; simpl; tauto.
  - eapply call_detected; [| exact H]; simpl; tauto.
  - eapply call_detected; [| exact H]; simpl; tauto.
  - eapply call_detected; [| exact H]; simpl; tauto.
  - eapply call_detected; [| exact H]; simpl; tauto.
  - eapply call_detected; [| exact H]; simpl; tauto.
  - eapply call_detected_bare; [| exact H]; simpl; tauto.
Qed.

(** A phrase is found by the pattern that reads it. *)
Lemma phraseIn_test (a b q : string) :
  Str.toUpperCase a = a -> Str.toUpperCase b = b ->
  phraseIn a b q ->
  Re.test true
    (Re.Seq (Re.Lit a) (Re.Seq (Re.Many Re.Space 1 true) (Re.Lit b))) q
  = true.
Proof.
  intros Ha Hb [pre [x [blanks [y [post [-> [Hx [Hs [Hne Hy]]]]]]]]].
  apply test_spec. exists pre, (x ++ blanks ++ y ++ post).
  set (st0 := Re.State (lastFrom None pre) (x ++ blanks ++ y ++ post) []).
  set (st1 := Re.State (lastFrom (Re.prev st0) x) (blanks ++ y ++ post) []).
  set (st2 := Re.State (lastFrom (Re.prev st1) blanks) (y ++ post) []).
  exists (Re.State (lastFrom (Re.prev st2) y) post []).
  split; [reflexivity |]. cbn [matches]. exists st1. split.
  { exists x. repeat split. now apply sameText_upper. }
  exists st2. split.
  { exists blanks. repeat split; [exact Hs |].
    destruct blanks; [now elim Hne | simpl; lia]. }
  exists y. repeat split. now apply sameText_upper.
Qed.

Lemma letters_absent (k q : string) :
  ~ keywordIn k q -> Str.includes (Str.toUpperCase q) k = false.
Proof.
  intros H. destruct (Str.includes (Str.toUpperCase q) k) eqn:E;
    [| reflexivity].
  elim H. now apply keyword_test.
Qed.

Lemma letters_within (k a b q : string) :
  ~ keywordIn k q -> ~ keywordIn (a ++ k ++ b) q.
Proof.
  intros H [x [y E]]. apply H. exists (x ++ a), (b ++ y).
  now rewrite E, !append_assoc.
Qed.

(** The simple path of [readParser.execute]. *)
Lemma simple_path (response : Type) (server : string -> result response)
  (q : string) :
  readParser.shouldUseAdvancedParser q = false ->
  readParser.execute server q
  = translatorAPI.bind
      (translatorAPI.lift (readParser.validateSyntax q))
      (fun _ => translatorAPI.executeSelect server q).
Proof. intros H. unfold readParser.execute. now rewrite H. Qed.

(** C3, as amended.  First half: a text of ASCII characters with no
    aggregate call, no parenthesised subquery, nowhere the letters HAVING,
    JOIN, UNION or DISTINCT and nowhere GROUP, blanks and BY stays on the
    simple path, where [execute] checks the syntax and posts the query.
    Second half: a statement that calls an aggregate function, has a
    parenthesised subquery or has HAVING, JOIN, UNION, GROUP BY or SELECT
    DISTINCT (the two words one space apart) as words of their own,
    outside quoted text, is handed to the advanced parser.  Nothing is
    said of a text that holds the letters of a keyword only inside a
    longer word or a quoted text, or GROUP BY with other blanks. *)
Theorem C3_routing :
  forall (response : Type) (server : string -> result response) (q : string),
    (asciiText q = true ->
     ~ aggregateCallIn q ->
     ~ subqueryIn q ->
     ~ phraseIn "GROUP" "BY" q ->
     ~ keywordIn "HAVING" q ->
     ~ keywordIn "JOIN" q ->
     ~ keywordIn "UNION" q ->
     ~ keywordIn "DISTINCT" q ->
     readParser.shouldUseAdvancedParser q = false
     /\ readParser.execute server q
        = translatorAPI.bind
            (translatorAPI.lift (readParser.validateSyntax q))
            (fun _ => translatorAPI.executeSelect server q))
    /\ (callIn q
        \/ subselectIn q
        \/ clauseIn "GROUP BY" q
        \/ clauseIn "HAVING" q
        \/ clauseIn "JOIN" q
        \/ clauseIn "UNION" q
        \/ clauseIn "SELECT DISTINCT" q ->
        readParser.shouldUseAdvancedParser q = true
        /\ readParser.execute server q = selectParser.execute server q).
Proof.
  intros response server q. split.
  - intros _ Ha Hs Hg Hh Hj Hu Hd.
    assert (Hn : readParser.shouldUseAdvancedParser q = false).
    { apply shouldUseAdvancedParser_false. unfold noTestFires.
      unfold readParser.hasGroupBy, readParser.hasHaving, readParser.hasJoin,
        readParser.hasUnion, readParser.hasDistinct.
      repeat split.
      - destruct (readParser.hasAggregation q) eqn:E; [| reflexivity].
        elim Ha. now apply hasAggregation_spec.
      - apply letters_absent. intros H. apply Hg.
        exact (@phrase_of_letters "GROUP" "BY" q H).
      - now apply letters_absent.
      - now apply letters_absent.
      - now apply letters_absent.
      - apply letters_absent.
        exact (@letters_within "DISTINCT" "SELECT " "" q Hd).
      - destruct (readParser.hasSubquery q) eqn:E; [| reflexivity].
        elim Hs. now apply hasSubquery_spec. }
    split; [exact Hn | now apply simple_path].
  - intros H.
    assert (Hf : advancedFeatureIn q).
    { unfold advancedFeatureIn.
      destruct H as [H | [H | [H | [H | [H | [H | H]]]]]].
      - left. now apply callIn_anywhere.
      - right; right; right; right; right; right.
        now apply subselectIn_anywhere.
      - right; left. now apply wordIn_keywordIn, clauseIn_wordIn.
      - right; right; left. now apply wordIn_keywordIn, clauseIn_wordIn.
      - right; right; right; left.
        now apply wordIn_keywordIn, clauseIn_wordIn.
      - right; right; right; right; left.
        now apply wordIn_keywordIn, clauseIn_wordIn.
      - right; right; right; right; right; left.
        now apply wordIn_keywordIn, clauseIn_wordIn. }
    assert (Hr : readParser.shouldUseAdvancedParser q = true)
      by (now apply shouldUseAdvancedParser_true, advancedFeature_spec).
    split; [exact Hr |]. unfold readParser.execute. now rewrite Hr.
Qed.

(** Closed texts are told from the keywords by running the patterns. *)
Ltac no_word :=
  let H := fresh in
  intros H; apply wordIn_spec in H; [| reflexivity ..];
  vm_compute in H; discriminate H.

Ltac no_letters :=
  let H := fresh in
  intros H; apply keyword_test in H; vm_compute in H; discriminate H.

Ltac no_phrase :=
  let H := fresh in
  intros H; apply phraseIn_test in H; [| reflexivity ..];
  vm_compute in H; discriminate H.

Ltac no_call :=
  let H := fresh in
  intros H; apply hasAggregation_spec in H; vm_compute in H; discriminate H.

Ltac no_subquery :=
  let H := fresh in
  intros H; apply hasSubquery_spec in H; vm_compute in H; discriminate H.

Lemma C3_routing_witness :
  (readParser.shouldUseAdvancedParser "SELECT name FROM users WHERE age > 18"
   = false
   /\ readParser.execute accepting "SELECT name FROM users WHERE age > 18"
      = translatorAPI.bind
          (translatorAPI.lift
             (readParser.validateSyntax
                "SELECT name FROM users WHERE age > 18"))
          (fun _ => translatorAPI.executeSelect accepting
                      "SELECT name FROM users WHERE age > 18"))
  /\ readParser.shouldUseAdvancedParser
       "SELECT status FROM orders HAVING total > 1" = true
  /\ readParser.execute accepting "SELECT status FROM orders HAVING total > 1"
     = selectParser.execute accepting
         "SELECT status FROM orders HAVING total > 1".
Proof.
  split.
  - apply (proj1 (@C3_routing unit accepting
                    "SELECT name FROM users WHERE age > 18"));
      [reflexivity | no_call | no_subquery | no_phrase
       | no_letters | no_letters | no_letters | no_letters].
  - apply (proj2 (@C3_routing unit accepting
                    "SELECT status FROM orders HAVING total > 1")).
    right; right; right; left.
    exists "SELECT status FROM orders ", "HAVING", " total > 1". repeat split.
Defined.

(** C3, as stated, fails.  A SELECT with a parenthesised subquery has no
    aggregate call and none of the letters GROUP BY, JOIN, UNION, DISTINCT,
    and is still handed to the advanced parser.  Besides, a column called
    [joined_at] sends a SELECT to the advanced parser though JOIN is no
    word of it, and a GROUP BY written with two blanks leaves it on the
    simple path: the claim as amended says nothing of these two. *)
Lemma C3_counterexample :
  ~ (forall q : string,
       leads "SELECT" q = true ->
       ~ aggregateCallIn q ->
       ~ keywordIn "GROUP BY" q ->
       ~ keywordIn "JOIN" q ->
       ~ keywordIn "UNION" q ->
       ~ keywordIn "DISTINCT" q ->
       readParser.shouldUseAdvancedParser q = false)
  /\ ~ (forall q : string,
          leads "SELECT" q = true ->
          ~ aggregateCallIn q ->
          ~ subqueryIn q ->
          ~ phraseIn "GROUP" "BY" q ->
          ~ wordIn "HAVING" q ->
          ~ wordIn "JOIN" q ->
          ~ wordIn "UNION" q ->
          ~ keywordIn "DISTINCT" q ->
          readParser.shouldUseAdvancedParser q = false)
  /\ ~ (forall q : string,
          leads "SELECT" q = true ->
          phraseIn "GROUP" "BY" q ->
          readParser.shouldUseAdvancedParser q = true).
Proof.
  split; [| split].
  - intros H.
    assert (E : readParser.shouldUseAdvancedParser
                  "SELECT name FROM users WHERE id IN (SELECT user_id FROM orders)"
                = false)
      by (apply H; [reflexivity | no_call | no_letters | no_letters
                    | no_letters | no_letters]).
    vm_compute in E. discriminate E.
  - intros H.
    assert (E : readParser.shouldUseAdvancedParser
                  "SELECT joined_at FROM users" = false)
      by (apply H; [reflexivity | no_call | no_subquery | no_phrase
                    | no_word | no_word | no_word | no_letters]).
    vm_compute in E. discriminate E.
  - intros H.
    assert (E : readParser.shouldUseAdvancedParser
                  "SELECT a FROM t GROUP  BY a" = true).
    { apply H; [reflexivity |].
      exists "SELECT a FROM t ", "GROUP", "  ", "BY", " a".
      repeat split. discriminate. }
    vm_compute in E. discriminate E.
Qed.

(** ** The aggregation pipeline *)

Lemma where_found (q : string) :
  mongoShell.extractWhereConditions q <> "{}" ->
  Re.test true mongoShell.wherePattern q = true.
Proof.
  unfold mongoShell.extractWhereConditions, Re.test.
  destruct (Re.match_ true mongoShell.wherePattern q);
    [reflexivity | intros H; now elim H].
Qed.

(** Whatever the shell generator detects, the advanced parser detects. *)
Lemma shell_detects_less (q : string) :
  mongoShell.detectAggregationFunctions q = true ->
  selectParser.detectAggregationFunctions q = true.
Proof.
  unfold mongoShell.detectAggregationFunctions,
    selectParser.detectAggregationFunctions,
    selectParser.aggregationPatterns.
  cbn [existsb]. intros H.
  repeat (apply orb_true_iff in H; destruct H as [H | H];
          [rewrite H; rewrite ?orb_true_r; reflexivity |]).
  discriminate H.
Qed.

(** [\bF\s*\(\s*\w+\s*\)] finds a call of [F] on one column name. *)
Lemma callOf_found (f pre name b1 b2 arg b3 post : string) :
  Str.toUpperCase f = f ->
  Re.is_word_opt (Str.head f) = true ->
  Str.toUpperCase name = f ->
  Re.is_word_opt (lastFrom None pre) = false ->
  allIn Re.Space b1 = true ->
  allIn Re.Space b2 = true ->
  allIn Re.Space b3 = true ->
  allIn Re.Word arg = true ->
  arg <> "" ->
  Re.test true (selectParser.callOf f)
    (pre ++ name ++ b1 ++ "(" ++ b2 ++ arg ++ b3 ++ ")" ++ post) = true.
Proof.
  intros Hf Hh Hn Hp H1 H2 H3 Ha Hne.
  apply test_spec.
  exists pre, (name ++ b1 ++ "(" ++ b2 ++ arg ++ b3 ++ ")" ++ post).
  set (st0 := Re.State (lastFrom None pre)
                (name ++ b1 ++ "(" ++ b2 ++ arg ++ b3 ++ ")" ++ post) []).
  set (st1 := Re.State (lastFrom (Re.prev st0) name)
                (b1 ++ "(" ++ b2 ++ arg ++ b3 ++ ")" ++ post) []).
  set (st2 := Re.State (lastFrom (Re.prev st1) b1)
                ("(" ++ b2 ++ arg ++ b3 ++ ")" ++ post) []).
  set (st3 := Re.State (lastFrom (Re.prev st2) "(")
                (b2 ++ arg ++ b3 ++ ")" ++ post) []).
  set (st4 := Re.State (lastFrom (Re.prev st3) b2)
                (arg ++ b3 ++ ")" ++ post) []).
  set (st5 := Re.State (lastFrom (Re.prev st4) arg) (b3 ++ ")" ++ post) []).
  set (st6 := Re.State (lastFrom (Re.prev st5) b3) (")" ++ post) []).
  exists (Re.State (lastFrom (Re.prev st6) ")") post []).
  split; [reflexivity |]. unfold selectParser.callOf. cbn [matches].
  exists st0. split.
  { split; [reflexivity |]. cbn [Re.prev Re.rest st0].
    assert (Hw : Re.is_word_opt
                   (Str.head (name ++ b1 ++ "(" ++ b2 ++ arg ++ b3 ++ ")"
                              ++ post)) = true)
      by (apply (@head_word name f Hn Hh)).
    exact (proj2 (@xorb_word_right _ _ Hw) Hp). }
  exists st1. split.
  { exists name. repeat split. now apply sameText_upper. }
  exists st2. split; [exists b1; repeat split; [exact H1 | lia] |].
  exists st3. split; [exists "("; repeat split |].
  exists st4. split; [exists b2; repeat split; [exact H2 | lia] |].
  exists st5. split.
  { exists arg. repeat split; [exact Ha |].
    destruct arg; [now elim Hne | simpl; lia]. }
  exists st6. split; [exists b3; repeat split; [exact H3 | lia] |].
  exists ")". repeat split.
Qed.

(** [\bCOUNT\s*\(\s*\*\s*\)] finds COUNT of [*]. *)
Lemma countAll_found (pre name b1 b2 b3 post : string) :
  Str.toUpperCase name = "COUNT" ->
  Re.is_word_opt (lastFrom None pre) = false ->
  allIn Re.Space b1 = true ->
  allIn Re.Space b2 = true ->
  allIn Re.Space b3 = true ->
  Re.test true
    (Re.Seq Re.WordB
       (Re.Seq (Re.Lit "COUNT")
          (Re.Seq (Re.Many Re.Space 0 true)
             (Re.Seq (Re.Lit "(")
                (Re.Seq (Re.Many Re.Space 0 true)
                   (Re.Seq (Re.Lit "*")
                      (Re.Seq (Re.Many Re.Space 0 true) (Re.Lit ")"))))))))
    (pre ++ name ++ b1 ++ "(" ++ b2 ++ "*" ++ b3 ++ ")" ++ post) = true.
Proof.
  intros Hn Hp H1 H2 H3.
  apply test_spec.
  exists pre, (name ++ b1 ++ "(" ++ b2 ++ "*" ++ b3 ++ ")" ++ post).
  set (st0 := Re.State (lastFrom None pre)
                (name ++ b1 ++ "(" ++ b2 ++ "*" ++ b3 ++ ")" ++ post) []).
  set (st1 := Re.State (lastFrom (Re.prev st0) name)
                (b1 ++ "(" ++ b2 ++ "*" ++ b3 ++ ")" ++ post) []).
  set (st2 := Re.State (lastFrom (Re.prev st1) b1)
                ("(" ++ b2 ++ "*" ++ b3 ++ ")" ++ post) []).
  set (st3 := Re.State (lastFrom (Re.prev st2) "(")
                (b2 ++ "*" ++ b3 ++ ")" ++ post) []).
  set (st4 := Re.State (lastFrom (Re.prev st3) b2)
                ("*" ++ b3 ++ ")" ++ post) []).
  set (st5 := Re.State (lastFrom (Re.prev st4) "*") (b3 ++ ")" ++ post) []).
  set (st6 := Re.State (lastFrom (Re.prev st5) b3) (")" ++ post) []).
  exists (Re.State (lastFrom (Re.prev st6) ")") post []).
  split; [reflexivity |]. cbn [matches].
  exists st0. split.
  { split; [reflexivity |]. cbn [Re.prev Re.rest st0].
    assert (Hw : Re.is_word_opt
                   (Str.head (name ++ b1 ++ "(" ++ b2 ++ "*" ++ b3 ++ ")"
                              ++ post)) = true)
      by (apply (@head_word name "COUNT" Hn eq_refl)).
    exact (proj2 (@xorb_word_right _ _ Hw) Hp). }
  exists st1. split.
  { exists name. repeat split. now apply sameText_upper. }
  exists st2. split; [exists b1; repeat split; [exact H1 | lia] |].
  exists st3. split; [exists "("; repeat split |].
  exists st4. split; [exists b2; repeat split; [exact H2 | lia] |].
  exists st5. split; [exists "*"; repeat split |].
  exists st6. split; [exists b3; repeat split; [exact H3 | lia] |].
  exists ")". repeat split.
Qed.

(** The shell generator detects every aggregate call on one column. *)
Lemma simpleCall_detected (q : string) :
  simpleCallIn q -> mongoShell.detectAggregationFunctions q = true.
Proof.
  intros [pre [name [b1 [b2 [arg [b3 [post
            [-> [Hp [_ [H1 [H2 [H3 H]]]]]]]]]]]]].
  unfold mongoShell.detectAggregationFunctions. cbn [existsb].
  destruct H as [[Hn ->] | [Hn [Ha Hne]]].
  - now rewrite (@countAll_found pre name b1 b2 b3 post Hn Hp H1 H2 H3).
  - assert (F : forall f, Str.toUpperCase name = f ->
                  Str.toUpperCase f = f ->
                  Re.is_word_opt (Str.head f) = true ->
                  Re.test true (selectParser.callOf f)
                    (pre ++ name ++ b1 ++ "(" ++ b2 ++ arg ++ b3 ++ ")"
                     ++ post) = true)
      by (intros f E U W; now apply callOf_found).
    simpl in Hn.
    destruct Hn as [E | [E | [E | [E | [E | []]]]]]; symmetry in E;
      rewrite (F _ E eq_refl eq_refl); rewrite ?orb_true_r; reflexivity.
Qed.

Lemma shell_detected_is_call (q : string) :
  mongoShell.detectAggregationFunctions q = true -> aggregateCallIn q.
Proof. intros H. now apply detected_is_call, shell_detects_less. Qed.

(** C4, as amended.  The entries of the pipeline are, in this order, an
    optional [$match], then [$group] and [$project] together or not at
    all, then an optional [$sort] and an optional [$limit].  [$group] and
    [$project] are there whenever the statement calls COUNT of [*] or
    COUNT, SUM, AVG, MAX or MIN of one column name, and, in a text of
    ASCII characters, only when the text has an aggregate call.  [$match]
    is there only when the text has WHERE, [$limit] only when it has
    LIMIT, and [$sort], in a text of ASCII characters, only when it has
    ORDER BY. *)
Theorem C4_stage_order :
  forall q : string,
    let a := mongoShell.analyzeSQL q in
    exists m g s l : bool,
      List.map mongoShell.stageOf (mongoShell.pipeline q a)
      = List.app (stageIf m mongoShell.Match_)
          (List.app (stageIf g mongoShell.Group)
             (List.app (stageIf g mongoShell.Project)
                (List.app (stageIf s mongoShell.Sort)
                          (stageIf l mongoShell.Limit))))
      /\ (simpleCallIn q -> g = true)
      /\ (asciiText q = true -> g = true -> aggregateCallIn q)
      /\ (m = true -> keywordIn "WHERE" q)
      /\ (asciiText q = true -> s = true -> keywordIn "ORDER BY" q)
      /\ (l = true -> keywordIn "LIMIT" q).
Proof.
  intros q a.
  exists (Str.nonEmpty (mongoShell.extractWhereConditions q)
          && negb (String.eqb (mongoShell.extractWhereConditions q) "{}")),
         (mongoShell.hasAggregation a),
         (match mongoShell.orderBy a with
          | Some _ => mongoShell.hasOrderBy a
          | None => false
          end),
         (mongoShell.hasLimit a && mongoShell.truthy (mongoShell.limit a)).
  split; [| split; [| split; [| split; [| split]]]].
  - unfold mongoShell.pipeline.
    rewrite !map_app.
    f_equal; [| f_equal; [| f_equal; [| f_equal]]].
    + destruct (_ && _); reflexivity.
    + destruct (mongoShell.hasAggregation a); reflexivity.
    + destruct (mongoShell.hasAggregation a); reflexivity.
    + destruct (mongoShell.orderBy a) as [o|]; [| reflexivity].
      destruct (mongoShell.hasOrderBy a); reflexivity.
    + destruct (_ && _); reflexivity.
  - apply simpleCall_detected.
  - intros _. apply shell_detected_is_call.
  - intros H. apply andb_true_iff in H. destruct H as [_ H].
    assert (T : Re.test true mongoShell.wherePattern q = true)
      by (apply where_found; intros E; rewrite E in H; discriminate H).
    apply test_spec in T. destruct T as [pre [suf [st' [-> M]]]].
    unfold mongoShell.wherePattern in M. cbn [matches] in M.
    destruct M as [m1 [[w [Hr [Hw _]]] _]]. cbn [Re.rest] in Hr.
    apply sameText_upper in Hw; [| reflexivity].
    rewrite Hr.
    exists (Str.toUpperCase pre), (Str.toUpperCase (Re.rest m1)).
    now rewrite !toUpperCase_app, Hw.
  - change (mongoShell.hasOrderBy a)
      with (Str.includes (Str.toUpperCase q) "ORDER BY").
    intros _ H. apply keyword_test.
    destruct (mongoShell.orderBy a); [exact H | discriminate].
  - change (mongoShell.hasLimit a)
      with (Str.includes (Str.toUpperCase q) "LIMIT").
    intros H. apply andb_true_iff in H. apply keyword_test. tauto.
Qed.

(** All five stages at once. *)
Example pipeline_five_stages :
  List.map mongoShell.stageOf
    (mongoShell.pipeline
       "SELECT COUNT(*) AS n FROM t WHERE a = 1 ORDER BY n LIMIT 5"
       (mongoShell.analyzeSQL
          "SELECT COUNT(*) AS n FROM t WHERE a = 1 ORDER BY n LIMIT 5"))
  = [Some mongoShell.Match_; Some mongoShell.Group; Some mongoShell.Project;
     Some mongoShell.Sort; Some mongoShell.Limit].
Proof. evaluate. Qed.

(** C4, as stated, fails: a SELECT with GROUP BY and no aggregate call is
    handed to the advanced parser, takes the pipeline path of the shell
    generator and gets neither [$group] nor [$project]. *)
Lemma C4_counterexample :
  ~ (forall q : string,
       let a := mongoShell.analyzeSQL q in
       leads "SELECT" q = true ->
       readParser.shouldUseAdvancedParser q = true ->
       In (Some mongoShell.Group)
          (List.map mongoShell.stageOf (mongoShell.pipeline q a))
       /\ In (Some mongoShell.Project)
             (List.map mongoShell.stageOf (mongoShell.pipeline q a)))
  /\ mongoShell.generateLocalAdvanced
       "SELECT status FROM orders GROUP BY status"
     = mongoShell.aggregationHeader
         "SELECT status FROM orders GROUP BY status" ++
       "db.orders.aggregate([" ++ LF ++ LF ++ "]);".
Proof.
  split; [| evaluate].
  intros H.
  destruct (H "SELECT status FROM orders GROUP BY status" eq_refl eq_refl)
    as [H1 _].
  vm_compute in H1. exact H1.
Qed.

(** C5.  [SELECT COUNT( * ) AS total FROM orders] goes to the advanced
    parser, yields the single aggregation COUNT over [*] named [total], and
    its pipeline is the [$group] stage with [_id: null] and
    [total: { $sum: 1 }] followed by the [$project] stage with [_id: 0] and
    [total: 1], nothing else. *)
Theorem C5_count_all_example :
  readParser.shouldUseAdvancedParser "SELECT COUNT(*) AS total FROM orders"
  = true
  /\ selectParser.extractDetailedAggregations
       "SELECT COUNT(*) AS total FROM orders"
     = [selectParser.Aggregation "COUNT" "*" "total" "COUNT(*) AS total" true]
  /\ mongoShell.aggregations
       (mongoShell.analyzeSQL "SELECT COUNT(*) AS total FROM orders")
     = [mongoShell.Aggregation "COUNT" "*" "total" true]
  /\ mongoShell.pipeline "SELECT COUNT(*) AS total FROM orders"
       (mongoShell.analyzeSQL "SELECT COUNT(*) AS total FROM orders")
     = [ "  { $group: {" ++ LF ++
         "    _id: null," ++ LF ++
         "    total: { $sum: 1 }" ++ LF ++
         "  } }";
         "  { $project: {" ++ LF ++
         "    _id: 0," ++ LF ++
         "    total: 1" ++ LF ++
         "  } }" ]
  /\ mongoShell.generateLocalAdvanced "SELECT COUNT(*) AS total FROM orders"
     = mongoShell.aggregationHeader "SELECT COUNT(*) AS total FROM orders" ++
       "db.orders.aggregate([" ++ LF ++
       "  { $group: {" ++ LF ++
       "    _id: null," ++ LF ++
       "    total: { $sum: 1 }" ++ LF ++
       "  } }," ++ LF ++
       "  { $project: {" ++ LF ++
       "    _id: 0," ++ LF ++
       "    total: 1" ++ LF ++
       "  } }" ++ LF ++
       "]);".
Proof. vm_compute. repeat split. Qed.

(** ** The WHERE clause *)

Lemma basicConversions_lit (s : string) :
  mongoShell.basicConversions s
  = replaceLit false "'" DQ
      (replaceLit true "AND" ","
         (replaceLit false "=" ":" s 0) 0) 0.
Proof.
  unfold mongoShell.basicConversions. now rewrite !replace_lit.
Qed.

(** The conversions work on blank-separated pieces one by one. *)
Lemma basicConversions_blank (a b : string) :
  mongoShell.basicConversions (a ++ " " ++ b)
  = mongoShell.basicConversions a ++ " " ++ mongoShell.basicConversions b.
Proof.
  rewrite !basicConversions_lit.
  rewrite (@replaceLit_app false "=" ":" (" " ++ b) (@sealed_char _ _ _) a 0)
    by lia.
  change (replaceLit false "=" ":" (" " ++ b) 0)
    with (" " ++ replaceLit false "=" ":" b 0).
  rewrite (@replaceLit_app true "AND" "," _
             (@sealed_and_blank (replaceLit false "=" ":" b 0)) _ 0) by lia.
  change (replaceLit true "AND" "," (" " ++ replaceLit false "=" ":" b 0) 0)
    with (" " ++ replaceLit true "AND" "," (replaceLit false "=" ":" b 0) 0).
  rewrite (@replaceLit_app false "'" DQ _ (@sealed_char _ _ _) _ 0) by lia.
  reflexivity.
Qed.

Lemma basicConversions_token (t t' a b : string) :
  mongoShell.basicConversions t = t' ->
  mongoShell.basicConversions (a ++ " " ++ t ++ " " ++ b)
  = mongoShell.basicConversions a ++ " " ++ t' ++ " "
    ++ mongoShell.basicConversions b.
Proof.
  intros <-. now rewrite !basicConversions_blank.
Qed.

Lemma basicConversions_plain (s : string) :
  plain s = true -> mongoShell.basicConversions s = s.
Proof.
  unfold plain. intros H.
  apply andb_true_iff in H. destruct H as [H H3].
  apply andb_true_iff in H. destruct H as [H1 H2].
  apply negb_true_iff in H1, H2, H3.
  rewrite basicConversions_lit.
  rewrite (@replaceLit_absent "=" ":" s H1).
  rewrite (@replaceLit_absent_ci "AND" "," s H3).
  exact (@replaceLit_absent "'" DQ s H2).
Qed.

Lemma extractWhereConditions_cases (q : string) :
  mongoShell.extractWhereConditions q = "{}"
  \/ exists clause : string,
       mongoShell.extractWhereConditions q = mongoShell.toFilter clause.
Proof.
  unfold mongoShell.extractWhereConditions.
  destruct (Re.match_ true mongoShell.wherePattern q) as [m|]; [| now left].
  destruct (Re.group 1 m) as [clause|]; [right; now exists clause | now left].
Qed.

Lemma toUpper_inv (c u : ascii) :
  Char.toUpper c = u -> c = u \/ c = Char.toLower u.
Proof.
  intros <-. destruct c as [[] [] [] [] [] [] [] []]; vm_compute; tauto.
Qed.

Lemma toUpperCase_inv3 (t : string) (x y z : ascii) :
  Str.toUpperCase t = String x (String y (String z "")) ->
  exists a b c,
    t = String a (String b (String c ""))
    /\ (a = x \/ a = Char.toLower x)
    /\ (b = y \/ b = Char.toLower y)
    /\ (c = z \/ c = Char.toLower z).
Proof.
  destruct t as [|a [|b [|c [|d t]]]]; try discriminate.
  simpl. intros H. injection H as Ha Hb Hc.
  exists a, b, c. split; [reflexivity |].
  repeat split; now apply toUpper_inv.
Qed.

Lemma toUpperCase_inv2 (t : string) (x y : ascii) :
  Str.toUpperCase t = String x (String y "") ->
  exists a b,
    t = String a (String b "")
    /\ (a = x \/ a = Char.toLower x)
    /\ (b = y \/ b = Char.toLower y).
Proof.
  destruct t as [|a [|b [|c t]]]; try discriminate.
  simpl. intros H. injection H as Ha Hb.
  exists a, b. split; [reflexivity |]. split; now apply toUpper_inv.
Qed.

Lemma and_any_case (t : string) :
  Str.toUpperCase t = "AND" -> mongoShell.basicConversions t = ",".
Proof.
  intros H. apply toUpperCase_inv3 in H.
  destruct H as [a [b [c [-> [[-> | ->] [[-> | ->] [-> | ->]]]]]]]; evaluate.
Qed.

Lemma or_any_case (t : string) :
  Str.toUpperCase t = "OR" -> mongoShell.basicConversions t = t.
Proof.
  intros H. apply toUpperCase_inv2 in H.
  destruct H as [a [b [-> [[-> | ->] [-> | ->]]]]]; evaluate.
Qed.

(** What the replacement of [=] does to the operators that contain one. *)
Lemma equals_sign_inside_operators (a b : string) :
  mongoShell.basicConversions (a ++ " >= " ++ b)
  = mongoShell.basicConversions a ++ " >: " ++ mongoShell.basicConversions b
  /\ mongoShell.basicConversions (a ++ " <= " ++ b)
     = mongoShell.basicConversions a ++ " <: " ++ mongoShell.basicConversions b
  /\ mongoShell.basicConversions (a ++ " != " ++ b)
     = mongoShell.basicConversions a ++ " !: " ++ mongoShell.basicConversions b.
Proof.
  split; [| split].
  - apply (@basicConversions_token ">=" ">:" a b). evaluate.
  - apply (@basicConversions_token "<=" "<:" a b). evaluate.
  - apply (@basicConversions_token "!=" "!:" a b). evaluate.
Qed.

(** C6, as amended.  The captured WHERE text is converted piece by piece:
    [=] becomes [:], so that [f = v] reads [f : v]; [>] and [<] are left as
    written; AND, in any letter case, becomes a comma inside the one pair
    of braces; OR is left in the text as the word it was.  Text with no
    [=], quote or AND in it comes out unchanged, and the whole is wrapped
    in braces unless it already opens with one. *)
Theorem C6_where_conversions :
  forall a b t : string,
    mongoShell.basicConversions (a ++ " = " ++ b)
    = mongoShell.basicConversions a ++ " : " ++ mongoShell.basicConversions b
    /\ mongoShell.basicConversions (a ++ " > " ++ b)
       = mongoShell.basicConversions a ++ " > " ++ mongoShell.basicConversions b
    /\ mongoShell.basicConversions (a ++ " < " ++ b)
       = mongoShell.basicConversions a ++ " < " ++ mongoShell.basicConversions b
    /\ (Str.toUpperCase t = "AND" ->
        mongoShell.basicConversions (a ++ " " ++ t ++ " " ++ b)
        = mongoShell.basicConversions a ++ " , "
          ++ mongoShell.basicConversions b)
    /\ (Str.toUpperCase t = "OR" ->
        mongoShell.basicConversions (a ++ " " ++ t ++ " " ++ b)
        = mongoShell.basicConversions a ++ " " ++ t ++ " "
          ++ mongoShell.basicConversions b)
    /\ (plain a = true -> mongoShell.basicConversions a = a)
    /\ mongoShell.toFilter a
       = (if Str.startsWith (mongoShell.basicConversions (Str.trim a)) "{"
          then mongoShell.basicConversions (Str.trim a)
          else "{ " ++ mongoShell.basicConversions (Str.trim a) ++ " }")
    /\ (mongoShell.extractWhereConditions a = "{}"
        \/ exists clause : string,
             mongoShell.extractWhereConditions a = mongoShell.toFilter clause)
    /\ mongoShell.extractWhereConditions
         "SELECT * FROM t WHERE a = 1 AND b > 2 OR c = 3"
       = "{ a : 1 , b > 2 OR c : 3 }".
Proof.
  intros a b t.
  repeat match goal with
         | |- _ /\ _ => split
         end.
  - apply (@basicConversions_token "=" ":" a b). evaluate.
  - apply (@basicConversions_token ">" ">" a b). evaluate.
  - apply (@basicConversions_token "<" "<" a b). evaluate.
  - intros Ht. apply (@basicConversions_token t "," a b).
    now apply and_any_case.
  - intros Ht. apply (@basicConversions_token t t a b).
    now apply or_any_case.
  - apply basicConversions_plain.
  - unfold mongoShell.toFilter.
    now destruct (Str.startsWith (mongoShell.basicConversions (Str.trim a)) "{").
  - apply extractWhereConditions_cases.
  - evaluate.
Qed.

Lemma C6_where_conversions_witness :
  mongoShell.basicConversions ("a = 1" ++ " " ++ "And" ++ " " ++ "b = 2")
  = mongoShell.basicConversions "a = 1" ++ " , "
    ++ mongoShell.basicConversions "b = 2"
  /\ mongoShell.basicConversions ("a = 1" ++ " " ++ "or" ++ " " ++ "b = 2")
     = mongoShell.basicConversions "a = 1" ++ " " ++ "or" ++ " "
       ++ mongoShell.basicConversions "b = 2"
  /\ mongoShell.basicConversions "age" = "age".
Proof.
  split; [| split].
  - apply (proj1 (proj2 (proj2 (proj2
             (C6_where_conversions "a = 1" "b = 2" "And"))))).
    evaluate.
  - apply (proj1 (proj2 (proj2 (proj2 (proj2
             (C6_where_conversions "a = 1" "b = 2" "or")))))).
    evaluate.
  - apply (proj1 (proj2 (proj2 (proj2 (proj2 (proj2
             (C6_where_conversions "age" "b" "AND"))))))).
    evaluate.
Defined.

(** C6, as stated, fails: [>=] and [!=] come out as [>:] and [!:], which is
    neither the operator nor a target operator, and OR gets no logical-or
    structure. *)
Lemma C6_counterexample :
  mongoShell.extractWhereConditions
    "SELECT * FROM t WHERE age >= 18 OR age != 21"
  = "{ age >: 18 OR age !: 21 }"
  /\ Str.includes "{ age >: 18 OR age !: 21 }" ">=" = false
  /\ Str.includes "{ age >: 18 OR age !: 21 }" "$gte" = false
  /\ Str.includes "{ age >: 18 OR age !: 21 }" "!=" = false
  /\ Str.includes "{ age >: 18 OR age !: 21 }" "$ne" = false
  /\ Str.includes "{ age >: 18 OR age !: 21 }" "$or" = false.
Proof. vm_compute. repeat split. Qed.

(** ** The rendered shell text *)

Lemma addComments_sql (shell type q : string) :
  Str.includes (mongoShell.addComments shell type q) ("// SQL: " ++ q) = true.
Proof.
  apply includes_spec.
  exists ("// MongoDB Shell equivalente para " ++ type ++ LF),
         (LF ++ "// Generado automáticamente" ++ LF ++ LF ++ shell).
  unfold mongoShell.addComments, mongoShell.commentHeader.
  now rewrite !append_assoc.
Qed.

Lemma aggregation_sql (q : string) (a : mongoShell.analysis) :
  Str.includes (mongoShell.generateAggregationPipeline q a) ("// SQL: " ++ q)
  = true.
Proof.
  apply includes_spec.
  exists ("// MongoDB Shell equivalente para agregación" ++ LF).
  eexists.
  unfold mongoShell.generateAggregationPipeline, mongoShell.aggregationHeader.
  rewrite !append_assoc. reflexivity.
Qed.

Lemma detectQueryType_cases (q : string) :
  let t := mongoShell.detectQueryType q in
  t = "SELECT" \/ t = "INSERT" \/ t = "UPDATE" \/ t = "DELETE"
  \/ t = "CREATE" \/ t = "DROP" \/ t = "UNKNOWN".
Proof.
  unfold mongoShell.detectQueryType.
  repeat match goal with
         | |- context [if ?b then _ else _] => destruct b
         end; tauto.
Qed.

Lemma analyzeSQL_type (q : string) :
  mongoShell.type (mongoShell.analyzeSQL q) = mongoShell.detectQueryType q.
Proof. reflexivity. Qed.

(** On one line.  Every statement of a recognised kind is rendered with
    the comment line that holds it; an unrecognised one as two comment
    lines.  The text always opens with a comment, and for a SELECT the
    command that follows the comment header starts with [db.]. *)
Lemma rendered_header (q : string) :
  let out := mongoShell.generateLocalAdvanced q in
  Str.startsWith out "//" = true
  /\ (mongoShell.detectQueryType q <> "UNKNOWN" ->
      Str.includes out ("// SQL: " ++ q) = true)
  /\ (mongoShell.detectQueryType q = "UNKNOWN" ->
      out = "// Consulta SQL no reconocida:" ++ LF ++ "// " ++ q)
  /\ (mongoShell.detectQueryType q = "SELECT" ->
      exists header rest : string,
        (header = mongoShell.commentHeader "SELECT" q
         \/ header = mongoShell.aggregationHeader q)
        /\ out = header ++ "db." ++ rest).
Proof.
  intros out. subst out. unfold mongoShell.generateLocalAdvanced.
  rewrite analyzeSQL_type.
  destruct (detectQueryType_cases q) as [E | [E | [E | [E | [E | [E | E]]]]]];
    rewrite E; cbn [String.eqb Ascii.eqb Bool.eqb];
    (split; [| split; [| split]]); try discriminate; try congruence;
    try (intros _; apply addComments_sql).
  all: try reflexivity.
  all: unfold mongoShell.generateSelectShellAdvanced.
  - destruct (_ || _); reflexivity.
  - intros _. destruct (_ || _); [apply aggregation_sql | apply addComments_sql].
  - intros _. destruct (_ || _).
    + exists (mongoShell.aggregationHeader q). eexists.
      split; [now right |]. reflexivity.
    + exists (mongoShell.commentHeader "SELECT" q). eexists.
      split; [now left |]. reflexivity.
Qed.

(** C7 at its failing input.  A SELECT written on two lines is rendered
    with its first line only in the comment [// SQL: ...]: its second line
    stands in the shell text as a line of its own, outside every comment.
    So does whatever follows a line break in the text handed in, a shell
    command included. *)
Theorem C7_line_break_leaves_the_comment :
  mongoShell.detectQueryType ("SELECT *" ++ LF ++ "FROM orders") = "SELECT"
  /\ Str.splitChar (ascii_of_nat 10)
       (mongoShell.generateLocalAdvanced ("SELECT *" ++ LF ++ "FROM orders"))
     = [ "// MongoDB Shell equivalente para SELECT";
         "// SQL: SELECT *";
         "FROM orders";
         "// Generado automáticamente";
         "";
         "db.orders.find({});" ]
  /\ Str.splitChar (ascii_of_nat 10)
       (mongoShell.generateLocalAdvanced
          ("SELECT * FROM t" ++ LF ++ "db.t.drop();"))
     = [ "// MongoDB Shell equivalente para SELECT";
         "// SQL: SELECT * FROM t";
         "db.t.drop();";
         "// Generado automáticamente";
         "";
         "db.t.find({});" ].
Proof. vm_compute. repeat split. Qed.

(** ** Syntax checks and what is posted *)

Lemma selectParser_execute_sent (response : Type)
  (server : string -> result response) (q : string) (log : list string) :
  let f := selectParser.features_ (selectParser.deepAnalyze q) in
  let sent :=
    if selectParser.hasAggregation f then q
    else if (6 <? selectParser.score f)
            && negb (Re.test true (Re.Seq Re.WordB (Re.Seq (Re.Lit "LIMIT") Re.WordB)) q)
    then q ++ " LIMIT 500"
    else q in
  selectParser.execute server q log = (server sent, List.app log [sent]).
Proof.
  intros f sent. unfold selectParser.execute.
  fold f. subst sent. destruct (selectParser.hasAggregation f) eqn:Ha.
  - reflexivity.
  - unfold selectParser.optimizeAdvancedQuery.
    change (selectParser.complexity (selectParser.deepAnalyze q))
      with (selectParser.calculateComplexity f).
    unfold selectParser.calculateComplexity.
    destruct (selectParser.score f =? 0) eqn:E0.
    { apply Nat.eqb_eq in E0. rewrite E0. reflexivity. }
    destruct (selectParser.score f <=? 3) eqn:E3.
    { apply Nat.leb_le in E3.
      replace (6 <? selectParser.score f) with false
        by (symmetry; apply Nat.ltb_ge; lia).
      reflexivity. }
    destruct (selectParser.score f <=? 6) eqn:E6.
    { apply Nat.leb_le in E6.
      replace (6 <? selectParser.score f) with false
        by (symmetry; apply Nat.ltb_ge; lia).
      reflexivity. }
    apply Nat.leb_gt in E6.
    replace (6 <? selectParser.score f) with true
      by (symmetry; apply Nat.ltb_lt; lia).
    reflexivity.
Qed.

(** C8 at its failing input.  [SELECT COUNT( * ) AS total] has no FROM, yet
    [readParser.execute] hands it to the advanced parser before its own
    syntax check, and the advanced parser posts it to the backend
    unchecked. *)
Theorem C8_advanced_select_skips_syntax_check :
  forall (response : Type) (server : string -> result response)
         (log : list string),
    leads "SELECT" "SELECT COUNT(*) AS total" = true
    /\ Str.includes (Str.toUpperCase (Str.trim "SELECT COUNT(*) AS total"))
         "FROM" = false
    /\ readParser.execute server "SELECT COUNT(*) AS total" log
       = (server "SELECT COUNT(*) AS total",
          List.app log ["SELECT COUNT(*) AS total"]).
Proof.
  intros response server log.
  split; [evaluate |].
  split; [evaluate |].
  unfold readParser.execute.
  replace (readParser.shouldUseAdvancedParser "SELECT COUNT(*) AS total")
    with true by (evaluate).
  rewrite selectParser_execute_sent.
  replace (selectParser.hasAggregation
             (selectParser.features_
                (selectParser.deepAnalyze "SELECT COUNT(*) AS total")))
    with true by (evaluate).
  reflexivity.
Qed.

Lemma drop_is_not_delete (q : string) :
  leads "DROP" q = true -> leads "DELETE" q = false.
Proof.
  unfold leads. intros H.
  destruct (Str.toUpperCase (Str.trim q)) as [|a [|b u]]; try discriminate H.
  - cbn [Str.startsWith] in H. now rewrite andb_false_r in H.
  - cbn [Str.startsWith] in H. apply andb_true_iff in H. destruct H as [Ha H].
    apply andb_true_iff in H. destruct H as [Hb _].
    apply Ascii.eqb_eq in Ha, Hb. subst. reflexivity.
Qed.

Lemma create_is_not_insert (q : string) :
  leads "CREATE" q = true -> leads "INSERT" q = false.
Proof.
  unfold leads. intros H.
  destruct (Str.toUpperCase (Str.trim q)) as [|a u]; [discriminate H |].
  cbn [Str.startsWith] in H. apply andb_true_iff in H. destruct H as [Ha _].
  apply Ascii.eqb_eq in Ha. subst. reflexivity.
Qed.

(** Everywhere else the syntax check comes first: a statement whose anchor
    keyword is missing is refused with an error that names it, and nothing
    is posted. *)
Lemma syntax_gate_elsewhere (response : Type)
  (server : string -> result response) (q : string) (log : list string) :
  let upperQuery := Str.toUpperCase (Str.trim q) in
  (leads "UPDATE" q = true -> Str.includes upperQuery "SET" = false ->
   updateParser.execute server q log
   = (Throw (Error SyntaxError "Sintaxis incorrecta: UPDATE debe incluir SET"),
      log))
  /\ (leads "DELETE" q = true -> Str.includes upperQuery "FROM" = false ->
      deleteParser.execute server q log
      = (Throw (Error SyntaxError
                  "Sintaxis incorrecta: DELETE debe incluir FROM"), log))
  /\ (leads "DROP" q = true -> Str.includes upperQuery "TABLE" = false ->
      Str.includes upperQuery "COLLECTION" = false ->
      deleteParser.execute server q log
      = (Throw (Error SyntaxError
                  "Sintaxis incorrecta: DROP debe especificar TABLE o COLLECTION"),
         log))
  /\ (leads "INSERT" q = true -> Str.includes upperQuery "INTO" = false ->
      createParser.execute server q log
      = (Throw (Error SyntaxError
                  "Sintaxis incorrecta: INSERT debe incluir INTO"), log))
  /\ (leads "CREATE" q = true -> Str.includes upperQuery "TABLE" = false ->
      Str.includes upperQuery "COLLECTION" = false ->
      createParser.execute server q log
      = (Throw (Error SyntaxError
                  "Sintaxis incorrecta: CREATE debe especificar TABLE o COLLECTION"),
         log))
  /\ (readParser.shouldUseAdvancedParser q = false ->
      leads "SELECT" q = true -> Str.includes upperQuery "FROM" = false ->
      readParser.execute server q log
      = (Throw (Error SyntaxError
                  "Sintaxis incorrecta: SELECT debe incluir FROM"), log)).
Proof.
  intros upperQuery. subst upperQuery. unfold leads.
  split; [| split; [| split; [| split; [| split]]]].
  - intros H1 H2.
    unfold updateParser.execute, translatorAPI.bind, translatorAPI.lift,
      updateParser.validateSyntax.
    now rewrite H1, H2.
  - intros H1 H2.
    unfold deleteParser.execute, translatorAPI.bind, translatorAPI.lift,
      deleteParser.validateSyntax.
    now rewrite H1, H2.
  - intros H1 H2 H3. pose proof (drop_is_not_delete q H1) as H0.
    unfold leads in H0.
    unfold deleteParser.execute, translatorAPI.bind, translatorAPI.lift,
      deleteParser.validateSyntax.
    now rewrite H0, H1, H2, H3.
  - intros H1 H2.
    unfold createParser.execute, translatorAPI.bind, translatorAPI.lift,
      createParser.validateSyntax.
    now rewrite H1, H2.
  - intros H1 H2 H3. pose proof (create_is_not_insert q H1) as H0.
    unfold leads in H0.
    unfold createParser.execute, translatorAPI.bind, translatorAPI.lift,
      createParser.validateSyntax.
    now rewrite H0, H1, H2, H3.
  - intros H0 H1 H2.
    unfold readParser.execute, translatorAPI.bind, translatorAPI.lift,
      readParser.validateSyntax.
    now rewrite H0, H1, H2.
Qed.

(** ** Table names *)

Lemma firstName_nonempty (k q t : string) :
  mongoShell.firstName k q = Some t -> t <> "".
Proof.
  unfold mongoShell.firstName.
  destruct (Re.match_ true (mongoShell.nameAfter k) q) as [m|] eqn:E;
    [| discriminate].
  assert (Hn : namesGroup (mongoShell.nameAfter k))
    by (repeat constructor).
  destruct (@match_names _ _ _ _ Hn E) as [v [Hv Hne]].
  rewrite Hv. congruence.
Qed.

Lemma tableOf_nonempty (r : Re.regex) (q t : string) :
  namesGroup r -> deleteParser.tableOf r q = Some t -> t <> "".
Proof.
  intros Hn. unfold deleteParser.tableOf.
  destruct (Re.match_ true r q) as [m|] eqn:E; [| discriminate].
  destruct (@match_names _ _ _ _ Hn E) as [v [Hv Hne]].
  rewrite Hv. congruence.
Qed.

(** Where the letters of the keyword, blanks and a word character stand,
    [/K\s+(\w+)/i] matches. *)
Lemma opensNamed_matches (k suf : string) (pv : option ascii) :
  Str.toUpperCase k = k ->
  opensNamed k suf ->
  exists st', matches true (mongoShell.nameAfter k) (Re.State pv suf []) st'.
Proof.
  intros Hk [kw [blanks [c [rest [-> [Hkw [Hs [Hne Hc]]]]]]]].
  set (st0 := Re.State pv (kw ++ blanks ++ String c rest) []).
  set (st1 := Re.State (lastFrom (Re.prev st0) kw) (blanks ++ String c rest) []).
  set (st2 := Re.State (lastFrom (Re.prev st1) blanks) (String c rest) []).
  set (st3 := Re.State (lastFrom (Re.prev st2) (String c "")) rest []).
  exists (Re.State (Re.prev st3) (Re.rest st3)
                   ((1, Re.consumed st2 st3) :: Re.caps st3)).
  unfold mongoShell.nameAfter. cbn [matches]. exists st1. split.
  { exists kw. repeat split. now apply sameText_upper. }
  exists st2. split.
  { exists blanks. repeat split; [exact Hs |].
    destruct blanks; [now elim Hne | simpl; lia]. }
  exists st3. split; [| reflexivity].
  exists (String c ""). repeat split; [| simpl; lia].
  simpl. now rewrite Hc.
Qed.

Lemma nameAfter_none (k suf : string) (pv : option ascii) :
  Str.toUpperCase k = k ->
  Re.run true (mongoShell.nameAfter k) (Re.State pv suf []) = [] ->
  ~ opensNamed k suf.
Proof.
  intros Hk E H.
  destruct (@opensNamed_matches k suf pv Hk H) as [st' M].
  apply run_matches in M. rewrite E in M. destruct M.
Qed.

(** What [firstName] answers is the whole word at the first place where
    the keyword names one. *)
Lemma firstName_first (k q t : string) :
  Str.toUpperCase k = k ->
  mongoShell.firstName k q = Some t -> firstNamed k q t.
Proof.
  intros Hk. unfold mongoShell.firstName, Re.match_.
  destruct (Re.search true (mongoShell.nameAfter k) None q) as [m|] eqn:E;
    [| discriminate].
  apply search_leftmost in E.
  destruct E as [pre [suf [st' [-> [H [G L]]]]]].
  unfold mongoShell.nameAfter in H.
  apply (@keyword_first k Re.Word _ _ _ Hk) in H.
  destruct H as [kw [blanks [w [post [-> [H1 [H2 [H3 [H4 [H5 [H6 H7]]]]]]]]]]].
  unfold Re.group. rewrite G, H7. intros T. injection T as <-.
  exists pre, kw, blanks, post. repeat split; trivial.
  - destruct post as [|c post]; [reflexivity | exact H6].
  - intros pre' suf' Hs Hl. exact (@nameAfter_none k suf' _ Hk (L _ _ Hs Hl)).
Qed.

(** When [firstName] answers nothing, the keyword names no word. *)
Lemma firstName_none (k q : string) :
  Str.toUpperCase k = k ->
  mongoShell.firstName k q = None -> noneNamed k q.
Proof.
  intros Hk E t [pre [kw [blanks [post [-> [H1 [H2 [H3 [H4 H5]]]]]]]]].
  assert (S : exists m,
             Re.search true (mongoShell.nameAfter k) None
               (pre ++ kw ++ blanks ++ t ++ post) = Some m).
  { apply search_spec. exists pre, (kw ++ blanks ++ t ++ post).
    set (st0 := Re.State (lastFrom None pre) (kw ++ blanks ++ t ++ post) []).
    set (st1 := Re.State (lastFrom (Re.prev st0) kw) (blanks ++ t ++ post) []).
    set (st2 := Re.State (lastFrom (Re.prev st1) blanks) (t ++ post) []).
    set (st3 := Re.State (lastFrom (Re.prev st2) t) post []).
    exists (Re.State (Re.prev st3) (Re.rest st3)
                     ((1, Re.consumed st2 st3) :: Re.caps st3)).
    split; [reflexivity |]. unfold mongoShell.nameAfter. cbn [matches].
    exists st1. split.
    { exists kw. repeat split. now apply sameText_upper. }
    exists st2. split.
    { exists blanks. repeat split; [exact H2 |].
      destruct blanks; [now elim H3 | simpl; lia]. }
    exists st3. split; [| reflexivity].
    exists t. repeat split; [exact H4 |].
    destruct t; [now elim H5 | simpl; lia]. }
  destruct S as [m S].
  assert (N : namesGroup (mongoShell.nameAfter k)) by (repeat constructor).
  destruct (@match_names true _ _ m N S) as [v [Hv _]].
  unfold mongoShell.firstName, Re.match_ in E. rewrite S, Hv in E.
  discriminate E.
Qed.

Lemma extractTableName_named (q : string) :
  tableNamedBy q (mongoShell.extractTableName q).
Proof.
  unfold mongoShell.extractTableName, tableNamedBy.
  destruct (mongoShell.firstName "FROM" q) eqn:E1.
  { left. now apply firstName_first. }
  apply firstName_none in E1; [| reflexivity].
  destruct (mongoShell.firstName "INTO" q) eqn:E2.
  { right; left. split; [exact E1 | now apply firstName_first]. }
  apply firstName_none in E2; [| reflexivity].
  destruct (mongoShell.firstName "UPDATE" q) eqn:E3.
  { right; right; left. repeat split; trivial. now apply firstName_first. }
  apply firstName_none in E3; [| reflexivity].
  destruct (mongoShell.firstName "TABLE" q) eqn:E4.
  { right; right; right; left. repeat split; trivial.
    now apply firstName_first. }
  apply firstName_none in E4; [| reflexivity].
  right; right; right; right. repeat split; trivial.
Qed.

(** C9, as amended.  The shell generator always has a non-empty table
    name.  In a text of ASCII characters it is the whole word at the first
    place where the letters FROM are followed by blanks and a word; when
    FROM names no word, the same with INTO, then with UPDATE, then with
    TABLE; and when none of the four names a word the statement is not
    refused: the name is the placeholder [collection].  The DELETE and
    UPDATE parsers record a table only when their pattern finds one, and
    then it is non-empty; in ASCII text the table of the UPDATE parser is
    the whole word first named by UPDATE. *)
Theorem C9_table_name :
  forall q : string,
    mongoShell.extractTableName q <> ""
    /\ (asciiText q = true ->
        tableNamedBy q (mongoShell.extractTableName q))
    /\ (forall t, deleteParser.table (deleteParser.analyzeQuery q) = Some t ->
                  t <> "")
    /\ (forall t, updateParser.table (updateParser.analyzeQuery q) = Some t ->
                  t <> "")
    /\ (asciiText q = true ->
        forall t, updateParser.table (updateParser.analyzeQuery q) = Some t ->
                  firstNamed "UPDATE" q t).
Proof.
  intros q. split; [| split; [| split; [| split]]].
  - unfold mongoShell.extractTableName.
    destruct (mongoShell.firstName "FROM" q) eqn:E1;
      [exact (@firstName_nonempty _ _ _ E1) |].
    destruct (mongoShell.firstName "INTO" q) eqn:E2;
      [exact (@firstName_nonempty _ _ _ E2) |].
    destruct (mongoShell.firstName "UPDATE" q) eqn:E3;
      [exact (@firstName_nonempty _ _ _ E3) |].
    destruct (mongoShell.firstName "TABLE" q) eqn:E4;
      [exact (@firstName_nonempty _ _ _ E4) | discriminate].
  - intros _. apply extractTableName_named.
  - intros t. unfold deleteParser.analyzeQuery.
    destruct (Str.startsWith _ "DELETE").
    + destruct (negb _); simpl; apply tableOf_nonempty; repeat constructor.
    + destruct (Str.startsWith _ "DROP"); simpl; [| discriminate].
      unfold deleteParser.tableOf.
      destruct (Re.match_ _ _ q) as [m|] eqn:E; [| discriminate].
      apply search_inv in E. destruct E as [pv' [s' [st' [H E]]]].
      unfold Re.group. rewrite E.
      apply run_seq in H. destruct H as [m1 [_ H]].
      apply run_seq in H. destruct H as [m2 [_ H]].
      apply run_seq in H. destruct H as [m3 [_ H]].
      apply run_seq in H. destruct H as [m4 [_ H]].
      assert (Hn : namesGroup (Re.Grp 1 (Re.Many Re.Word 1 true)))
        by constructor.
      destruct (@namesGroup_run true _ Hn _ _ H) as [v [Hv Hne]].
      rewrite Hv. congruence.
  - intros t. change (updateParser.table (updateParser.analyzeQuery q))
      with (mongoShell.firstName "UPDATE" q).
    apply firstName_nonempty.
  - intros _ t. change (updateParser.table (updateParser.analyzeQuery q))
      with (mongoShell.firstName "UPDATE" q).
    now apply firstName_first.
Qed.

Lemma C9_table_name_witness :
  tableNamedBy "SELECT name FROM users WHERE age > 18" "users"
  /\ tableNamedBy "SELECT 1" "collection"
  /\ firstNamed "UPDATE" "UPDATE orders SET total = 0 WHERE id = 7" "orders".
Proof.
  split; [| split].
  - exact (proj1 (proj2 (C9_table_name "SELECT name FROM users WHERE age > 18"))
                 eq_refl).
  - exact (proj1 (proj2 (C9_table_name "SELECT 1")) eq_refl).
  - exact (proj2 (proj2 (proj2 (proj2
             (C9_table_name "UPDATE orders SET total = 0 WHERE id = 7"))))
             eq_refl "orders" eq_refl).
Defined.

(** C9, as stated, fails.  [SELECT 1] names no table after FROM, INTO,
    UPDATE or TABLE; the shell generator does not refuse it, it fills in
    the placeholder and renders a command on the collection [collection].
    And a DELETE whose table is written between backticks passes both
    gates and is posted to the backend with no table recorded. *)
Lemma C9_counterexample :
  (noneNamed "FROM" "SELECT 1" /\ noneNamed "INTO" "SELECT 1"
   /\ noneNamed "UPDATE" "SELECT 1" /\ noneNamed "TABLE" "SELECT 1"
   /\ mongoShell.extractTableName "SELECT 1" = "collection"
   /\ mongoShell.generateLocalAdvanced "SELECT 1"
      = mongoShell.commentHeader "SELECT" "SELECT 1"
        ++ "db.collection.find({});")
  /\ ~ (forall q : string,
          fst (translator.delete accepting allPermissions q []) = Ok tt ->
          exists t, deleteParser.table (deleteParser.analyzeQuery q) = Some t
                    /\ t <> "").
Proof.
  split.
  - repeat split; try (apply firstName_none; reflexivity).
  - intros H.
    destruct (H "DELETE FROM `orders` WHERE id = 1" eq_refl) as [t [H1 _]].
    vm_compute in H1. discriminate H1.
Qed.

(** ** The safety limit of the advanced parser *)

(** C10 at its failing input.  The statement averages [o.total], so it
    holds an aggregate call and the READ parser hands it to the advanced
    parser; but [detectAggregationFunctions] only knows an aggregate of one
    bare column name, the statement counts as no aggregation, scores 7
    (JOIN, subquery, GROUP BY), and is posted with [ LIMIT 500] put after
    it.  With the bare column [total] the same statement is posted as it
    is. *)
Theorem C10_undetected_aggregate_gets_limit :
  forall (response : Type) (server : string -> result response)
         (log : list string),
    let q := "SELECT u.name, AVG(o.total) FROM users u JOIN orders o ON u.id = o.user_id WHERE u.id IN (SELECT user_id FROM vip) GROUP BY u.name" in
    let q' := "SELECT u.name, AVG(total) FROM users u JOIN orders o ON u.id = o.user_id WHERE u.id IN (SELECT user_id FROM vip) GROUP BY u.name" in
    callIn q
    /\ readParser.shouldUseAdvancedParser q = true
    /\ selectParser.detectAggregationFunctions q = false
    /\ selectParser.score (selectParser.features_ (selectParser.deepAnalyze q))
       = 7
    /\ readParser.execute server q log
       = (server (q ++ " LIMIT 500"), List.app log [q ++ " LIMIT 500"])
    /\ readParser.execute server q' log = (server q', List.app log [q']).
Proof.
  intros response server log q q'.
  split; [| split; [| split; [| split; [| split]]]].
  - exists "SELECT u.name, ", "AVG", "",
      "o.total) FROM users u JOIN orders o ON u.id = o.user_id WHERE u.id IN (SELECT user_id FROM vip) GROUP BY u.name".
    repeat split. simpl. tauto.
  - evaluate.
  - evaluate.
  - evaluate.
  - unfold readParser.execute.
    replace (readParser.shouldUseAdvancedParser q) with true by (evaluate).
    rewrite selectParser_execute_sent.
    replace (selectParser.hasAggregation
               (selectParser.features_ (selectParser.deepAnalyze q)))
      with false by (evaluate).
    replace (selectParser.score
               (selectParser.features_ (selectParser.deepAnalyze q)))
      with 7 by (evaluate).
    replace (Re.test true
               (Re.Seq Re.WordB (Re.Seq (Re.Lit "LIMIT") Re.WordB)) q)
      with false by (evaluate).
    reflexivity.
  - unfold readParser.execute.
    replace (readParser.shouldUseAdvancedParser q') with true by (evaluate).
    rewrite selectParser_execute_sent.
    replace (selectParser.hasAggregation
               (selectParser.features_ (selectParser.deepAnalyze q')))
      with true by (evaluate).
    reflexivity.
Qed.

(** * The remaining methods *)

(** ** [updateParser.validateFields] *)

Lemma validateFields_from (fields : list string) :
  forall s w d : list string,
    fold_left
      (fun validation field =>
         let fieldLower := Str.toLowerCase field in
         if Str.member fieldLower updateParser.criticalFields
         then {| updateParser.safe := updateParser.safe validation;
                 updateParser.warning_ := updateParser.warning_ validation;
                 updateParser.dangerous :=
                   (updateParser.dangerous validation ++ [field])%list |}
         else if Str.member fieldLower updateParser.warningFields
         then {| updateParser.safe := updateParser.safe validation;
                 updateParser.warning_ :=
                   (updateParser.warning_ validation ++ [field])%list;
                 updateParser.dangerous := updateParser.dangerous validation |}
         else {| updateParser.safe :=
                   (updateParser.safe validation ++ [field])%list;
                 updateParser.warning_ := updateParser.warning_ validation;
                 updateParser.dangerous := updateParser.dangerous validation |})
      fields (updateParser.Validation s w d)
    = updateParser.Validation
        (s ++ filter (fun f => negb (critical f) && negb (cautioned f)) fields)
        (w ++ filter (fun f => negb (critical f) && cautioned f) fields)
        (d ++ filter critical fields).
Proof.
  induction fields as [|f fields IH]; intros s w d.
  - simpl. now rewrite !app_nil_r.
  - cbn [fold_left filter].
    change (Str.member (Str.toLowerCase f) updateParser.criticalFields)
      with (critical f).
    change (Str.member (Str.toLowerCase f) updateParser.warningFields)
      with (cautioned f).
    destruct (critical f), (cautioned f);
      cbn [updateParser.safe updateParser.warning_ updateParser.dangerous
           negb andb];
      rewrite IH; rewrite <- ?app_assoc; reflexivity.
Qed.

Lemma three_way (A : Type) (p q : A -> bool) (l : list A) :
  Permutation
    (filter p l
     ++ filter (fun x => negb (p x) && q x) l
     ++ filter (fun x => negb (p x) && negb (q x)) l) l.
Proof.
  induction l as [|x l IH]; [constructor |]. simpl.
  destruct (p x); simpl.
  - now constructor.
  - destruct (q x); simpl.
    + symmetry. apply Permutation_cons_app. now symmetry.
    + symmetry. rewrite app_assoc. apply Permutation_cons_app.
      rewrite <- app_assoc. now symmetry.
Qed.

(** X1.  [validateFields] sorts the fields it is given into three lists
    and loses none: [dangerous] holds the fields whose lower-case name is
    one of id, _id, email, password, role, permissions; [warning] those
    among the rest whose lower-case name is one of the four date columns;
    [safe] all the others; each list keeps the order of the input, and the
    three together are a rearrangement of the input. *)
Theorem X1_validateFields_partition :
  forall fields : list string,
    updateParser.dangerous (updateParser.validateFields fields)
    = filter critical fields
    /\ updateParser.warning_ (updateParser.validateFields fields)
       = filter (fun f => negb (critical f) && cautioned f) fields
    /\ updateParser.safe (updateParser.validateFields fields)
       = filter (fun f => negb (critical f) && negb (cautioned f)) fields
    /\ Permutation
         (updateParser.dangerous (updateParser.validateFields fields)
          ++ updateParser.warning_ (updateParser.validateFields fields)
          ++ updateParser.safe (updateParser.validateFields fields))
         fields.
Proof.
  intros fields. unfold updateParser.validateFields.
  rewrite validateFields_from.
  cbn [updateParser.safe updateParser.warning_ updateParser.dangerous app].
  repeat split. apply three_way.
Qed.

(** ** [selectParser.planMongoDBStrategy] and [calculateComplexity] *)

(** X2.  The strategy [planMongoDBStrategy] plans has one stage plus one
    for each of aggregation, GROUP BY, ORDER BY and DISTINCT that the
    analysis found, so between one and five; it asks for a pipeline
    exactly when it counts two stages or more; and it is rated simple up
    to two stages, moderate for three or four, complex for five. *)
Theorem X2_planMongoDBStrategy_stages :
  forall a : selectParser.analysis,
    selectParser.estimatedStages (selectParser.planMongoDBStrategy a)
    = 1 + pipelineConstructs (selectParser.features_ a)
    /\ 1 <= selectParser.estimatedStages (selectParser.planMongoDBStrategy a)
       <= 5
    /\ (selectParser.requiresPipeline (selectParser.planMongoDBStrategy a)
        = true
        <-> 2 <= selectParser.estimatedStages
                   (selectParser.planMongoDBStrategy a))
    /\ (selectParser.complexity_ (selectParser.planMongoDBStrategy a)
        = "simple"
        <-> selectParser.estimatedStages (selectParser.planMongoDBStrategy a)
            <= 2)
    /\ (selectParser.complexity_ (selectParser.planMongoDBStrategy a)
        = "moderate"
        <-> 3 <= selectParser.estimatedStages
                   (selectParser.planMongoDBStrategy a) <= 4)
    /\ (selectParser.complexity_ (selectParser.planMongoDBStrategy a)
        = "complex"
        <-> selectParser.estimatedStages (selectParser.planMongoDBStrategy a)
            = 5).
Proof.
  intros [c [j sq ag gb hv ob w u d] aggs].
  unfold selectParser.planMongoDBStrategy, pipelineConstructs.
  cbn [selectParser.features_ selectParser.hasAggregation
       selectParser.hasGroupBy selectParser.hasOrderBy
       selectParser.hasDistinct selectParser.estimatedStages
       selectParser.requiresPipeline selectParser.complexity_].
  destruct ag, gb, ob, d; simpl;
    repeat split; intros; try lia; try discriminate; try reflexivity.
Qed.

Lemma tier_of_score (f : selectParser.features) :
  tier (selectParser.calculateComplexity f)
  = if selectParser.score f =? 0 then 0
    else if selectParser.score f <=? 3 then 1
    else if selectParser.score f <=? 6 then 2
    else 3.
Proof.
  unfold selectParser.calculateComplexity.
  destruct (selectParser.score f =? 0); [reflexivity |].
  destruct (selectParser.score f <=? 3); [reflexivity |].
  destruct (selectParser.score f <=? 6); reflexivity.
Qed.

Lemma score_mono (f g : selectParser.features) :
  featuresLe f g -> selectParser.score f <= selectParser.score g.
Proof.
  destruct f as [j sq ag gb hv ob w u d], g as [j' sq' ag' gb' hv' ob' w' u' d'].
  unfold featuresLe, selectParser.score. simpl.
  intros [H1 [H2 [H3 [H4 [H5 [H6 [H7 [H8 H9]]]]]]]].
  assert (L : forall (b b' : bool) (n : nat),
             (b = true -> b' = true) ->
             (if b then n else 0) <= (if b' then n else 0)).
  { intros b b' n H. destruct b; [rewrite H by reflexivity; lia |].
    destruct b'; lia. }
  pose proof (L _ _ 2 H1). pose proof (L _ _ 3 H2). pose proof (L _ _ 1 H3).
  pose proof (L _ _ 2 H4). pose proof (L _ _ 2 H5). pose proof (L _ _ 1 H6).
  pose proof (L _ _ 4 H7). pose proof (L _ _ 2 H8). pose proof (L _ _ 1 H9).
  lia.
Qed.

(** X3.  The rating of [calculateComplexity] never goes down when a query
    has more constructs: if every construct found in [f] is also found in
    [g], the rating of [g] is the same tier or a higher one, in the order
    simple, moderate, complex, very_complex. *)
Theorem X3_calculateComplexity_monotone :
  forall f g : selectParser.features,
    featuresLe f g ->
    tier (selectParser.calculateComplexity f)
    <= tier (selectParser.calculateComplexity g).
Proof.
  intros f g H. apply score_mono in H. rewrite !tier_of_score.
  destruct (selectParser.score f =? 0) eqn:F0;
    destruct (selectParser.score g =? 0) eqn:G0;
    destruct (selectParser.score f <=? 3) eqn:F3;
    destruct (selectParser.score g <=? 3) eqn:G3;
    destruct (selectParser.score f <=? 6) eqn:F6;
    destruct (selectParser.score g <=? 6) eqn:G6;
    try lia;
    rewrite ?Nat.eqb_eq, ?Nat.eqb_neq, ?Nat.leb_le, ?Nat.leb_gt in *; lia.
Qed.

Lemma X3_calculateComplexity_monotone_witness :
  tier (selectParser.calculateComplexity
          (selectParser.Features true false false false false true false
                                 false false))
  <= tier (selectParser.calculateComplexity
             (selectParser.Features true true false true false true false
                                    false false)).
Proof.
  apply X3_calculateComplexity_monotone.
  unfold featuresLe. simpl. repeat split; intros H; (exact H || reflexivity).
Defined.

(** ** [parseWhereConditions] and the ORDER BY parsers *)

Lemma nonEmpty_true (s : string) : Str.nonEmpty s = true <-> s <> "".
Proof. destruct s; simpl; split; congruence. Qed.

Lemma trimmed_pieces (l : list string) (c : string) :
  In c (filter Str.nonEmpty (List.map Str.trim l)) ->
  c <> "" /\ Str.trim c = c.
Proof.
  intros H. apply filter_In in H. destruct H as [H Hn].
  apply in_map_iff in H. destruct H as [x [<- _]].
  split; [now apply nonEmpty_true | apply trim_idem].
Qed.

(** X4.  Every condition [parseWhereConditions] returns, in the READ
    parser and in the UPDATE parser, is non-empty and has no blank at
    either end; so are the conditions the two analyses record. *)
Theorem X4_parseWhereConditions_clean :
  forall w c : string,
    In c (readParser.parseWhereConditions w)
    \/ In c (updateParser.parseWhereConditions w)
    \/ In c (readParser.conditions (readParser.analyzeSimpleQuery w))
    \/ In c (updateParser.conditions (updateParser.analyzeQuery w)) ->
    c <> "" /\ Str.trim c = c.
Proof.
  intros w c [H | [H | [H | H]]].
  - exact (trimmed_pieces _ _ H).
  - exact (trimmed_pieces _ _ H).
  - unfold readParser.analyzeSimpleQuery in H.
    cbn [readParser.conditions] in H.
    destruct (Str.includes _ "WHERE"); [| destruct H].
    destruct (Re.match_ _ _ w) as [m|]; [| destruct H].
    destruct (Re.group 1 m) as [g|]; [| destruct H].
    exact (trimmed_pieces _ _ H).
  - unfold updateParser.analyzeQuery in H.
    cbn [updateParser.conditions] in H.
    destruct (Str.includes _ "WHERE"); [| destruct H].
    destruct (Re.match_ true _ w) as [m|]; [| destruct H].
    destruct (Re.group 1 m) as [g|]; [| destruct H].
    exact (trimmed_pieces _ _ H).
Qed.

Lemma X4_parseWhereConditions_clean_witness :
  "b > 2" <> "" /\ Str.trim "b > 2" = "b > 2".
Proof.
  apply (X4_parseWhereConditions_clean "a = 1   AND  b > 2  or c = 3" "b > 2").
  left. vm_compute. right. left. reflexivity.
Defined.

Lemma orderKey_same (x : string) :
  (readParser.field (readParser.orderKeyOf (Str.trim x)),
   readParser.direction (readParser.orderKeyOf (Str.trim x)))
  = (mongoShell.key (mongoShell.sortKeyOf x),
     mongoShell.direction (mongoShell.sortKeyOf x)).
Proof.
  unfold readParser.orderKeyOf, mongoShell.sortKeyOf.
  cbn [readParser.field readParser.direction mongoShell.key
       mongoShell.direction].
  now rewrite trim_idem.
Qed.

Lemma orderKeyOf_direction (x : string) :
  (readParser.direction (readParser.orderKeyOf x) = "ASC"
   /\ readParser.mongoDirection (readParser.orderKeyOf x) = 1%Z)
  \/ (readParser.direction (readParser.orderKeyOf x) = "DESC"
      /\ readParser.mongoDirection (readParser.orderKeyOf x) = (-1)%Z).
Proof.
  unfold readParser.orderKeyOf.
  cbn [readParser.direction readParser.mongoDirection].
  destruct (Re.split false _ (Str.trim x)) as [|a [|d l]];
    [now left | now left |].
  destruct (String.eqb (Str.toUpperCase d) "DESC"); [now right | now left].
Qed.

Lemma parseOrderBy_same (q : string) :
  List.map (fun k => (readParser.field k, readParser.direction k))
           (readParser.parseOrderBy q)
  = match mongoShell.extractOrderBy q with
    | Some keys =>
        List.map (fun k => (mongoShell.key k, mongoShell.direction k)) keys
    | None => []
    end.
Proof.
  unfold readParser.parseOrderBy, mongoShell.extractOrderBy.
  change readParser.orderByPattern
    with (Re.Seq (Re.Lit "ORDER")
            (Re.Seq (Re.Many Re.Space 1 true)
               (Re.Seq (Re.Lit "BY")
                  (Re.Seq (Re.Many Re.Space 1 true)
                     (Re.Seq (Re.Grp 1 (Re.Many Re.Any 1 false))
                        (Re.Alt
                           (Re.Seq (Re.Many Re.Space 1 true) (Re.Lit "LIMIT"))
                           (Re.Alt
                              (Re.Seq (Re.Many Re.Space 0 true) (Re.Lit ";"))
                              (Re.Seq (Re.Many Re.Space 0 true) Re.Eoi)))))))).
  destruct (Re.match_ true _ q) as [m|]; [| reflexivity].
  destruct (Re.group 1 m) as [c|]; [| reflexivity].
  rewrite !map_map. apply map_ext. intros x. apply orderKey_same.
Qed.

(** X5.  [readParser.parseOrderBy] and the shell generator's
    [extractOrderBy] read the same ORDER BY keys off every query, with the
    same directions (the one answers an empty list where the other answers
    [null]); each key is ASC with [mongoDirection] 1 or DESC with
    [mongoDirection] -1. *)
Theorem X5_parseOrderBy_agrees :
  forall q : string,
    List.map (fun k => (readParser.field k, readParser.direction k))
             (readParser.parseOrderBy q)
    = match mongoShell.extractOrderBy q with
      | Some keys =>
          List.map (fun k => (mongoShell.key k, mongoShell.direction k)) keys
      | None => []
      end
    /\ (forall k : readParser.orderKey,
          In k (readParser.parseOrderBy q) ->
          (readParser.direction k = "ASC"
           /\ readParser.mongoDirection k = 1%Z)
          \/ (readParser.direction k = "DESC"
              /\ readParser.mongoDirection k = (-1)%Z)).
Proof.
  intros q. split; [apply parseOrderBy_same |].
  unfold readParser.parseOrderBy.
  destruct (Re.match_ true _ q) as [m|]; [| intros k []].
  destruct (Re.group 1 m) as [c|]; [| intros k []].
  intros k H. apply in_map_iff in H. destruct H as [x [<- _]].
  apply orderKeyOf_direction.
Qed.

Lemma splitChar_length (sep : ascii) (s : string) :
  1 <= List.length (Str.splitChar sep s).
Proof.
  induction s as [|c s IH]; simpl; [lia |].
  destruct (Ascii.eqb c sep); simpl; [lia |].
  destruct (Str.splitChar sep s); simpl; lia.
Qed.

Lemma select_orderKeyOf_direction (x : string) :
  (selectParser.direction (selectParser.orderKeyOf x) = "ASC"
   /\ selectParser.mongoDirection (selectParser.orderKeyOf x) = 1%Z)
  \/ (selectParser.direction (selectParser.orderKeyOf x) = "DESC"
      /\ selectParser.mongoDirection (selectParser.orderKeyOf x) = (-1)%Z).
Proof.
  unfold selectParser.orderKeyOf.
  cbn [selectParser.direction selectParser.mongoDirection].
  destruct (Re.split false _ x) as [|a [|d l]];
    [now left | now left |].
  destruct (String.eqb (Str.toUpperCase d) "DESC"); [now right | now left].
Qed.

(** X6.  [selectParser.parseOrderByClause] answers no key for a missing
    clause and for an empty one; for any other clause it answers one key
    per comma-separated item, so at least one, each ASC with
    [mongoDirection] 1 or DESC with [mongoDirection] -1.  The clause
    [extractOrderByClause] hands it has no blank at either end. *)
Theorem X6_parseOrderByClause_keys :
  forall (q : string) (clause : option string),
    selectParser.parseOrderByClause None = []
    /\ selectParser.parseOrderByClause (Some "") = []
    /\ (forall c : string,
          c <> "" ->
          List.length (selectParser.parseOrderByClause (Some c))
          = List.length (Str.splitChar "," c)
          /\ 1 <= List.length (selectParser.parseOrderByClause (Some c)))
    /\ (forall k : selectParser.orderKey,
          In k (selectParser.parseOrderByClause clause) ->
          (selectParser.direction k = "ASC"
           /\ selectParser.mongoDirection k = 1%Z)
          \/ (selectParser.direction k = "DESC"
              /\ selectParser.mongoDirection k = (-1)%Z))
    /\ (forall c : string,
          selectParser.extractOrderByClause q = Some c -> Str.trim c = c).
Proof.
  intros q clause. split; [reflexivity |]. split; [reflexivity |].
  split; [| split].
  - intros c Hc. destruct c as [|x c]; [now elim Hc |].
    unfold selectParser.parseOrderByClause. rewrite !length_map.
    split; [reflexivity | apply splitChar_length].
  - intros k H. destruct clause as [[|x c] |]; try destruct H.
    unfold selectParser.parseOrderByClause in H.
    apply in_map_iff in H. destruct H as [y [<- _]].
    apply select_orderKeyOf_direction.
  - intros c. unfold selectParser.extractOrderByClause.
    destruct (Re.match_ true _ q) as [m|]; [| discriminate].
    destruct (Re.group 1 m) as [g|]; [| discriminate].
    simpl. intros H. injection H as <-. apply trim_idem.
Qed.

(** ** [selectParser.extractAllTables] *)

(** Every result of [exec] on a [g] pattern is a match of the pattern
    somewhere in the text. *)
Lemma execAll_reports (ci : bool) (r : Re.regex) (s : string) :
  forall (pv : option ascii) (skip : nat) (m : Re.found),
    In m (Re.execAll ci r pv s skip) ->
    exists pre suf st',
      s = pre ++ suf
      /\ matches ci r (Re.State (lastFrom pv pre) suf []) st'
      /\ Re.groups m = Re.caps st'.
Proof.
  induction s as [|c s IH]; intros pv skip m H.
  - destruct skip as [|k]; [| destruct H]. cbn [Re.execAll] in H.
    unfold Re.at_ in H.
    destruct (Re.run ci r (Re.State pv "" [])) as [|st' l] eqn:E;
      cbn [hd_error] in H; [destruct H |].
    destruct H as [<- | []]. exists "", "", st'. split; [reflexivity |].
    split; [| reflexivity]. apply run_matches. simpl. rewrite E. now left.
  - assert (Later : forall k, In m (Re.execAll ci r (Some c) s k) ->
              exists pre suf st',
                String c s = pre ++ suf
                /\ matches ci r (Re.State (lastFrom pv pre) suf []) st'
                /\ Re.groups m = Re.caps st').
    { intros k Hk. apply IH in Hk. destruct Hk as [pre [suf [st' [-> [Hm G]]]]].
      exists (String c pre), suf, st'. auto. }
    destruct skip as [|k]; [| exact (Later _ H)].
    cbn [Re.execAll] in H. unfold Re.at_ in H.
    destruct (Re.run ci r (Re.State pv (String c s) [])) as [|st' l] eqn:E;
      cbn [hd_error] in H; [exact (Later _ H) |].
    destruct H as [<- | H]; [| exact (Later _ H)].
    exists "", (String c s), st'. split; [reflexivity |].
    split; [| reflexivity]. apply run_matches. simpl. rewrite E. now left.
Qed.

(** What a match of [/KEYWORD\s+(\w+)/i] says about the text it is found
    in. *)
Lemma nameAfter_matches (k pre suf t : string) (st' : Re.state) :
  Str.toUpperCase k = k ->
  matches true (mongoShell.nameAfter k)
          (Re.State (lastFrom None pre) suf []) st' ->
  Re.lookup 1 (Re.caps st') = Some t ->
  namedAfter k (pre ++ suf) t.
Proof.
  intros Hk H. unfold mongoShell.nameAfter in H. cbn [matches] in H.
  destruct H as [m1 [[kw [Hr1 [Hkw _]]] [m2 [[blanks [Hr2 [Hb [Hl _]]]] H]]]].
  destruct H as [e [[w [Hr3 [Hw [Hlw _]]]] ->]].
  cbn [Re.rest Re.caps Re.lookup Nat.eqb] in *.
  intros Ht. injection Ht as <-.
  rewrite (@consumed_app m2 e w Hr3).
  exists pre, kw, blanks, (Re.rest e).
  rewrite Hr1, Hr2, Hr3. split; [reflexivity |].
  split; [exact (proj1 (@sameText_upper kw k Hk) Hkw) |].
  split; [exact Hb |]. split; [intros ->; simpl in Hl; lia |].
  split; [exact Hw |]. intros ->. simpl in Hlw. lia.
Qed.

Lemma namedAfter_nonempty (k q t : string) : namedAfter k q t -> t <> "".
Proof. intros [pre [kw [blanks [post H]]]]. tauto. Qed.

Lemma member_In (x : string) (l : list string) :
  Str.member x l = true <-> In x l.
Proof.
  unfold Str.member. rewrite existsb_exists. split.
  - intros [y [H E]]. apply String.eqb_eq in E. now subst y.
  - intros H. exists x. split; [exact H | apply String.eqb_refl].
Qed.

Lemma add_In (x y : string) (l : list string) :
  In y (selectParser.add x l) <-> y = x \/ In y l.
Proof.
  unfold selectParser.add. destruct (Str.member x l) eqn:E.
  - apply member_In in E. split; [auto |]. intros [-> | H]; assumption.
  - rewrite in_app_iff. simpl. intuition congruence.
Qed.

Lemma add_NoDup (x : string) (l : list string) :
  NoDup l -> NoDup (selectParser.add x l).
Proof.
  intros H. unfold selectParser.add. destruct (Str.member x l) eqn:E;
    [exact H |].
  assert (Hx : ~ In x l)
    by (intros Hin; apply member_In in Hin; congruence).
  apply NoDup_app; [exact H | repeat constructor; intros [] |].
  intros y Hy [<- | []]. exact (Hx Hy).
Qed.

Lemma add_hd (x t : string) (l : list string) :
  hd_error l = Some t -> hd_error (selectParser.add x l) = Some t.
Proof.
  unfold selectParser.add. destruct (Str.member x l); [trivial |].
  destruct l; [discriminate | trivial].
Qed.

(** The loop over the JOIN matches, from any set of tables. *)
Lemma joins_fold (P : string -> Prop) (ms : list Re.found) :
  (forall m t, In m ms -> Re.group 1 m = Some t -> P t) ->
  forall tables : list string,
    NoDup tables -> (forall t, In t tables -> P t) ->
    let out :=
      fold_left (fun tables m =>
                   match Re.group 1 m with
                   | Some t => selectParser.add t tables
                   | None => tables
                   end) ms tables in
    NoDup out /\ (forall t, In t out -> P t).
Proof.
  induction ms as [|m ms IH]; intros Hms tables Hn Hp.
  - simpl. auto.
  - cbn [fold_left]. cbv zeta. apply IH.
    + intros m' t Hm'. apply Hms. now right.
    + destruct (Re.group 1 m); [now apply add_NoDup | exact Hn].
    + intros t Ht. destruct (Re.group 1 m) as [u|] eqn:E; [| now apply Hp].
      apply add_In in Ht. destruct Ht as [-> | Ht]; [| now apply Hp].
      apply (Hms m u); [now left | exact E].
Qed.

Lemma joins_fold_hd (ms : list Re.found) :
  forall (tables : list string) (t : string),
    hd_error tables = Some t ->
    hd_error
      (fold_left (fun tables m =>
                    match Re.group 1 m with
                    | Some t => selectParser.add t tables
                    | None => tables
                    end) ms tables) = Some t.
Proof.
  induction ms as [|m ms IH]; intros tables t H; [exact H |].
  cbn [fold_left]. apply IH.
  destruct (Re.group 1 m); [now apply add_hd | exact H].
Qed.

(** X7.  [extractAllTables] lists no table twice; every table it lists is
    a non-empty word of the query that follows FROM or JOIN (in any letter
    case) and some blanks; and when a word follows FROM, the first such
    word heads the list. *)
Theorem X7_extractAllTables_set :
  forall q : string,
    NoDup (selectParser.extractAllTables q)
    /\ (forall t : string,
          In t (selectParser.extractAllTables q) ->
          t <> "" /\ (namedAfter "FROM" q t \/ namedAfter "JOIN" q t))
    /\ (forall t : string,
          mongoShell.firstName "FROM" q = Some t ->
          hd_error (selectParser.extractAllTables q) = Some t).
Proof.
  intros q. unfold selectParser.extractAllTables.
  set (P := fun t => t <> "" /\ (namedAfter "FROM" q t \/ namedAfter "JOIN" q t)).
  set (from := Re.match_ true _ q).
  set (ms := Re.execAll true _ None q 0).
  assert (Hms : forall m t, In m ms -> Re.group 1 m = Some t -> P t).
  { intros m t Hm Ht. apply execAll_reports in Hm.
    destruct Hm as [pre [suf [st' [Hq [Hm G]]]]].
    unfold Re.group in Ht. rewrite G in Ht.
    assert (N : namedAfter "JOIN" q t)
      by (rewrite Hq; exact (@nameAfter_matches "JOIN" pre suf t st' eq_refl Hm Ht)).
    split; [exact (namedAfter_nonempty N) | now right]. }
  assert (Hfrom : forall m t, from = Some m -> Re.group 1 m = Some t -> P t).
  { intros m t Hm Ht.
    assert (N : namedAfter "FROM" q t).
    { apply firstName_named; [reflexivity |].
      unfold mongoShell.firstName. fold from. subst from.
      change (mongoShell.nameAfter "FROM")
        with (Re.Seq (Re.Lit "FROM")
                (Re.Seq (Re.Many Re.Space 1 true)
                   (Re.Grp 1 (Re.Many Re.Word 1 true)))).
      now rewrite Hm. }
    split; [exact (namedAfter_nonempty N) | now left]. }
  set (tables := match from with
                 | Some fromMatch =>
                     match Re.group 1 fromMatch with
                     | Some t => selectParser.add t []
                     | None => []
                     end
                 | None => []
                 end).
  assert (Hn : NoDup tables).
  { subst tables. destruct from as [m|]; [| constructor].
    destruct (Re.group 1 m); [apply add_NoDup |]; constructor. }
  assert (Hp : forall t, In t tables -> P t).
  { subst tables. intros t Ht. destruct from as [m|] eqn:E; [| destruct Ht].
    destruct (Re.group 1 m) as [u|] eqn:G; [| destruct Ht].
    destruct Ht as [<- | []]. exact (Hfrom m u eq_refl G). }
  destruct (@joins_fold P ms Hms tables Hn Hp) as [H1 H2].
  split; [exact H1 |]. split; [exact H2 |].
  intros t Ht. apply joins_fold_hd.
  unfold mongoShell.firstName in Ht. subst tables. fold from in Ht.
  change (mongoShell.nameAfter "FROM")
    with (Re.Seq (Re.Lit "FROM")
            (Re.Seq (Re.Many Re.Space 1 true)
               (Re.Grp 1 (Re.Many Re.Word 1 true)))) in Ht.
  fold from in Ht. destruct from as [m|]; [| discriminate Ht].
  rewrite Ht. reflexivity.
Qed.

(** ** Previews: [updateParser.generatePreviewQuery] and
       [deleteParser.convertToPreview] *)

(** A text that opens with [SELECT * FROM] passes the READ syntax check,
    whatever follows. *)
Lemma select_from_valid (x : string) :
  readParser.validateSyntax ("SELECT * FROM" ++ x) = Ok tt.
Proof.
  assert (T : exists t, Str.trim ("SELECT * FROM" ++ x) = "SELECT * FROM" ++ t).
  { unfold Str.trim.
    change (Str.trimStart ("SELECT * FROM" ++ x)) with ("SELECT * FROM" ++ x).
    change ("SELECT * FROM" ++ x) with ("SELECT * FRO" ++ String "M" x).
    destruct (@trimEnd_prefix "SELECT * FRO" "M" x eq_refl) as [t ->].
    now exists t. }
  destruct T as [t T]. unfold readParser.validateSyntax. rewrite T.
  rewrite toUpperCase_app.
  change (Str.toUpperCase "SELECT * FROM") with ("SELECT * " ++ "FROM" ++ "").
  rewrite !append_assoc.
  rewrite includes_append. reflexivity.
Qed.

Lemma validateSyntax_pattern (q : string) :
  updateParser.validateSyntax q = Ok tt ->
  Re.test true updateParser.basicPattern q = true.
Proof.
  unfold updateParser.validateSyntax.
  destruct (Str.startsWith _ "UPDATE"); [| discriminate].
  destruct (Str.includes _ "SET"); [| discriminate].
  now destruct (Re.test true updateParser.basicPattern q).
Qed.

(** A statement with the shape the UPDATE syntax check asks for names its
    table. *)
Lemma update_names_table (q : string) :
  Re.test true updateParser.basicPattern q = true ->
  exists t, updateParser.table (updateParser.analyzeQuery q) = Some t
            /\ t <> "".
Proof.
  intros H. apply test_spec in H.
  destruct H as [pre [suf [st' [Hq H]]]].
  unfold updateParser.basicPattern in H. cbn [matches] in H.
  destruct H as [m1 [H1 [m2 [H2 [m3 [H3 _]]]]]].
  assert (S : exists m,
             Re.search true
               (Re.Seq (Re.Lit "UPDATE")
                  (Re.Seq (Re.Many Re.Space 1 true)
                     (Re.Grp 1 (Re.Many Re.Word 1 true)))) None q = Some m).
  { apply search_spec. exists pre, suf.
    exists (Re.State (Re.prev m3) (Re.rest m3)
                     ((1, Re.consumed m2 m3) :: Re.caps m3)).
    split; [exact Hq |]. cbn [matches].
    exists m1. split; [exact H1 |]. exists m2. split; [exact H2 |].
    exists m3. split; [exact H3 | reflexivity]. }
  destruct S as [m S].
  assert (N : namesGroup (Re.Seq (Re.Lit "UPDATE")
                            (Re.Seq (Re.Many Re.Space 1 true)
                               (Re.Grp 1 (Re.Many Re.Word 1 true)))))
    by repeat constructor.
  destruct (@match_names true _ q m N S) as [v [Hv Hne]].
  exists v. split; [| exact Hne].
  unfold updateParser.analyzeQuery. cbn [updateParser.table].
  unfold Re.match_. now rewrite S.
Qed.

(** X8.  [generatePreviewQuery] answers the SELECT that shows what an
    UPDATE would touch: when the analysis of the statement finds its
    table, the preview is [SELECT * FROM] that table, then the WHERE
    clause if one is found, then [LIMIT 100;], and it passes the syntax
    check of the READ parser; when no table is found it is the fixed
    message.  Every statement that passes the UPDATE syntax check has a
    table, hence a preview. *)
Theorem X8_generatePreviewQuery_select :
  forall q : string,
    (updateParser.table (updateParser.analyzeQuery q) = None ->
     updateParser.generatePreviewQuery q
     = "No se puede generar previsualización")
    /\ (forall t : string,
          updateParser.table (updateParser.analyzeQuery q) = Some t ->
          (updateParser.generatePreviewQuery q
           = "SELECT * FROM " ++ t ++ " LIMIT 100;"
           \/ exists w : string,
                updateParser.generatePreviewQuery q
                = "SELECT * FROM " ++ t ++ " WHERE " ++ w ++ " LIMIT 100;")
          /\ readParser.validateSyntax (updateParser.generatePreviewQuery q)
             = Ok tt)
    /\ (updateParser.validateSyntax q = Ok tt ->
        exists t : string,
          updateParser.table (updateParser.analyzeQuery q) = Some t
          /\ t <> "")
    /\ updateParser.convertToPreview q = updateParser.generatePreviewQuery q.
Proof.
  intros q. split; [| split; [| split; [| reflexivity]]].
  - unfold updateParser.analyzeQuery, updateParser.generatePreviewQuery.
    cbn [updateParser.table].
    destruct (Re.match_ true _ q) as [m|] eqn:E; [| reflexivity].
    assert (N : namesGroup (Re.Seq (Re.Lit "UPDATE")
                              (Re.Seq (Re.Many Re.Space 1 true)
                                 (Re.Grp 1 (Re.Many Re.Word 1 true)))))
      by repeat constructor.
    destruct (@match_names true _ q m N E) as [v [Hv _]]. congruence.
  - intros t. unfold updateParser.analyzeQuery.
    cbn [updateParser.table]. intros Ht.
    assert (E : exists wc,
               updateParser.generatePreviewQuery q
               = "SELECT * FROM " ++ t ++ wc ++ " LIMIT 100;"
               /\ (wc = "" \/ exists w, wc = " WHERE " ++ w)).
    { unfold updateParser.generatePreviewQuery.
      destruct (Re.match_ true
                  (Re.Seq (Re.Lit "UPDATE")
                     (Re.Seq (Re.Many Re.Space 1 true)
                        (Re.Grp 1 (Re.Many Re.Word 1 true)))) q) as [m|];
        [| discriminate Ht].
      rewrite Ht.
      destruct (Re.match_ true _ q) as [wm|].
      - eexists. split; [reflexivity |]. right. eexists. reflexivity.
      - exists "". split; [reflexivity | now left]. }
    destruct E as [wc [E Hwc]]. rewrite E. split.
    + destruct Hwc as [-> | [w ->]]; [now left |]. right. exists w.
      now rewrite !append_assoc.
    + change ("SELECT * FROM " ++ t ++ wc ++ " LIMIT 100;")
        with ("SELECT * FROM" ++ String " " (t ++ wc ++ " LIMIT 100;")).
      apply select_from_valid.
  - intros H. apply update_names_table, validateSyntax_pattern, H.
Qed.


Lemma eat_same (ci : bool) (p w s : string) (pv : option ascii) :
  sameText ci w p = true ->
  Re.eat ci p pv (w ++ s) = Some (lastFrom pv w, s).
Proof. intros H. apply eat_spec. now exists w. Qed.

Lemma blank_is_no_letter (c : ascii) (l : ascii) :
  Char.is_space c = true -> Char.is_word l = true -> Char.eqb_ci l c = false.
Proof.
  intros Hc Hl. unfold Char.eqb_ci. apply Ascii.eqb_neq. intros E.
  assert (H : Char.is_space (Char.toUpper l) = true)
    by (rewrite E, is_space_upper; exact Hc).
  rewrite is_space_upper in H. clear E Hc.
  destruct l as [[] [] [] [] [] [] [] []]; vm_compute in Hl, H; congruence.
Qed.

(** The scan for the first DELETE FROM steps over leading blanks. *)
Lemma replaceFirst_skips (r : Re.regex) (by_ : string) (a : string) :
  (forall (c : ascii) (s : string) (pv : option ascii),
      Char.is_space c = true -> Re.at_ true r pv (String c s) = None) ->
  allIn Re.Space a = true ->
  forall (s : string) (pv : option ascii),
    Re.replaceFirstGo true r by_ pv (a ++ s)
    = option_map (append a) (Re.replaceFirstGo true r by_ (lastFrom pv a) s).
Proof.
  intros Hr. induction a as [|c a IH]; intros Ha s pv.
  - simpl. now destruct (Re.replaceFirstGo true r by_ pv s).
  - simpl in Ha. apply andb_true_iff in Ha. destruct Ha as [Hc Ha].
    change (String c a ++ s) with (String c (a ++ s)).
    cbn [Re.replaceFirstGo]. rewrite (Hr c (a ++ s) pv Hc).
    rewrite (IH Ha). simpl.
    now destruct (Re.replaceFirstGo true r by_ (lastFrom (Some c) a) s).
Qed.

Lemma delete_from_not_at_blank (c : ascii) (s : string) (pv : option ascii) :
  Char.is_space c = true ->
  Re.at_ true (Re.Seq (Re.Lit "DELETE")
                 (Re.Seq (Re.Many Re.Space 1 true) (Re.Lit "FROM")))
         pv (String c s) = None.
Proof.
  intros Hc. unfold Re.at_. cbn [Re.run Re.prev Re.rest Re.eat].
  now rewrite (@blank_is_no_letter c "D" Hc eq_refl).
Qed.

(** Where the text reads DELETE, one blank, FROM, the pattern matches just
    that. *)
Lemma delete_from_at (kw rest : string) (pv : option ascii) :
  Str.toUpperCase kw = "DELETE FROM" ->
  exists pv',
    Re.at_ true (Re.Seq (Re.Lit "DELETE")
                   (Re.Seq (Re.Many Re.Space 1 true) (Re.Lit "FROM")))
           pv (kw ++ rest) = Some (Re.State pv' rest []).
Proof.
  intros H.
  destruct (@toUpperCase_split "DELETE" kw " FROM" H) as [k1 [r1 [-> [H1 Hr1]]]].
  destruct r1 as [|b k2]; [discriminate Hr1 |].
  change (Str.toUpperCase (String b k2))
    with (String (Char.toUpper b) (Str.toUpperCase k2)) in Hr1.
  injection Hr1 as Hb H2. apply toUpper_blank in Hb. subst b.
  destruct k2 as [|f k2]; [discriminate H2 |].
  assert (Hf : Char.is_space f = false).
  { change (Str.toUpperCase (String f k2))
      with (String (Char.toUpper f) (Str.toUpperCase k2)) in H2.
    injection H2 as Hf _. rewrite <- is_space_upper, Hf. reflexivity. }
  unfold Re.at_. cbn [Re.run Re.prev Re.rest Re.caps].
  rewrite !append_assoc.
  rewrite (@eat_same true "DELETE" k1 _ pv)
    by (apply sameText_upper; [reflexivity | exact H1]).
  cbn [flat_map app Re.run Re.prev Re.rest Re.caps].
  change (String " " (String f k2) ++ rest)
    with (String " " (String f (k2 ++ rest))).
  unfold Re.many. cbn [Re.prev Re.rest Re.caps Re.spans Re.mem].
  change (Char.is_space " ") with true. cbv iota.
  cbn [Re.spans Re.mem]. rewrite Hf.
  cbn [skipn rev app List.map fst snd flat_map Re.run Re.prev Re.rest Re.caps].
  change (String f (k2 ++ rest)) with (String f k2 ++ rest).
  rewrite (@eat_same true "FROM" (String f k2) rest (Some " "%char))
    by (apply sameText_upper; [reflexivity | exact H2]).
  cbn [app hd_error]. eexists. reflexivity.
Qed.

(** X9.  [deleteParser.convertToPreview] leaves a statement as it is
    unless its trimmed text opens with DELETE, one blank, FROM (in any
    letter case); then it puts [SELECT * FROM] in the place of those
    words and keeps everything around them, leading blanks included, and
    what it answers passes the syntax check of the READ parser. *)
Theorem X9_convertToPreview_select :
  forall q : string,
    (Str.startsWith (Str.toUpperCase (Str.trim q)) "DELETE FROM" = false ->
     deleteParser.convertToPreview q = q)
    /\ (Str.startsWith (Str.toUpperCase (Str.trim q)) "DELETE FROM" = true ->
        exists blanks kw rest : string,
          q = blanks ++ kw ++ rest
          /\ allIn Re.Space blanks = true
          /\ Str.toUpperCase kw = "DELETE FROM"
          /\ deleteParser.convertToPreview q
             = blanks ++ "SELECT * FROM" ++ rest
          /\ readParser.validateSyntax (deleteParser.convertToPreview q)
             = Ok tt).
Proof.
  intros q. unfold deleteParser.convertToPreview. split.
  - now intros ->.
  - intros G. rewrite G.
    destruct (trim_split q) as [a [b [Hq [Ha Hb]]]].
    apply startsWith_spec in G. destruct G as [r' G].
    destruct (@toUpperCase_split "DELETE FROM" _ r' G) as [kw [r [Ht [Hk _]]]].
    rewrite Ht, append_assoc in Hq.
    exists a, kw, (r ++ b). split; [exact Hq |]. split; [exact Ha |].
    split; [exact Hk |].
    assert (E : Re.replaceFirst true
                  (Re.Seq (Re.Lit "DELETE")
                     (Re.Seq (Re.Many Re.Space 1 true) (Re.Lit "FROM")))
                  "SELECT * FROM" q
                = a ++ "SELECT * FROM" ++ r ++ b).
    { unfold Re.replaceFirst. rewrite Hq at 1.
      rewrite (@replaceFirst_skips _ "SELECT * FROM" a
                 delete_from_not_at_blank Ha).
      destruct (@delete_from_at kw (r ++ b) (lastFrom None a) Hk) as [pv' E].
      destruct kw as [|k kw]; [discriminate Hk |].
      change (String k kw ++ r ++ b) with (String k (kw ++ r ++ b)) in *.
      cbn [Re.replaceFirstGo]. rewrite E. reflexivity. }
    rewrite E. split; [reflexivity |].
    unfold readParser.validateSyntax, Str.trim.
    rewrite (@trimStart_blank a _ Ha).
    fold (Str.trim ("SELECT * FROM" ++ r ++ b)).
    exact (select_from_valid (r ++ b)).
Qed.

(** ** The READ parser's advice: [validateSimpleQuery],
       [optimizeSimpleQuery] and the analysis behind them *)

(** X10.  [validateSimpleQuery] calls a query valid exactly when the READ
    parser would keep it on the simple path and accept its syntax; for
    such a query [execute] posts the text as it is.  For a query the
    simple path would refuse, the message of the error [execute] throws
    is among the issues reported, and nothing is posted. *)
Theorem X10_validateSimpleQuery_predicts_execute :
  forall (response : Type) (server : string -> result response)
         (q : string) (log : list string),
    (readParser.isValid (readParser.validateSimpleQuery q) = true
     <-> readParser.shouldUseAdvancedParser q = false
         /\ readParser.validateSyntax q = Ok tt)
    /\ (readParser.isValid (readParser.validateSimpleQuery q) = true ->
        readParser.execute server q log = (server q, (log ++ [q])%list))
    /\ (readParser.shouldUseAdvancedParser q = false ->
        readParser.isValid (readParser.validateSimpleQuery q) = false ->
        exists e : error,
          readParser.execute server q log = (Throw e, log)
          /\ In (message e)
                (readParser.issues (readParser.validateSimpleQuery q))).
Proof.
  intros response server q log.
  unfold readParser.validateSimpleQuery, readParser.execute,
    translatorAPI.bind, translatorAPI.lift, translatorAPI.executeSelect,
    translatorAPI.translateAndExecute.
  cbn [readParser.isValid readParser.issues].
  destruct (readParser.shouldUseAdvancedParser q);
    destruct (readParser.validateSyntax q) as [[] | e]; simpl;
    (split; [split; [intros H | intros [H1 H2]] | split; intros H]);
    try discriminate; try reflexivity; try (split; reflexivity).
  intros _. exists e. split; [reflexivity | now left].
Qed.

(** The three flags of the READ analysis, read off its definition. *)
Lemma analyzeSimpleQuery_flags (q : string) :
  readParser.hasWhere (readParser.analyzeSimpleQuery q)
  = Str.includes (Str.toUpperCase (Str.trim q)) "WHERE"
  /\ readParser.hasOrderBy (readParser.analyzeSimpleQuery q)
     = Str.includes (Str.toUpperCase (Str.trim q)) "ORDER BY"
  /\ readParser.hasLimit (readParser.analyzeSimpleQuery q)
     = Str.includes (Str.toUpperCase (Str.trim q)) "LIMIT".
Proof. repeat split. Qed.

(** Whatever the text, once [ LIMIT 1000] is put after it the trimmed
    text ends with it. *)
Lemma trim_keeps_limit (q : string) :
  exists x, Str.trim (q ++ " LIMIT 1000") = x ++ "LIMIT 1000".
Proof.
  unfold Str.trim. rewrite trimStart_app.
  destruct (allIn Re.Space q).
  - now exists "".
  - exists (Str.trimStart q ++ " ").
    change " LIMIT 1000" with (" " ++ "LIMIT 1000").
    rewrite <- append_assoc. apply trimEnd_app. discriminate.
Qed.

(** X11.  [optimizeSimpleQuery] rewrites a query at most once: it puts
    [ LIMIT 1000] after a query whose analysis found neither LIMIT nor
    WHERE and leaves every other query alone, and the analysis of what it
    answers always finds a LIMIT or a WHERE, so optimising that again
    changes nothing. *)
Theorem X11_optimizeSimpleQuery_idempotent :
  forall q : string,
    let optimize q :=
      readParser.optimized
        (readParser.optimizeSimpleQuery q (readParser.analyzeSimpleQuery q)) in
    (optimize q = q \/ optimize q = q ++ " LIMIT 1000")
    /\ (readParser.hasLimit (readParser.analyzeSimpleQuery (optimize q)) = true
        \/ readParser.hasWhere (readParser.analyzeSimpleQuery (optimize q))
           = true)
    /\ optimize (optimize q) = optimize q.
Proof.
  intros q optimize.
  assert (L : forall x, readParser.hasLimit
                          (readParser.analyzeSimpleQuery (x ++ " LIMIT 1000"))
                        = true).
  { intros x. destruct (analyzeSimpleQuery_flags (x ++ " LIMIT 1000"))
      as [_ [_ ->]].
    destruct (trim_keeps_limit x) as [y ->]. rewrite toUpperCase_app.
    apply includes_right. reflexivity. }
  assert (S : forall x, readParser.hasLimit (readParser.analyzeSimpleQuery x)
                        = true
                        \/ readParser.hasWhere (readParser.analyzeSimpleQuery x)
                           = true ->
                        optimize x = x).
  { intros x H. unfold optimize, readParser.optimizeSimpleQuery.
    cbn [readParser.optimized].
    destruct H as [-> | ->]; [reflexivity |].
    now rewrite andb_false_r. }
  assert (C : (optimize q = q
               /\ (readParser.hasLimit (readParser.analyzeSimpleQuery q) = true
                   \/ readParser.hasWhere (readParser.analyzeSimpleQuery q)
                      = true))
              \/ optimize q = q ++ " LIMIT 1000").
  { unfold optimize, readParser.optimizeSimpleQuery.
    cbn [readParser.optimized].
    destruct (readParser.hasLimit (readParser.analyzeSimpleQuery q));
      [left; split; [reflexivity | now left] |].
    destruct (readParser.hasWhere (readParser.analyzeSimpleQuery q));
      [left; split; [reflexivity | now right] |].
    now right. }
  destruct C as [[E H] | E]; rewrite E.
  - split; [now left |]. split; [exact H |]. now rewrite E.
  - split; [now right |]. split; [left; apply L |].
    apply S. left. apply L.
Qed.

(** X12.  The safety limit of the advanced parser is put at most once:
    optimising the text [optimizeAdvancedQuery] answers, with the
    analysis of that text, gives the same text again. *)
Theorem X12_optimizeAdvancedQuery_idempotent :
  forall q : string,
    let optimize q :=
      selectParser.optimizeAdvancedQuery q (selectParser.deepAnalyze q) in
    (optimize q = q \/ optimize q = q ++ " LIMIT 500")
    /\ optimize (optimize q) = optimize q.
Proof.
  intros q optimize.
  assert (L : Re.test true
                (Re.Seq Re.WordB (Re.Seq (Re.Lit "LIMIT") Re.WordB))
                (q ++ " LIMIT 500") = true).
  { apply limitWord_spec. exists (q ++ " "), "LIMIT", " 500".
    split; [now rewrite append_assoc |]. split; [reflexivity |].
    split; [| reflexivity]. now rewrite lastFrom_app. }
  unfold optimize, selectParser.optimizeAdvancedQuery.
  destruct (String.eqb (selectParser.complexity (selectParser.deepAnalyze q))
                       "very_complex"
            && negb (Re.test true
                       (Re.Seq Re.WordB (Re.Seq (Re.Lit "LIMIT") Re.WordB)) q))
    eqn:E.
  - split; [now right |]. rewrite L. now rewrite andb_false_r.
  - split; [now left |]. now rewrite E.
Qed.

(** X13.  The READ analysis and the analysis of the shell generator read
    the same things off every query: the same answers to whether it has
    WHERE, ORDER BY and LIMIT, the same limit, the same ORDER BY keys with
    the same directions, and, whenever the READ analysis records a table,
    the table the shell generator uses. *)
Theorem X13_read_and_shell_analyses_agree :
  forall q : string,
    readParser.hasWhere (readParser.analyzeSimpleQuery q)
    = mongoShell.hasWhere (mongoShell.analyzeSQL q)
    /\ readParser.hasOrderBy (readParser.analyzeSimpleQuery q)
       = mongoShell.hasOrderBy (mongoShell.analyzeSQL q)
    /\ readParser.hasLimit (readParser.analyzeSimpleQuery q)
       = mongoShell.hasLimit (mongoShell.analyzeSQL q)
    /\ readParser.limit (readParser.analyzeSimpleQuery q)
       = mongoShell.limit (mongoShell.analyzeSQL q)
    /\ List.map (fun k => (readParser.field k, readParser.direction k))
                (readParser.orderBy (readParser.analyzeSimpleQuery q))
       = match mongoShell.orderBy (mongoShell.analyzeSQL q) with
         | Some keys =>
             List.map (fun k => (mongoShell.key k, mongoShell.direction k))
                      keys
         | None => []
         end
    /\ (forall t : string,
          readParser.table (readParser.analyzeSimpleQuery q) = Some t ->
          mongoShell.table (mongoShell.analyzeSQL q) = t).
Proof.
  intros q.
  assert (W : Str.includes (Str.toUpperCase (Str.trim q)) "WHERE"
              = Str.includes (Str.toUpperCase q) "WHERE")
    by (rewrite toUpperCase_trim;
        apply (@includes_trim "W" "E" "HER" _ eq_refl eq_refl); now right).
  assert (O : Str.includes (Str.toUpperCase (Str.trim q)) "ORDER BY"
              = Str.includes (Str.toUpperCase q) "ORDER BY")
    by (rewrite toUpperCase_trim;
        apply (@includes_trim "O" "Y" "RDER B" _ eq_refl eq_refl); now right).
  assert (L : Str.includes (Str.toUpperCase (Str.trim q)) "LIMIT"
              = Str.includes (Str.toUpperCase q) "LIMIT")
    by (rewrite toUpperCase_trim;
        apply (@includes_trim "L" "T" "IMI" _ eq_refl eq_refl); now right).
  unfold readParser.analyzeSimpleQuery, mongoShell.analyzeSQL.
  cbn [readParser.hasWhere readParser.hasOrderBy readParser.hasLimit
       readParser.limit readParser.orderBy readParser.table
       mongoShell.hasWhere mongoShell.hasOrderBy mongoShell.hasLimit
       mongoShell.limit mongoShell.orderBy mongoShell.table].
  rewrite W, O, L.
  split; [reflexivity |]. split; [reflexivity |]. split; [reflexivity |].
  split; [reflexivity |]. split.
  - destruct (Str.includes (Str.toUpperCase q) "ORDER BY");
      [apply parseOrderBy_same | reflexivity].
  - intros t Ht. unfold mongoShell.extractTableName, mongoShell.firstName.
    change (mongoShell.nameAfter "FROM")
      with (Re.Seq (Re.Lit "FROM")
              (Re.Seq (Re.Many Re.Space 1 true)
                 (Re.Grp 1 (Re.Many Re.Word 1 true)))).
    destruct (Re.match_ true _ q) as [m|]; [| discriminate Ht].
    now rewrite Ht.
Qed.

(** ** The shell generator: [generate], [isValidShellQuery],
       [formatShellQuery] *)

Lemma generateLocalAdvanced_comment (q : string) :
  Str.startsWith (mongoShell.generateLocalAdvanced q) "//" = true.
Proof.
  unfold mongoShell.generateLocalAdvanced.
  destruct (String.eqb _ "SELECT").
  { unfold mongoShell.generateSelectShellAdvanced.
    now destruct (_ || _). }
  destruct (String.eqb _ "INSERT"); [reflexivity |].
  destruct (String.eqb _ "UPDATE"); [reflexivity |].
  destruct (String.eqb _ "DELETE"); [reflexivity |].
  destruct (String.eqb _ "CREATE"); [reflexivity |].
  destruct (String.eqb _ "DROP"); reflexivity.
Qed.

Lemma startsWith_includes (s p : string) :
  Str.startsWith s p = true -> Str.includes s p = true.
Proof.
  intros H. apply startsWith_spec in H. destruct H as [b ->].
  apply (@includes_append "" p b).
Qed.

Lemma formatShellQuery_cases (s : string) :
  (mongoShell.formatShellQuery s = s
   /\ (Str.includes s "//" = true \/ Str.includes s "/*" = true))
  \/ (mongoShell.formatShellQuery s = backendHeader ++ s
      /\ Str.includes s "//" = false /\ Str.includes s "/*" = false).
Proof.
  unfold mongoShell.formatShellQuery.
  destruct (Str.includes s "//"); [left; split; [reflexivity | now left] |].
  destruct (Str.includes s "/*"); [left; split; [reflexivity | now right] |].
  right. repeat split.
Qed.

Lemma formatShellQuery_comment (s : string) :
  Str.includes (mongoShell.formatShellQuery s) "//" = true
  \/ Str.includes (mongoShell.formatShellQuery s) "/*" = true.
Proof.
  destruct (formatShellQuery_cases s) as [[-> H] | [-> _]]; [exact H |].
  left. reflexivity.
Qed.

(** The text [generateShellQuery] answers when the request fails, and the
    one it answers when the body has no shell query, are never taken for a
    shell query. *)
Lemma error_text_invalid (msg : string) :
  mongoShell.isValidShellQuery ("// Error generando shell query: " ++ msg)
  = false.
Proof.
  unfold mongoShell.isValidShellQuery.
  change ("// Error generando shell query: " ++ msg)
    with ("// " ++ "Error" ++ " generando shell query: " ++ msg).
  rewrite includes_append. simpl negb. now rewrite andb_false_r.
Qed.

(** X14.  [generate] answers the backend's shell query only when that is
    a text [isValidShellQuery] accepts, and then in the form
    [formatShellQuery] gives it; in every other case it answers what the
    local generator makes of the SQL text.  It does so in particular when
    the request fails and when the body holds neither [shell_query] nor
    [query].  Either way the text it answers holds a comment. *)
Theorem X14_generate_falls_back :
  forall (shellServer : string -> result translatorAPI.shellBody)
         (q : string),
    (forall e : error,
        shellServer q = Throw e ->
        mongoShell.generate shellServer q = mongoShell.generateLocalAdvanced q)
    /\ (forall body : translatorAPI.shellBody,
          shellServer q = Ok body ->
          translatorAPI.truthy (translatorAPI.shell_query body) = false ->
          translatorAPI.truthy (translatorAPI.query body) = false ->
          mongoShell.generate shellServer q
          = mongoShell.generateLocalAdvanced q)
    /\ (mongoShell.generate shellServer q = mongoShell.generateLocalAdvanced q
        \/ exists s : string,
             translatorAPI.generateShellQuery shellServer q
             = translatorAPI.Text s
             /\ mongoShell.isValidShellQuery s = true
             /\ mongoShell.generate shellServer q
                = mongoShell.formatShellQuery s)
    /\ (Str.includes (mongoShell.generate shellServer q) "//" = true
        \/ Str.includes (mongoShell.generate shellServer q) "/*" = true).
Proof.
  intros shellServer q. split; [| split; [| split]].
  - intros e H. unfold mongoShell.generate, mongoShell.getFromBackend,
      translatorAPI.generateShellQuery. rewrite H.
    rewrite error_text_invalid. now rewrite andb_false_r.
  - intros body H H1 H2. unfold mongoShell.generate, mongoShell.getFromBackend,
      translatorAPI.generateShellQuery, translatorAPI.orField. rewrite H, H1, H2.
    reflexivity.
  - unfold mongoShell.generate, mongoShell.getFromBackend.
    destruct (translatorAPI.generateShellQuery shellServer q) as [| s |];
      [now left | | now left].
    destruct (Str.nonEmpty s); [| now left].
    destruct (mongoShell.isValidShellQuery s) eqn:V; [| now left].
    right. now exists s.
  - unfold mongoShell.generate.
    destruct (mongoShell.getFromBackend shellServer q) as [| s |];
      try (left; apply startsWith_includes, generateLocalAdvanced_comment).
    destruct (Str.nonEmpty s && mongoShell.isValidShellQuery s);
      [apply formatShellQuery_comment |].
    left; apply startsWith_includes, generateLocalAdvanced_comment.
Qed.

(** X15.  [formatShellQuery] only ever puts a two-line comment before the
    text it is given, and only when the text holds no comment of its own;
    what it answers always holds a comment, so formatting twice is
    formatting once; and a text [isValidShellQuery] accepts is still
    accepted once formatted. *)
Theorem X15_formatShellQuery_idempotent :
  forall s : string,
    (exists header : string, mongoShell.formatShellQuery s = header ++ s)
    /\ (Str.includes (mongoShell.formatShellQuery s) "//" = true
        \/ Str.includes (mongoShell.formatShellQuery s) "/*" = true)
    /\ mongoShell.formatShellQuery (mongoShell.formatShellQuery s)
       = mongoShell.formatShellQuery s
    /\ (mongoShell.isValidShellQuery s = true ->
        mongoShell.isValidShellQuery (mongoShell.formatShellQuery s) = true).
Proof.
  intros s. split; [| split; [| split]].
  - destruct (formatShellQuery_cases s) as [[-> _] | [-> _]].
    + now exists "".
    + now exists backendHeader.
  - apply formatShellQuery_comment.
  - unfold mongoShell.formatShellQuery at 1.
    destruct (formatShellQuery_comment s) as [-> | H]; [reflexivity |].
    rewrite H. now rewrite andb_false_r.
  - intros V. destruct (formatShellQuery_cases s) as [[-> _] | [-> _]];
      [exact V |].
    unfold mongoShell.isValidShellQuery in *.
    apply andb_true_iff in V. destruct V as [V Hdb].
    apply andb_true_iff in V. destruct V as [V _].
    apply andb_true_iff in V. destruct V as [V Herr].
    apply andb_true_iff in V. destruct V as [_ HErr].
    apply negb_true_iff in HErr, Herr.
    assert (T : String.eqb (Str.trim (backendHeader ++ s)) "" = false).
    { unfold Str.trim.
      change (Str.trimStart (backendHeader ++ s)) with (backendHeader ++ s).
      change (backendHeader ++ s)
        with (String "/" (String "/" (" MongoDB Shell Query" ++ LF ++
                "// Generado por el backend" ++ LF ++ LF ++ s))).
      destruct (@trimEnd_solid_head "/"
                  (String "/" (" MongoDB Shell Query" ++ LF ++
                     "// Generado por el backend" ++ LF ++ LF ++ s)) eq_refl)
        as [u ->].
      reflexivity. }
    rewrite T.
    rewrite (@includes_right backendHeader s "db." Hdb).
    change (Str.includes (backendHeader ++ s) "Error")
      with (Str.includes s "Error").
    change (Str.includes (backendHeader ++ s) "error")
      with (Str.includes s "error").
    rewrite HErr, Herr. reflexivity.
Qed.


(** A text with no WHERE in it, in any letter case, has no WHERE clause
    for the shell generator. *)
Lemma no_where_no_filter (q : string) :
  Str.includes (Str.toUpperCase q) "WHERE" = false ->
  mongoShell.extractWhereConditions q = "{}".
Proof.
  intros H. unfold mongoShell.extractWhereConditions, Re.match_.
  destruct (Re.search true mongoShell.wherePattern None q) as [m|] eqn:E;
    [| reflexivity].
  exfalso. apply search_reports in E.
  destruct E as [pre [suf [st' [-> [M _]]]]].
  unfold mongoShell.wherePattern in M. cbn [matches] in M.
  destruct M as [m1 [[w [Hr [Hw _]]] _]]. cbn [Re.rest] in Hr. subst suf.
  apply sameText_upper in Hw; [| reflexivity].
  rewrite !toUpperCase_app, Hw, includes_append in H. discriminate H.
Qed.

Lemma trimmed_where (q : string) :
  Str.includes (Str.toUpperCase (Str.trim q)) "WHERE"
  = Str.includes (Str.toUpperCase q) "WHERE".
Proof.
  rewrite toUpperCase_trim.
  apply (@includes_trim "W" "E" "HER" _ eq_refl eq_refl). now right.
Qed.

Lemma leads_type (k q : string) :
  In k ["INSERT"; "UPDATE"; "DELETE"; "CREATE"; "DROP"] ->
  leads k q = true -> mongoShell.detectQueryType q = k.
Proof.
  unfold leads, mongoShell.detectQueryType. intros Hk H.
  apply startsWith_spec in H. destruct H as [b ->].
  repeat (destruct Hk as [<- | Hk]; [reflexivity |]). destruct Hk.
Qed.

(** X16.  A DELETE that the WHERE gate of [deleteParser.validatePermissions]
    turns away is rendered by the shell generator with the warning line
    and the empty filter, [deleteMany({})]; an UPDATE that the gate of
    [updateParser.validatePermissions] turns away is rendered with the
    empty filter as the first argument of [updateMany], and with no
    warning line. *)
Theorem X16_rejected_statements_rendered :
  forall (p : permissions) (q : string),
    (thrown (deleteParser.validatePermissions p q)
     = Some DangerousOperationError ->
     mongoShell.generateLocalAdvanced q
     = mongoShell.addComments
         ("// ⚠️ PELIGRO: Elimina TODOS los documentos" ++ LF ++
          "db." ++ mongoShell.extractTableName q ++ ".deleteMany({});")
         "DELETE" q)
    /\ (thrown (updateParser.validatePermissions p q)
        = Some DangerousOperationError ->
        mongoShell.generateUpdateShell q
        = mongoShell.addComments
            ("db." ++ mongoShell.extractTableName q ++ ".updateMany(" ++ LF ++
             "  {}," ++ LF ++
             "  {" ++ LF ++
             "    $set: {" ++ LF ++
             "      // Campos a actualizar según SET clause" ++ LF ++
             "    }" ++ LF ++
             "  }" ++ LF ++
             ");")
            "UPDATE" q).
Proof.
  intros p q. split.
  - intros H.
    assert (G : leads "DELETE" q = true
                /\ Str.includes (Str.toUpperCase (Str.trim q)) "WHERE" = false).
    { unfold leads. unfold deleteParser.validatePermissions in H.
      destruct (Str.startsWith (Str.toUpperCase (Str.trim q)) "DELETE").
      - destruct (delete p); simpl in H; [| discriminate H].
        destruct (Str.includes _ "WHERE"); [discriminate H | now split].
      - destruct (_ || _); [destruct (drop_table p) |]; discriminate H. }
    destruct G as [Hd Hw]. rewrite trimmed_where in Hw.
    unfold mongoShell.generateLocalAdvanced.
    rewrite analyzeSQL_type, (@leads_type "DELETE" q) by (simpl; tauto).
    cbn [String.eqb Ascii.eqb Bool.eqb].
    unfold mongoShell.generateDeleteShell.
    now rewrite (no_where_no_filter q Hw).
  - intros H.
    assert (Hw : Str.includes (Str.toUpperCase (Str.trim q)) "WHERE" = false).
    { unfold updateParser.validatePermissions in H.
      destruct (update p); simpl in H; [| discriminate H].
      now destruct (Str.includes _ "WHERE"). }
    rewrite trimmed_where in Hw. unfold mongoShell.generateUpdateShell.
    now rewrite (no_where_no_filter q Hw).
Qed.

(** ** The examples the parsers offer *)

(** The capital form of the trimmed text of an example: a fixed opening,
    the table, a fixed close. *)
Lemma example_text (P t S : string) :
  match P with String c _ => Char.is_space c | EmptyString => true end
  = false ->
  Str.trimEnd S = S -> S <> "" ->
  Str.toUpperCase (Str.trim (P ++ t ++ S))
  = Str.toUpperCase P ++ Str.toUpperCase t ++ Str.toUpperCase S.
Proof.
  intros HP HS Hne. destruct P as [|c P]; [discriminate HP |].
  unfold Str.trim.
  change (String c P ++ t ++ S) with (String c (P ++ t ++ S)).
  cbn [Str.trimStart]. rewrite HP.
  change (String c (P ++ t ++ S)) with (String c P ++ t ++ S).
  rewrite <- (append_assoc (String c P) t S).
  rewrite trimEnd_app by (rewrite HS; exact Hne).
  rewrite HS, append_assoc. now rewrite !toUpperCase_app.
Qed.

Ltac example_text :=
  rewrite example_text by (reflexivity || discriminate).

(** Settles [includes] on the capital form of an example when the word is
    in the fixed opening or in the fixed close. *)
Ltac example_includes :=
  first [ apply includes_left; reflexivity
        | apply includes_right, includes_right; reflexivity ].

Lemma delete_accepted (response : Type) (server : string -> result response)
  (p : permissions) (q : string) (log : list string) :
  delete p = true -> leads "DELETE" q = true ->
  Str.includes (Str.toUpperCase (Str.trim q)) "WHERE" = true ->
  Str.includes (Str.toUpperCase (Str.trim q)) "FROM" = true ->
  deleteParser.validatePermissions p q = Ok tt
  /\ deleteParser.execute server q log = (server q, (log ++ [q])%list).
Proof.
  unfold leads. intros Hp Hd Hw Hf.
  unfold deleteParser.validatePermissions, deleteParser.execute,
    deleteParser.validateSyntax, translatorAPI.bind, translatorAPI.lift.
  rewrite Hd, Hp, Hw, Hf. split; reflexivity.
Qed.

(** X17.  Every example [deleteParser.getExamples] offers to a caller is
    a statement that caller may run: it passes [validatePermissions] with
    the caller's own permissions, the WHERE gate included, and [execute]
    posts it as it is.  This holds whatever the current table is called. *)
Theorem X17_delete_examples_accepted :
  forall (response : Type) (server : string -> result response)
         (p : permissions) (currentTable : option string)
         (q : string) (log : list string),
    In q (deleteParser.getExamples p currentTable) ->
    deleteParser.validatePermissions p q = Ok tt
    /\ deleteParser.execute server q log = (server q, (log ++ [q])%list).
Proof.
  intros response server p currentTable q log H.
  unfold deleteParser.getExamples in H. cbv zeta in H.
  set (t := defaulted currentTable "projects") in H.
  apply in_app_or in H. destruct H as [H | H].
  - destruct (delete p) eqn:Hp; [| destruct H].
    repeat (destruct H as [<- | H];
            [apply delete_accepted;
             [exact Hp
             | unfold leads; try example_text; reflexivity
             | try example_text; first [example_includes | reflexivity]
             | try example_text; first [example_includes | reflexivity]] |]).
    destruct H.
  - destruct (drop_table p) eqn:Hp; [| destruct H].
    repeat (destruct H as [<- | H];
            [unfold deleteParser.validatePermissions, deleteParser.execute,
               deleteParser.validateSyntax, translatorAPI.bind,
               translatorAPI.lift;
             split; [now rewrite Hp | reflexivity] |]).
    destruct H.
Qed.

Lemma X17_delete_examples_accepted_witness :
  deleteParser.validatePermissions
    (Permissions false false false true false false)
    "DELETE FROM orders WHERE id = 'PRJ999';" = Ok tt
  /\ deleteParser.execute accepting "DELETE FROM orders WHERE id = 'PRJ999';" []
     = (accepting "DELETE FROM orders WHERE id = 'PRJ999';",
        ([] ++ ["DELETE FROM orders WHERE id = 'PRJ999';"])%list).
Proof.
  apply (@X17_delete_examples_accepted unit accepting
           (Permissions false false false true false false) (Some "orders")).
  vm_compute. right. left. reflexivity.
Defined.


(** [UPDATE], a word, [SET] and something to set, one blank apart, has the
    shape the UPDATE syntax check asks for. *)
Lemma update_shape (t rest : string) :
  allIn Re.Word t = true -> t <> "" ->
  allIn Re.Any rest = true -> rest <> "" ->
  Re.test true updateParser.basicPattern ("UPDATE " ++ t ++ " SET " ++ rest)
  = true.
Proof.
  intros Ht Hne Hr Hre. apply test_spec.
  exists "", ("UPDATE " ++ t ++ " SET " ++ rest),
         (Re.State (lastFrom (Some " "%char) rest) "" []).
  split; [reflexivity |].
  unfold updateParser.basicPattern. cbn [matches lastFrom].
  exists (Re.State (Some "E"%char) (" " ++ t ++ " SET " ++ rest) []).
  split; [exists "UPDATE"; repeat split |].
  exists (Re.State (Some " "%char) (t ++ " SET " ++ rest) []).
  split; [exists " "; repeat split; simpl; lia |].
  exists (Re.State (lastFrom (Some " "%char) t) (" SET " ++ rest) []).
  split.
  { exists t. cbn [Re.rest Re.prev Re.caps]. repeat split; [exact Ht |].
    destruct t; [now elim Hne | simpl; lia]. }
  exists (Re.State (Some " "%char) ("SET " ++ rest) []).
  split; [exists " "; repeat split; simpl; lia |].
  exists (Re.State (Some "T"%char) (" " ++ rest) []).
  split; [exists "SET"; repeat split |].
  exists (Re.State (Some " "%char) rest []).
  split; [exists " "; repeat split; simpl; lia |].
  exists rest. cbn [Re.rest Re.prev Re.caps].
  rewrite append_empty_r. repeat split; [exact Hr |].
  destruct rest; [now elim Hre | simpl; lia].
Qed.

Lemma update_accepted (response : Type) (server : string -> result response)
  (p : permissions) (q : string) (log : list string) :
  update p = true ->
  Str.includes (Str.toUpperCase (Str.trim q)) "WHERE" = true ->
  updateParser.validatePermissions p q = Ok tt
  /\ (leads "UPDATE" q = true ->
      Str.includes (Str.toUpperCase (Str.trim q)) "SET" = true ->
      Re.test true updateParser.basicPattern q = true ->
      updateParser.execute server q log = (server q, (log ++ [q])%list)).
Proof.
  intros Hp Hw. split.
  - unfold updateParser.validatePermissions. now rewrite Hp, Hw.
  - unfold leads. intros Hu Hs Ht.
    unfold updateParser.execute, updateParser.validateSyntax,
      translatorAPI.bind, translatorAPI.lift.
    rewrite Hu, Hs, Ht. cbn [negb].
    unfold updateParser.performSecurityChecks, updateParser.analyzeQuery.
    cbn [updateParser.isDangerous updateParser.estimatedImpact].
    rewrite Hw. cbn [String.eqb Ascii.eqb Bool.eqb].
    now rewrite andb_false_r.
Qed.

(** X18.  A caller without the UPDATE capability is offered one line that
    says so.  Every example [updateParser.getExamples] offers to a caller
    who holds it passes [validatePermissions], so none is an UPDATE
    without WHERE; and when the current table is a word, [execute]
    accepts the example and posts it as it is. *)
Theorem X18_update_examples_accepted :
  forall (response : Type) (server : string -> result response)
         (p : permissions) (currentTable : option string)
         (q : string) (log : list string),
    In q (updateParser.getExamples p currentTable) ->
    (update p = false /\ q = "-- No tienes permisos UPDATE")
    \/ (update p = true
        /\ updateParser.validatePermissions p q = Ok tt
        /\ (allIn Re.Word (defaulted currentTable "projects") = true ->
            defaulted currentTable "projects" <> "" ->
            updateParser.execute server q log
            = (server q, (log ++ [q])%list))).
Proof.
  intros response server p currentTable q log H.
  unfold updateParser.getExamples in H. cbv zeta in H.
  set (t := defaulted currentTable "projects") in *.
  destruct (update p) eqn:Hp; cbn [negb] in H.
  - right. split; [reflexivity |].
    assert (G : forall rest : string,
               Str.trimEnd (" SET " ++ rest) = " SET " ++ rest ->
               Str.includes (Str.toUpperCase (" SET " ++ rest)) "WHERE" = true ->
               allIn Re.Any rest = true -> rest <> "" ->
               q = "UPDATE " ++ t ++ " SET " ++ rest ->
               updateParser.validatePermissions p q = Ok tt
               /\ (allIn Re.Word t = true -> t <> "" ->
                   updateParser.execute server q log
                   = (server q, (log ++ [q])%list))).
    { intros rest Htrim Hw Hany Hne ->.
      assert (U : Str.toUpperCase (Str.trim ("UPDATE " ++ t ++ " SET " ++ rest))
                  = Str.toUpperCase "UPDATE " ++ Str.toUpperCase t
                    ++ Str.toUpperCase (" SET " ++ rest))
        by (apply example_text; [reflexivity | exact Htrim | discriminate]).
      assert (W : Str.includes
                    (Str.toUpperCase
                       (Str.trim ("UPDATE " ++ t ++ " SET " ++ rest)))
                    "WHERE" = true)
        by (rewrite U; apply includes_right, includes_right, Hw).
      destruct (@update_accepted response server p _ log Hp W) as [V E].
      split; [exact V |]. intros Ht Htne. apply E.
      - unfold leads. rewrite U. reflexivity.
      - rewrite U. apply includes_right, includes_right. reflexivity.
      - now apply update_shape. }
    assert (C : forall q0 : string,
               Str.includes (Str.toUpperCase (Str.trim q0)) "WHERE" = true ->
               leads "UPDATE" q0 = true ->
               Str.includes (Str.toUpperCase (Str.trim q0)) "SET" = true ->
               Re.test true updateParser.basicPattern q0 = true ->
               q = q0 ->
               updateParser.validatePermissions p q = Ok tt
               /\ (allIn Re.Word t = true -> t <> "" ->
                   updateParser.execute server q log
                   = (server q, (log ++ [q])%list))).
    { intros q0 W L S T ->.
      destruct (@update_accepted response server p q0 log Hp W) as [V E].
      split; [exact V |]. intros _ _. now apply E. }
    destruct H as [H | [H | [H | [H | [H | [H | []]]]]]]; symmetry in H.
    + now apply (G "status = 'Completed' WHERE id = 'PRJ001';").
    + now apply (G "status = 'In Progress', priority = 'High' WHERE status = 'Planning';").
    + now apply (C "UPDATE restaurants SET rating = 4.5 WHERE name = 'Nuevo Restaurante';").
    + now apply (G "end_date = '2025-06-30' WHERE status = 'Planning' AND start_date > '2025-01-01';").
    + now apply (C "UPDATE restaurants SET cuisine_type = 'Mediterranean' WHERE cuisine_type = 'Italian' AND rating > 4;").
    + now apply (G "description = 'Proyecto actualizado' WHERE id = 'PRJ002';").
  - left. split; [reflexivity |]. destruct H as [<- | []]. reflexivity.
Qed.

Lemma X18_update_examples_accepted_witness :
  (update allPermissions = false
   /\ "UPDATE orders SET status = 'Completed' WHERE id = 'PRJ001';"
      = "-- No tienes permisos UPDATE")
  \/ (update allPermissions = true
      /\ updateParser.validatePermissions allPermissions
           "UPDATE orders SET status = 'Completed' WHERE id = 'PRJ001';"
         = Ok tt
      /\ (allIn Re.Word (defaulted (Some "orders") "projects") = true ->
          defaulted (Some "orders") "projects" <> "" ->
          updateParser.execute accepting
            "UPDATE orders SET status = 'Completed' WHERE id = 'PRJ001';" []
          = (accepting
               "UPDATE orders SET status = 'Completed' WHERE id = 'PRJ001';",
             ([] ++ ["UPDATE orders SET status = 'Completed' WHERE id = 'PRJ001';"])%list))).
Proof.
  apply (@X18_update_examples_accepted unit accepting allPermissions
           (Some "orders")).
  vm_compute. left. reflexivity.
Defined.


Lemma insert_accepted (response : Type) (server : string -> result response)
  (p : permissions) (q : string) (log : list string) :
  insert p = true -> leads "INSERT" q = true ->
  Str.includes (Str.toUpperCase (Str.trim q)) "INTO" = true ->
  Str.includes (Str.toUpperCase (Str.trim q)) "VALUES" = true ->
  createParser.validatePermissions p q = Ok tt
  /\ createParser.execute server q log = (server q, (log ++ [q])%list).
Proof.
  unfold leads. intros Hp Hi Ht Hv.
  unfold createParser.validatePermissions, createParser.execute,
    createParser.validateSyntax, translatorAPI.bind, translatorAPI.lift.
  rewrite Hi, Hp, Ht, Hv. split; reflexivity.
Qed.

(** X19.  Every example [createParser.getExamples] offers to a caller
    passes [validatePermissions] with the caller's own permissions, and
    [execute] accepts it and posts it as it is, whatever the current table
    is called. *)
Theorem X19_create_examples_accepted :
  forall (response : Type) (server : string -> result response)
         (p : permissions) (currentTable : option string)
         (q : string) (log : list string),
    In q (createParser.getExamples p currentTable) ->
    createParser.validatePermissions p q = Ok tt
    /\ createParser.execute server q log = (server q, (log ++ [q])%list).
Proof.
  intros response server p currentTable q log H.
  unfold createParser.getExamples in H. cbv zeta in H.
  set (t := defaulted currentTable "projects") in H.
  apply in_app_or in H. destruct H as [H | H].
  - destruct (insert p) eqn:Hp; [| destruct H].
    repeat (destruct H as [<- | H];
            [apply insert_accepted;
             [exact Hp
             | unfold leads; try example_text; reflexivity
             | try example_text; first [example_includes | reflexivity]
             | try example_text; first [example_includes | reflexivity]] |]).
    destruct H.
  - destruct (create_table p) eqn:Hp; [| destruct H].
    repeat (destruct H as [<- | H];
            [unfold createParser.validatePermissions, createParser.execute,
               createParser.validateSyntax, translatorAPI.bind,
               translatorAPI.lift;
             split; [now rewrite Hp | reflexivity] |]).
    destruct H.
Qed.

Lemma X19_create_examples_accepted_witness :
  createParser.validatePermissions
    (Permissions false false false false true false)
    "CREATE COLLECTION nueva_coleccion;" = Ok tt
  /\ createParser.execute accepting "CREATE COLLECTION nueva_coleccion;" []
     = (accepting "CREATE COLLECTION nueva_coleccion;",
        ([] ++ ["CREATE COLLECTION nueva_coleccion;"])%list).
Proof.
  apply (@X19_create_examples_accepted unit accepting
           (Permissions false false false false true false) None).
  vm_compute. right. left. reflexivity.
Defined.

Lemma read_posts (response : Type) (server : string -> result response)
  (q : string) (log : list string) :
  readParser.validateSyntax q = Ok tt ->
  exists sent : string,
    readParser.execute server q log = (server sent, (log ++ [sent])%list)
    /\ (sent = q \/ sent = q ++ " LIMIT 500").
Proof.
  intros H. unfold readParser.execute.
  destruct (readParser.shouldUseAdvancedParser q).
  - rewrite selectParser_execute_sent. cbv zeta.
    destruct (selectParser.hasAggregation _); [exists q; auto |].
    destruct (_ && _); eexists; eauto.
  - unfold translatorAPI.bind, translatorAPI.lift. rewrite H.
    exists q. auto.
Qed.

(** X20.  A caller without the SELECT capability is offered one line that
    says so.  Every example [readParser.getExamples] offers to a caller
    who holds it passes the capability check and the syntax check of the
    READ parser, whatever the current table is called, and [execute]
    posts it, as it is or with the safety limit of the advanced parser. *)
Theorem X20_read_examples_accepted :
  forall (response : Type) (server : string -> result response)
         (p : permissions) (currentTable : option string)
         (q : string) (log : list string),
    In q (readParser.getExamples p currentTable) ->
    (select p = false /\ q = "-- No tienes permisos SELECT")
    \/ (select p = true
        /\ readParser.validatePermissions p q = Ok tt
        /\ readParser.validateSyntax q = Ok tt
        /\ exists sent : string,
             readParser.execute server q log
             = (server sent, (log ++ [sent])%list)
             /\ (sent = q \/ sent = q ++ " LIMIT 500")).
Proof.
  intros response server p currentTable q log H.
  unfold readParser.getExamples in H. cbv zeta in H.
  set (t := defaulted currentTable "projects") in *.
  destruct (select p) eqn:Hp; cbn [negb] in H.
  - right. split; [reflexivity |].
    split; [unfold readParser.validatePermissions; now rewrite Hp |].
    assert (V : readParser.validateSyntax q = Ok tt).
    { unfold readParser.validateSyntax.
      repeat (destruct H as [<- | H];
              [try example_text;
               match goal with
               | |- context [Str.startsWith ?u "SELECT"] =>
                   replace (Str.startsWith u "SELECT") with true
                     by reflexivity
               end;
               match goal with
               | |- context [Str.includes ?u "FROM"] =>
                   replace (Str.includes u "FROM") with true
                     by (symmetry;
                         first [apply includes_left; reflexivity
                               | reflexivity])
               end;
               reflexivity |]).
      destruct H. }
    split; [exact V | now apply read_posts].
  - left. split; [reflexivity |]. destruct H as [<- | []]. reflexivity.
Qed.

Lemma X20_read_examples_accepted_witness :
  (select allPermissions = false
   /\ "SELECT * FROM orders LIMIT 5;" = "-- No tienes permisos SELECT")
  \/ (select allPermissions = true
      /\ readParser.validatePermissions allPermissions
           "SELECT * FROM orders LIMIT 5;" = Ok tt
      /\ readParser.validateSyntax "SELECT * FROM orders LIMIT 5;" = Ok tt
      /\ exists sent : string,
           readParser.execute accepting "SELECT * FROM orders LIMIT 5;" []
           = (accepting sent, ([] ++ [sent])%list)
           /\ (sent = "SELECT * FROM orders LIMIT 5;"
               \/ sent = "SELECT * FROM orders LIMIT 5;" ++ " LIMIT 500")).
Proof.
  apply (@X20_read_examples_accepted unit accepting allPermissions
           (Some "orders")).
  vm_compute. left. reflexivity.
Defined.

(** ** What the analyses record *)

Lemma trimmed_items (l : list string) (f : string) :
  In f (List.map Str.trim l) -> Str.trim f = f.
Proof.
  intros H. apply in_map_iff in H. destruct H as [x [<- _]]. apply trim_idem.
Qed.

Lemma namedAfter_shift (k q t a : string) :
  namedAfter k q t -> namedAfter k (a ++ q) t.
Proof.
  intros [pre [kw [blanks [post [-> H]]]]].
  exists (a ++ pre), kw, blanks, post. now rewrite append_assoc.
Qed.

(** X21.  What [createParser.analyzeQuery] records.  For an INSERT: the
    kind INSERT, an estimate of at least one document, no column
    information, as table (when it records one) a word of the text that
    follows INTO and some blanks, and field names with no blank at either
    end.  For anything else, a CREATE included: no table, no fields and
    an estimate of zero documents.  A column count is only recorded for
    the kind CREATE_TABLE and is at least one. *)
Theorem X21_create_analyzeQuery_records :
  forall q : string,
    (leads "INSERT" q = true ->
     createParser.type (createParser.analyzeQuery q) = Some "INSERT"
     /\ 1 <= createParser.estimatedDocs (createParser.analyzeQuery q)
     /\ createParser.hasColumns (createParser.analyzeQuery q) = None
     /\ createParser.estimatedColumns (createParser.analyzeQuery q) = None
     /\ (forall t : string,
           createParser.table (createParser.analyzeQuery q) = Some t ->
           namedAfter "INTO" q t)
     /\ (forall f : string,
           In f (createParser.fields (createParser.analyzeQuery q)) ->
           Str.trim f = f))
    /\ (leads "INSERT" q = false ->
        createParser.table (createParser.analyzeQuery q) = None
        /\ createParser.fields (createParser.analyzeQuery q) = []
        /\ createParser.estimatedDocs (createParser.analyzeQuery q) = 0)
    /\ (forall n : nat,
          createParser.estimatedColumns (createParser.analyzeQuery q) = Some n ->
          1 <= n
          /\ createParser.type (createParser.analyzeQuery q)
             = Some "CREATE_TABLE"
          /\ createParser.hasColumns (createParser.analyzeQuery q)
             = Some true).
Proof.
  intros q. unfold leads, createParser.analyzeQuery.
  split; [| split].
  - intros ->.
    cbn [createParser.type createParser.estimatedDocs createParser.hasColumns
         createParser.estimatedColumns createParser.table createParser.fields].
    split; [reflexivity |]. split.
    { unfold Re.matchTexts. destruct (Re.execAll _ _ _ _ _); simpl; lia. }
    split; [reflexivity |]. split; [reflexivity |]. split.
    + intros t. unfold Re.match_.
      destruct (Re.search true _ None q) as [m|] eqn:E; [| discriminate].
      apply search_reports in E. destruct E as [pre [suf [st' [-> [M G]]]]].
      unfold Re.group. rewrite G. clear G m. cbn [matches] in M.
      destruct M as [m1 [[w1 [Hr1 [_ [Hp1 Hc1]]]] [m2 [[w2 [Hr2 [_ [_ [Hp2 Hc2]]]]] M]]]].
      cbn [Re.rest Re.prev Re.caps] in *.
      intros Ht.
      assert (N : namedAfter "INTO" ((pre ++ w1 ++ w2) ++ Re.rest m2) t).
      { apply (@nameAfter_matches "INTO" (pre ++ w1 ++ w2) (Re.rest m2) t st'
                 eq_refl); [| exact Ht].
        unfold mongoShell.nameAfter. cbn [matches].
        replace (Re.State (lastFrom None (pre ++ w1 ++ w2)) (Re.rest m2) [])
          with m2; [exact M |].
        destruct m2 as [pv2 r2 c2]. cbn [Re.rest Re.prev Re.caps] in *.
        rewrite Hp2, Hp1, Hc2, Hc1, !lastFrom_app. reflexivity. }
      rewrite Hr1, Hr2. now rewrite !append_assoc in N.
    + intros f. destruct (Re.match_ true _ q) as [m|]; [| intros []].
      destruct (Re.group 1 m); [apply trimmed_items | intros []].
  - intros ->.
    destruct (Str.startsWith _ "CREATE"); [destruct (_ && _) |];
      repeat split.
  - intros n.
    destruct (Str.startsWith _ "INSERT"); [discriminate |].
    destruct (Str.startsWith _ "CREATE"); [| discriminate].
    destruct (_ && _); [| discriminate].
    cbn [createParser.type createParser.estimatedColumns
         createParser.hasColumns].
    destruct (Re.match_ true _ q) as [m|]; [| discriminate].
    destruct (Re.group 1 m) as [c|]; [| discriminate].
    intros H. injection H as <-. split; [apply splitChar_length |].
    split; reflexivity.
Qed.

Lemma estimate_cases (a : readParser.analysis) :
  (readParser.estimateResultSize a = "small"
   <-> exists n : N, readParser.limit a = Some n /\ (1 <= n <= 10)%N)
  /\ (readParser.estimateResultSize a = "small"
      \/ readParser.estimateResultSize a = "medium"
      \/ readParser.estimateResultSize a = "large")
  /\ (readParser.limit a = None \/ readParser.limit a = Some 0%N ->
      readParser.estimateResultSize a
      = if readParser.hasWhere a then "medium" else "large").
Proof.
  unfold readParser.estimateResultSize.
  destruct (readParser.limit a) as [n|].
  - destruct (n =? 0)%N eqn:E0; cbn [negb].
    + apply N.eqb_eq in E0. subst n. split; [| split].
      * split; [destruct (readParser.hasWhere a); discriminate |].
        intros [n [H Hn]]. injection H as <-. lia.
      * destruct (readParser.hasWhere a); auto.
      * reflexivity.
    + apply N.eqb_neq in E0.
      destruct (n <=? 10)%N eqn:E1; [| destruct (n <=? 100)%N eqn:E2].
      * apply N.leb_le in E1. split; [| split]; [| auto |].
        -- split; [| reflexivity]. intros _. exists n. split; [reflexivity | lia].
        -- intros [H | H]; [discriminate H | injection H as ->; now elim E0].
      * apply N.leb_gt in E1. split; [| split]; [| auto |].
        -- split; [discriminate |]. intros [k [H Hk]]. injection H as <-. lia.
        -- intros [H | H]; [discriminate H | injection H as ->; now elim E0].
      * apply N.leb_gt in E1. split; [| split]; [| auto |].
        -- split; [discriminate |]. intros [k [H Hk]]. injection H as <-. lia.
        -- intros [H | H]; [discriminate H | injection H as ->; now elim E0].
  - split; [| split].
    + split; [destruct (readParser.hasWhere a); discriminate |].
      intros [n [H _]]. discriminate H.
    + destruct (readParser.hasWhere a); auto.
    + reflexivity.
Qed.

(** X22.  What [readParser.analyzeSimpleQuery] records.  The estimated
    size is always one of small, medium and large: small exactly when the
    limit read off the text is between 1 and 10, and, when no limit was
    read or the limit is 0, medium with a WHERE and large without.  A
    limit is only recorded when the text has the word LIMIT; the table,
    when one is recorded, is a word of the text that follows FROM and
    some blanks; the field names have no blank at either end. *)
Theorem X22_read_analyzeSimpleQuery_records :
  forall q : string,
    (readParser.estimatedResultSize (readParser.analyzeSimpleQuery q) = "small"
     <-> exists n : N,
           readParser.limit (readParser.analyzeSimpleQuery q) = Some n
           /\ (1 <= n <= 10)%N)
    /\ (readParser.estimatedResultSize (readParser.analyzeSimpleQuery q)
        = "small"
        \/ readParser.estimatedResultSize (readParser.analyzeSimpleQuery q)
           = "medium"
        \/ readParser.estimatedResultSize (readParser.analyzeSimpleQuery q)
           = "large")
    /\ (readParser.limit (readParser.analyzeSimpleQuery q) = None
        \/ readParser.limit (readParser.analyzeSimpleQuery q) = Some 0%N ->
        readParser.estimatedResultSize (readParser.analyzeSimpleQuery q)
        = if readParser.hasWhere (readParser.analyzeSimpleQuery q)
          then "medium" else "large")
    /\ (forall n : N,
          readParser.limit (readParser.analyzeSimpleQuery q) = Some n ->
          readParser.hasLimit (readParser.analyzeSimpleQuery q) = true)
    /\ (forall t : string,
          readParser.table (readParser.analyzeSimpleQuery q) = Some t ->
          namedAfter "FROM" q t)
    /\ (forall f : string,
          In f (readParser.fields (readParser.analyzeSimpleQuery q)) ->
          Str.trim f = f).
Proof.
  intros q.
  match goal with
  | |- context [readParser.estimatedResultSize (readParser.analyzeSimpleQuery q)] =>
      pose proof (estimate_cases
                    {| readParser.type := "SELECT_SIMPLE";
                       readParser.table := readParser.table (readParser.analyzeSimpleQuery q);
                       readParser.fields := readParser.fields (readParser.analyzeSimpleQuery q);
                       readParser.hasWhere := readParser.hasWhere (readParser.analyzeSimpleQuery q);
                       readParser.hasOrderBy := readParser.hasOrderBy (readParser.analyzeSimpleQuery q);
                       readParser.hasLimit := readParser.hasLimit (readParser.analyzeSimpleQuery q);
                       readParser.complexity := "simple";
                       readParser.conditions := readParser.conditions (readParser.analyzeSimpleQuery q);
                       readParser.limit := readParser.limit (readParser.analyzeSimpleQuery q);
                       readParser.orderBy := readParser.orderBy (readParser.analyzeSimpleQuery q);
                       readParser.estimatedResultSize := "unknown" |}) as E
  end.
  destruct E as [E1 [E2 E3]].
  split; [exact E1 |]. split; [exact E2 |]. split; [exact E3 |].
  unfold readParser.analyzeSimpleQuery.
  cbn [readParser.limit readParser.hasLimit readParser.table readParser.fields].
  split; [| split].
  - intros n. now destruct (Str.includes _ "LIMIT").
  - intros t Ht. apply firstName_named; [reflexivity |].
    unfold mongoShell.firstName.
    change (mongoShell.nameAfter "FROM")
      with (Re.Seq (Re.Lit "FROM")
              (Re.Seq (Re.Many Re.Space 1 true)
                 (Re.Grp 1 (Re.Many Re.Word 1 true)))).
    destruct (Re.match_ true _ q) as [m|]; [exact Ht | discriminate Ht].
  - intros f. destruct (Re.match_ true _ q) as [m|]; [| intros []].
    destruct (Re.group 1 m) as [g|]; [| intros []].
    destruct (String.eqb (Str.trim g) "*").
    + intros [<- | []]. reflexivity.
    + apply trimmed_items.
Qed.


(** The field a SET item assigns is a word, or the text [unknown]. *)
Lemma fieldOf_word (u : string) :
  updateParser.fieldOf u <> ""
  /\ (updateParser.fieldOf u = "unknown"
      \/ allIn Re.Word (updateParser.fieldOf u) = true).
Proof.
  unfold updateParser.fieldOf, Re.match_.
  destruct (Re.search false _ None (Str.trim u)) as [m|] eqn:E;
    [| split; [discriminate | now left]].
  apply search_reports in E. destruct E as [pre [suf [st' [_ [M G]]]]].
  unfold Re.group. rewrite G. clear G m. cbn [matches] in M.
  destruct M as [m1 [[e [[w [Hr [Hw [Hl _]]]] ->]] [m2 [[b [_ [_ [_ [_ Hc2]]]]] [x [_ [_ [_ Hc3]]]]]]]].
  cbn [Re.rest Re.caps Re.prev] in *.
  rewrite Hc3, Hc2. cbn [Re.lookup Nat.eqb].
  rewrite (@consumed_app (Re.State (lastFrom None pre) suf []) e w Hr). split.
  - intros ->. simpl in Hl. lia.
  - now right.
Qed.

(** X23.  What [updateParser.analyzeQuery] records.  The impact is
    [all_records] exactly when the text has no WHERE; the statement is
    flagged dangerous exactly when it has no WHERE or no condition was
    read, and carries a warning exactly then; [performSecurityChecks]
    lets it through exactly when it has a WHERE.  The table, when one is
    recorded, is a word of the text that follows UPDATE and some blanks;
    the SET clause and the WHERE clause have no blank at either end; there
    is one field per comma-separated item of the SET clause, each a word
    or the text [unknown]. *)
Theorem X23_update_analyzeQuery_records :
  forall q : string,
    (updateParser.estimatedImpact (updateParser.analyzeQuery q) = "all_records"
     <-> updateParser.hasWhere (updateParser.analyzeQuery q) = false)
    /\ (updateParser.isDangerous (updateParser.analyzeQuery q) = true
        <-> updateParser.hasWhere (updateParser.analyzeQuery q) = false
            \/ updateParser.conditions (updateParser.analyzeQuery q) = [])
    /\ (updateParser.warning (updateParser.analyzeQuery q) = None
        <-> updateParser.isDangerous (updateParser.analyzeQuery q) = false)
    /\ (updateParser.performSecurityChecks (updateParser.analyzeQuery q)
        = Ok tt
        <-> updateParser.hasWhere (updateParser.analyzeQuery q) = true)
    /\ (forall t : string,
          updateParser.table (updateParser.analyzeQuery q) = Some t ->
          namedAfter "UPDATE" q t)
    /\ (forall c : string,
          updateParser.setClause (updateParser.analyzeQuery q) = Some c ->
          Str.trim c = c
          /\ List.length (updateParser.fields (updateParser.analyzeQuery q))
             = List.length (Str.splitChar "," c))
    /\ (forall f : string,
          In f (updateParser.fields (updateParser.analyzeQuery q)) ->
          f <> "" /\ (f = "unknown" \/ allIn Re.Word f = true))
    /\ (forall w : string,
          updateParser.whereClause (updateParser.analyzeQuery q) = Some w ->
          Str.trim w = w
          /\ updateParser.hasWhere (updateParser.analyzeQuery q) = true).
Proof.
  intros q. unfold updateParser.performSecurityChecks.
  unfold updateParser.analyzeQuery.
  cbn [updateParser.estimatedImpact updateParser.hasWhere
       updateParser.isDangerous updateParser.conditions updateParser.warning
       updateParser.table updateParser.setClause updateParser.fields
       updateParser.whereClause].
  split; [| split; [| split; [| split; [| split; [| split; [| split]]]]]].
  - destruct (Str.includes _ "WHERE"); split; (discriminate || reflexivity).
  - destruct (Str.includes _ "WHERE"); simpl.
    + destruct (match (match Re.match_ true _ q with
                       | Some m => option_map Str.trim (Re.group 1 m)
                       | None => None
                       end) with
                | Some w => updateParser.parseWhereConditions w
                | None => []
                end) as [|c l]; simpl; split.
      * intros _. now right.
      * reflexivity.
      * discriminate.
      * intros [H | H]; discriminate H.
    + split; [now left | reflexivity].
  - destruct (Str.includes _ "WHERE"); simpl.
    + destruct (match (match Re.match_ true _ q with
                       | Some m => option_map Str.trim (Re.group 1 m)
                       | None => None
                       end) with
                | Some w => updateParser.parseWhereConditions w
                | None => []
                end) as [|c l]; simpl; split; intros H;
        (reflexivity || discriminate).
    + split; discriminate.
  - destruct (Str.includes _ "WHERE"); simpl.
    + rewrite andb_false_r. split; reflexivity.
    + split; discriminate.
  - intros t Ht. apply firstName_named; [reflexivity |].
    unfold mongoShell.firstName.
    change (mongoShell.nameAfter "UPDATE")
      with (Re.Seq (Re.Lit "UPDATE")
              (Re.Seq (Re.Many Re.Space 1 true)
                 (Re.Grp 1 (Re.Many Re.Word 1 true)))).
    destruct (Re.match_ true _ q) as [m|]; [exact Ht | discriminate Ht].
  - intros c.
    destruct (Re.match_ true
                (Re.Seq (Re.Lit "SET")
                   (Re.Seq (Re.Many Re.Space 1 true)
                      (Re.Seq (Re.Grp 1 (Re.Many Re.Any 0 false))
                         (Re.Alt (Re.Seq (Re.Many Re.Space 1 true)
                                         (Re.Lit "WHERE")) Re.Eoi)))) q)
      as [m|]; [| discriminate].
    destruct (Re.group 1 m) as [g|]; [| discriminate].
    simpl. intros H. injection H as <-.
    split; [apply trim_idem | apply length_map].
  - intros f H.
    destruct (match Re.match_ true _ q with
              | Some m => option_map Str.trim (Re.group 1 m)
              | None => None
              end) as [c|]; [| destruct H].
    apply in_map_iff in H. destruct H as [u [<- _]]. apply fieldOf_word.
  - intros w. destruct (Str.includes _ "WHERE"); [| discriminate].
    destruct (Re.match_ true _ q) as [m|]; [| discriminate].
    destruct (Re.group 1 m) as [g|]; [| discriminate].
    simpl. intros H. injection H as <-. split; [apply trim_idem | reflexivity].
Qed.

(** ** The READ advice, piece against piece *)

Lemma trimmed_limit (q : string) :
  Str.includes (Str.toUpperCase (Str.trim q)) "LIMIT"
  = Str.includes (Str.toUpperCase q) "LIMIT".
Proof.
  rewrite toUpperCase_trim.
  apply (@includes_trim "L" "T" "IMI" _ eq_refl eq_refl). now right.
Qed.

Lemma append_longer (q s : string) : s <> "" -> q ++ s <> q.
Proof.
  intros Hs H. apply (f_equal String.length) in H. rewrite length_app in H.
  destruct s; [now elim Hs | simpl in H; lia].
Qed.

(** X24.  The three pieces of advice the READ parser gives about a query
    with neither WHERE nor LIMIT go together: [getQuerySpecificTips] gives
    its warning tip, [validateSimpleQuery] gives its warning, and
    [optimizeSimpleQuery] puts [ LIMIT 1000] after the query, all three
    exactly when the text has neither word, in any letter case.  The tip
    that suggests a LIMIT is given exactly when the analysis found none,
    and the SELECT * tip and warning come together. *)
Theorem X24_read_advice_consistent :
  forall q : string,
    let bare :=
      Str.includes (Str.toUpperCase q) "WHERE" = false
      /\ Str.includes (Str.toUpperCase q) "LIMIT" = false in
    (In "⚠️ Sin WHERE ni LIMIT puede devolver muchos resultados"
        (readParser.getQuerySpecificTips q) <-> bare)
    /\ (In "Consulta sin WHERE ni LIMIT puede devolver muchos resultados"
           (readParser.warnings (readParser.validateSimpleQuery q)) <-> bare)
    /\ (readParser.optimized
          (readParser.optimizeSimpleQuery q (readParser.analyzeSimpleQuery q))
        = q ++ " LIMIT 1000" <-> bare)
    /\ (In "💡 Considera agregar LIMIT para evitar muchos resultados"
           (readParser.getQuerySpecificTips q)
        <-> readParser.hasLimit (readParser.analyzeSimpleQuery q) = false)
    /\ (In "💡 Considera especificar campos específicos en lugar de *"
           (readParser.getQuerySpecificTips q)
        <-> In "SELECT * puede ser ineficiente - considera especificar campos"
               (readParser.warnings (readParser.validateSimpleQuery q)))
    /\ readParser.tips (readParser.validateSimpleQuery q)
       = readParser.getQuerySpecificTips q.
Proof.
  intros q bare. subst bare.
  repeat match goal with
         | |- _ /\ (readParser.tips _ = _) => split; [| reflexivity]
         | |- _ /\ _ /\ _ => split; [| idtac]
         end.
  all: unfold readParser.getQuerySpecificTips, readParser.validateSimpleQuery,
    readParser.optimizeSimpleQuery, readParser.analyzeSimpleQuery.
  all: cbn [readParser.warnings readParser.optimized readParser.hasLimit
            readParser.hasWhere readParser.tips].
  all: rewrite ?trimmed_limit, ?trimmed_where.
  all: destruct (Str.includes (Str.toUpperCase q) "WHERE");
    destruct (Str.includes (Str.toUpperCase q) "LIMIT");
    destruct (Str.includes (Str.toUpperCase q) "SELECT *");
    destruct (Str.includes (Str.toUpperCase q) "ORDER BY");
    cbn [negb andb app In];
    repeat split;
    intros;
    repeat match goal with
           | H : _ \/ _ |- _ => destruct H
           | H : _ /\ _ |- _ => destruct H
           | H : False |- _ => destruct H
           end;
    try discriminate; try tauto; try reflexivity;
    try (exfalso; match goal with
                  | H : ?a = ?a ++ _ |- _ =>
                      symmetry in H; revert H; apply append_longer;
                      discriminate
                  end).
Qed.

(** ** [mongoShell.extractLimit] *)

(** What the first result of [/LIMIT\s+(\d+)/i] holds. *)
Lemma limit_first (pv : option ascii) (suf : string) (st' : Re.state) :
  hd_error
    (Re.run true
       (Re.Seq (Re.Lit "LIMIT")
          (Re.Seq (Re.Many Re.Space 1 true)
             (Re.Grp 1 (Re.Many Re.Digit 1 true))))
       (Re.State pv suf [])) = Some st' ->
  exists kw blanks digits post : string,
    suf = kw ++ blanks ++ digits ++ post
    /\ Str.toUpperCase kw = "LIMIT"
    /\ allIn Re.Space blanks = true /\ blanks <> ""
    /\ allIn Re.Digit digits = true /\ digits <> ""
    /\ match post with
       | String c _ => Char.is_digit c = false
       | EmptyString => True
       end
    /\ Re.lookup 1 (Re.caps st') = Some digits.
Proof. apply keyword_first. reflexivity. Qed.

(** X25.  In a text of ASCII characters, [extractLimit] answers a number
    exactly when the text holds LIMIT (in any letter case), some blanks
    and a digit.  A number below 2^53 that it answers is the value of a
    whole run of digits that follows such a LIMIT, never a part of a
    longer number; and it answers [null] only for a text with no LIMIT
    followed by blanks and a digit. *)
Theorem X25_extractLimit_reads_number :
  forall q : string,
    asciiText q = true ->
    (forall n : N,
        mongoShell.extractLimit q = Some n -> (n < 2 ^ 53)%N -> limitIn q n)
    /\ ((exists n : N, limitIn q n) ->
        exists n : N, mongoShell.extractLimit q = Some n)
    /\ (mongoShell.extractLimit q = None <-> forall n : N, ~ limitIn q n).
Proof.
  intros q _.
  assert (Sound : forall n, mongoShell.extractLimit q = Some n -> limitIn q n).
  { intros n. unfold mongoShell.extractLimit, Re.match_.
    destruct (Re.search true _ None q) as [m|] eqn:E; [| discriminate].
    apply search_first in E. destruct E as [pre [suf [st' [-> [H G]]]]].
    apply limit_first in H.
    destruct H as [kw [blanks [ds [post [-> [H1 [H2 [H3 [H4 [H5 [H6 H7]]]]]]]]]]].
    unfold Re.group. rewrite G, H7. simpl. intros E. injection E as <-.
    exists pre, kw, blanks, ds, post. repeat split; assumption. }
  assert (Complete : (exists n, limitIn q n) ->
                     exists n, mongoShell.extractLimit q = Some n).
  { intros [n [pre [kw [blanks [ds [post [-> [H1 [H2 [H3 [H4 [H5 _]]]]]]]]]]]].
    assert (S : exists m,
               Re.search true
                 (Re.Seq (Re.Lit "LIMIT")
                    (Re.Seq (Re.Many Re.Space 1 true)
                       (Re.Grp 1 (Re.Many Re.Digit 1 true)))) None
                 (pre ++ kw ++ blanks ++ ds ++ post) = Some m).
    { apply search_spec. exists pre, (kw ++ blanks ++ ds ++ post).
      set (st0 := Re.State (lastFrom None pre) (kw ++ blanks ++ ds ++ post) []).
      set (st1 := Re.State (lastFrom (Re.prev st0) kw) (blanks ++ ds ++ post) []).
      set (st2 := Re.State (lastFrom (Re.prev st1) blanks) (ds ++ post) []).
      set (st3 := Re.State (lastFrom (Re.prev st2) ds) post []).
      exists (Re.State (Re.prev st3) (Re.rest st3)
                       ((1, Re.consumed st2 st3) :: Re.caps st3)).
      split; [reflexivity |]. cbn [matches]. exists st1. split.
      { exists kw. repeat split. now apply sameText_upper. }
      exists st2. split.
      { exists blanks. repeat split; [exact H2 |].
        destruct blanks; [now elim H3 | simpl; lia]. }
      exists st3. split; [| reflexivity].
      exists ds. repeat split; [exact H4 |].
      destruct ds; [now elim H5 | simpl; lia]. }
    destruct S as [m S].
    assert (N : namesGroup (Re.Seq (Re.Lit "LIMIT")
                              (Re.Seq (Re.Many Re.Space 1 true)
                                 (Re.Grp 1 (Re.Many Re.Digit 1 true)))))
      by repeat constructor.
    destruct (@match_names true _ _ m N S) as [v [Hv _]].
    exists (Num.parseInt v). unfold mongoShell.extractLimit.
    unfold Re.match_ in *. now rewrite S, Hv. }
  split; [intros n E _; now apply Sound |]. split; [exact Complete |]. split.
  - intros H n Hn. destruct (Complete (ex_intro _ n Hn)) as [n' E].
    congruence.
  - intros H. destruct (mongoShell.extractLimit q) as [n|] eqn:E;
      [| reflexivity].
    elim (H n). now apply Sound.
Qed.

Lemma X25_extractLimit_reads_number_witness :
  asciiText "SELECT * FROM orders ORDER BY total LIMIT 25" = true
  /\ limitIn "SELECT * FROM orders ORDER BY total LIMIT 25" 25.
Proof.
  split; [reflexivity |].
  apply (proj1 (@X25_extractLimit_reads_number
                  "SELECT * FROM orders ORDER BY total LIMIT 25" eq_refl));
    [evaluate | reflexivity].
Defined.

(** ** The fields of [$group] and [$project] *)

Lemma assign_keys_In (k v x : string) (o : Obj.t) :
  In x (keys (Obj.assign k v o)) <-> x = k \/ In x (keys o).
Proof.
  unfold keys. induction o as [|[k' v'] o IH]; simpl.
  - intuition congruence.
  - destruct (String.eqb k' k) eqn:E; simpl.
    + apply String.eqb_eq in E. subst k'. intuition congruence.
    + rewrite IH. intuition congruence.
Qed.

Lemma assign_keys_NoDup (k v : string) (o : Obj.t) :
  NoDup (keys (Obj.assign k v o)) <-> NoDup (keys o).
Proof.
  unfold keys. induction o as [|[k' v'] o IH]; simpl.
  - split; intros _; repeat constructor. intros [].
  - destruct (String.eqb k' k) eqn:E; simpl.
    + apply String.eqb_eq in E. now subst k'.
    + apply String.eqb_neq in E. rewrite !NoDup_cons_iff, IH.
      fold (keys (Obj.assign k v o)) (keys o). rewrite assign_keys_In.
      intuition congruence.
Qed.

Lemma assign_keys_same (k v v' : string) (o o' : Obj.t) :
  keys o = keys o' -> keys (Obj.assign k v o) = keys (Obj.assign k v' o').
Proof.
  unfold keys. revert o'. induction o as [|[k1 v1] o IH]; intros o' H.
  - destruct o'; [reflexivity | discriminate H].
  - destruct o' as [|[k2 v2] o']; [discriminate H |].
    simpl in H. injection H as <- H. simpl.
    destruct (String.eqb k1 k); simpl; [now rewrite H |].
    now rewrite (IH o' H).
Qed.

(** An assignment makes the key a property, unless the key is
    [__proto__]. *)
Lemma set_keys_In (k v x : string) (o : Obj.t) :
  In x (keys (Obj.set k v o))
  <-> (x = k /\ k <> "__proto__") \/ In x (keys o).
Proof.
  unfold Obj.set. destruct (String.eqb k "__proto__") eqn:E.
  - apply String.eqb_eq in E. intuition congruence.
  - apply String.eqb_neq in E. rewrite assign_keys_In. intuition congruence.
Qed.

Lemma set_keys_NoDup (k v : string) (o : Obj.t) :
  NoDup (keys (Obj.set k v o)) <-> NoDup (keys o).
Proof.
  unfold Obj.set. destruct (String.eqb k "__proto__"); [reflexivity |].
  apply assign_keys_NoDup.
Qed.

Lemma set_keys_same (k v v' : string) (o o' : Obj.t) :
  keys o = keys o' -> keys (Obj.set k v o) = keys (Obj.set k v' o').
Proof.
  unfold Obj.set. destruct (String.eqb k "__proto__"); [trivial |].
  apply assign_keys_same.
Qed.

Lemma set_keys_hd (k v x : string) (o : Obj.t) :
  hd_error (keys o) = Some x -> hd_error (keys (Obj.set k v o)) = Some x.
Proof.
  unfold Obj.set. destruct (String.eqb k "__proto__"); [trivial |].
  destruct o as [|[k0 w0] o]; [discriminate |].
  simpl. destruct (String.eqb k0 k) eqn:E; simpl; [| trivial].
  apply String.eqb_eq in E. now rewrite <- E.
Qed.

Lemma accumulator_known (q : string) (agg : mongoShell.aggregation) :
  In agg (mongoShell.extractAggregations q) ->
  exists v, mongoShell.accumulator agg = Some v.
Proof.
  unfold mongoShell.extractAggregations. intros H.
  apply in_flat_map in H. destruct H as [fp [Hfp H]].
  apply in_map_iff in H. destruct H as [m [<- _]].
  unfold mongoShell.accumulator, mongoShell.aggregationOf.
  cbn [mongoShell.function_ mongoShell.isCountAll mongoShell.field].
  unfold mongoShell.patterns in Hfp.
  repeat (destruct Hfp as [<- | Hfp];
          [cbn [fst String.eqb Ascii.eqb Bool.eqb andb];
           try match goal with
               | |- context [if ?b then _ else _] => destruct b
               end; eexists; reflexivity |]).
  destruct Hfp.
Qed.

Lemma fields_fold (aggs : list mongoShell.aggregation) :
  (forall agg, In agg aggs -> exists v, mongoShell.accumulator agg = Some v) ->
  forall g p : Obj.t,
    keys g = keys p -> NoDup (keys g) ->
    let g' :=
      fold_left (fun o agg =>
                   match mongoShell.accumulator agg with
                   | Some v => Obj.set (mongoShell.alias agg) v o
                   | None => o
                   end) aggs g in
    let p' :=
      fold_left (fun o agg => Obj.set (mongoShell.alias agg) "1" o) aggs p in
    keys g' = keys p' /\ NoDup (keys g')
    /\ forall k, In k (keys g') <->
                 In k (keys g)
                 \/ exists agg, In agg aggs /\ mongoShell.alias agg = k
                                /\ k <> "__proto__".
Proof.
  induction aggs as [|agg aggs IH]; intros Hacc g p Hk Hn.
  - simpl. split; [exact Hk |]. split; [exact Hn |].
    intros k. split; [auto |]. intros [H | [agg [[] _]]]. exact H.
  - cbn [fold_left]. cbv zeta.
    destruct (Hacc agg (or_introl eq_refl)) as [v Hv]. rewrite Hv.
    assert (Hacc' : forall a, In a aggs ->
                      exists v, mongoShell.accumulator a = Some v)
      by (intros a Ha; apply Hacc; now right).
    destruct (IH Hacc' (Obj.set (mongoShell.alias agg) v g)
                 (Obj.set (mongoShell.alias agg) "1" p)
                 (@set_keys_same (mongoShell.alias agg) v "1" g p Hk)
                 (proj2 (@set_keys_NoDup (mongoShell.alias agg) v g) Hn)) as [H1 [H2 H3]].
    split; [exact H1 |]. split; [exact H2 |].
    intros k. rewrite H3, set_keys_In. split.
    + intros [[[-> N] | H] | [a [Ha E]]].
      * right. exists agg. split; [now left | split; [reflexivity | exact N]].
      * now left.
      * right. exists a. split; [now right | exact E].
    + intros [H | [a [[<- | Ha] [E N]]]].
      * left. now right.
      * left. left. subst k. split; [reflexivity | exact N].
      * right. exists a. auto.
Qed.

(** X26.  For the analysis of any query, the [$project] stage projects
    exactly the fields the [$group] stage computes: the two objects are
    made with the same property names in the same order, [_id] and then
    the alias of every aggregation found, and no name comes twice, two
    aggregations with one alias sharing a single field.  The alias
    [__proto__] is the one exception: it makes no field in either
    object. *)
Theorem X26_group_and_project_fields :
  forall q : string,
    mongoShell.buildGroupStage (mongoShell.analyzeSQL q)
    = "{ $group: {" ++ LF
      ++ mongoShell.renderFields (groupFields (mongoShell.analyzeSQL q))
      ++ LF ++ "  } }"
    /\ mongoShell.buildProjectStage (mongoShell.analyzeSQL q)
       = "{ $project: {" ++ LF
         ++ mongoShell.renderFields (projectFields (mongoShell.analyzeSQL q))
         ++ LF ++ "  } }"
    /\ keys (groupFields (mongoShell.analyzeSQL q))
       = keys (projectFields (mongoShell.analyzeSQL q))
    /\ NoDup (keys (groupFields (mongoShell.analyzeSQL q)))
    /\ hd_error (keys (groupFields (mongoShell.analyzeSQL q))) = Some "_id"
    /\ (forall k : string,
          In k (keys (groupFields (mongoShell.analyzeSQL q))) <->
          k = "_id"
          \/ exists agg : mongoShell.aggregation,
               In agg (mongoShell.aggregations (mongoShell.analyzeSQL q))
               /\ mongoShell.alias agg = k
               /\ k <> "__proto__").
Proof.
  intros q. split; [reflexivity |]. split; [reflexivity |].
  assert (Hacc : forall agg,
             In agg (mongoShell.aggregations (mongoShell.analyzeSQL q)) ->
             exists v, mongoShell.accumulator agg = Some v).
  { intros agg. unfold mongoShell.analyzeSQL. cbn [mongoShell.aggregations].
    destruct (mongoShell.detectAggregationFunctions q); [| intros []].
    apply accumulator_known. }
  destruct (@fields_fold _ Hacc
              [("_id", if mongoShell.hasGroupBy (mongoShell.analyzeSQL q)
                       then DQ ++ "$group_field" ++ DQ else "null")]
              [("_id", "0")] eq_refl) as [H1 [H2 H3]].
  { repeat constructor. intros []. }
  split; [exact H1 |]. split; [exact H2 |]. split.
  - unfold groupFields.
    generalize (mongoShell.aggregations (mongoShell.analyzeSQL q)).
    generalize (if mongoShell.hasGroupBy (mongoShell.analyzeSQL q)
                then DQ ++ "$group_field" ++ DQ else "null").
    intros v0 aggs.
    assert (G : forall o : Obj.t,
               hd_error (keys o) = Some "_id" ->
               hd_error
                 (keys (fold_left
                          (fun o agg =>
                             match mongoShell.accumulator agg with
                             | Some v => Obj.set (mongoShell.alias agg) v o
                             | None => o
                             end) aggs o)) = Some "_id").
    { induction aggs as [|a aggs IH]; intros o Ho; [exact Ho |].
      cbn [fold_left]. apply IH.
      destruct (mongoShell.accumulator a); [| exact Ho].
      now apply set_keys_hd. }
    apply G. reflexivity.
  - intros k. rewrite (H3 k). simpl. intuition congruence.
Qed.

Lemma includes_nonempty (s p : string) :
  p <> "" -> Str.includes s p = true -> s <> "".
Proof.
  intros Hp H ->. simpl in H. rewrite orb_false_r in H.
  destruct p; [now elim Hp | discriminate H].
Qed.

(** X27.  [isValidShellQuery] accepts a text exactly when it holds [db.]
    and holds neither [Error] nor [error]: the two tests for an empty and
    for a blank text never decide. *)
Theorem X27_isValidShellQuery_tests :
  forall s : string,
    mongoShell.isValidShellQuery s
    = Str.includes s "db."
      && negb (Str.includes s "Error") && negb (Str.includes s "error").
Proof.
  intros s. unfold mongoShell.isValidShellQuery.
  destruct (Str.includes s "db.") eqn:D;
    [| now rewrite !andb_false_r].
  assert (T : Str.includes (Str.trim s) "db." = true)
    by (rewrite (@includes_trim "d" "." "b" s eq_refl eq_refl);
        [exact D | now right]).
  assert (N1 : Str.nonEmpty s = true)
    by (apply nonEmpty_true, (@includes_nonempty s "db."); [discriminate | exact D]).
  assert (N2 : String.eqb (Str.trim s) "" = false)
    by (apply String.eqb_neq, (@includes_nonempty _ "db."); [discriminate | exact T]).
  rewrite N1, N2. simpl.
  now destruct (Str.includes s "Error"), (Str.includes s "error").
Qed.

(** ** Aggregates: detection against routing *)

(** X28.  The three aggregate detectors are nested.  Whatever the shell
    generator's [detectAggregationFunctions] detects, the one of the
    advanced parser detects; and whatever that one detects is an aggregate
    call for the READ parser, which hands the query to the advanced
    parser, where it is posted as it is, with no safety limit. *)
Theorem X28_detected_aggregates_routed :
  forall (response : Type) (server : string -> result response)
         (q : string) (log : list string),
    (mongoShell.detectAggregationFunctions q = true ->
     selectParser.detectAggregationFunctions q = true)
    /\ (selectParser.detectAggregationFunctions q = true ->
        readParser.hasAggregation q = true
        /\ readParser.shouldUseAdvancedParser q = true
        /\ readParser.execute server q log = (server q, (log ++ [q])%list)).
Proof.
  intros response server q log. split.
  - unfold mongoShell.detectAggregationFunctions,
      selectParser.detectAggregationFunctions,
      selectParser.aggregationPatterns.
    cbn [existsb]. intros H.
    repeat (apply orb_true_iff in H; destruct H as [H | H];
            [rewrite H; rewrite ?orb_true_r; reflexivity |]).
    discriminate H.
  - intros H.
    assert (A : readParser.hasAggregation q = true)
      by (apply hasAggregation_spec, detected_is_call, H).
    assert (R : readParser.shouldUseAdvancedParser q = true)
      by (unfold readParser.shouldUseAdvancedParser; now rewrite A).
    split; [exact A |]. split; [exact R |].
    unfold readParser.execute. rewrite R.
    unfold selectParser.execute, selectParser.deepAnalyze.
    cbn [selectParser.features_ selectParser.hasAggregation].
    now rewrite H.
Qed.
